(** * Power Supps storefront: cart, shipping quote, checkout, reviews, reports

    A shallow embedding of the request handlers of [app.py] (Flask +
    SQLAlchemy over SQLite) and the properties of the cart / checkout state
    machine.

    - Python values are modelled as the handlers use them: unbounded [int]
      as [Z], [float] as IEEE-754 binary64 ([PrimFloat.float]), [str] as
      [string] (one byte per character, so the development speaks about
      ASCII text), [dict] as an insertion-ordered association list.
    - A handler is a computation in a small state-and-exception monad over
      the [World] it can touch: the committed database, the rows pending in
      the request's unit of work, the signed session, and the process's
      standard output.
    - What lies outside [app.py] is a parameter: the mail transport
      ([mail_send]) and the way the module was loaded ([script_mode]). *)

From Stdlib Require Import ZArith List String Ascii Bool Lia Floats.
From Stdlib Require Import DecimalString DecimalPos DecimalZ.
Import ListNotations.

Set Warnings "-inexact-float".

Open Scope string_scope.
Open Scope Z_scope.

(* ================================================================== *)
(** * Python builtins *)
(* ================================================================== *)

(** Exceptions, all of them subclasses of [Exception]. *)
Inductive exn_class :=
| AttributeError
| TypeError
| ValueError
| OverflowError
| BadRequestKeyError   (* werkzeug: request.form[k] on a missing key, HTTP 400 *)
| NotFound             (* werkzeug: get_or_404, HTTP 404 *)
| MailError            (* whatever the mail transport raises *)
| IntegrityError.      (* sqlalchemy: a constraint of the table refused the row *)

Record exn := mkExn { exn_cls : exn_class; exn_msg : string }.

(** [str(n)] for an [int]. *)
Definition str (n : Z) : string := NilZero.string_of_int (Z.to_int n).

(** [c.isspace()] on one-byte characters: TAB..CR, FS..US and the blank. *)
Definition isspace (c : ascii) : bool :=
  let n := nat_of_ascii c in
  ((9 <=? n) && (n <=? 13) || (28 <=? n) && (n <=? 32))%nat.

Fixpoint lstrip (s : string) : string :=
  match s with
  | String c r => if isspace c then lstrip r else s
  | EmptyString => EmptyString
  end.

Fixpoint string_rev (acc s : string) : string :=
  match s with
  | String c r => string_rev (String c acc) r
  | EmptyString => acc
  end.

(** [s.strip()] *)
Definition strip (s : string) : string :=
  string_rev "" (lstrip (string_rev "" (lstrip s))).

Definition isdigit (c : ascii) : bool :=
  let n := nat_of_ascii c in ((48 <=? n) && (n <=? 57))%nat.

(** Digit groups of an integer literal: a single underscore may sit between
    two digits.  Returns the digits without the underscores. *)
Fixpoint digit_groups (s : string) : option string :=
  match s with
  | EmptyString => None
  | String c r =>
      if isdigit c then
        match r with
        | EmptyString => Some (String c EmptyString)
        | String "_" r' => option_map (String c) (digit_groups r')
        | _ => option_map (String c) (digit_groups r)
        end
      else None
  end.

Definition digits_value (s : string) : option Z :=
  match digit_groups s with
  | Some ds => option_map Z.of_uint (NilZero.uint_of_string ds)
  | None => None
  end.

(** The white space [int] skips around a literal of one-byte characters:
    TAB..CR and the blank.  FS..US, which [str.isspace] counts in, are not
    skipped: [int] leaves a [str] of one-byte characters as it is and scans
    it with the C classification. *)
Definition isspace_int (c : ascii) : bool :=
  let n := nat_of_ascii c in
  ((9 <=? n) && (n <=? 13) || (n =? 32))%nat.

Fixpoint lstrip_int (s : string) : string :=
  match s with
  | String c r => if isspace_int c then lstrip_int r else s
  | EmptyString => EmptyString
  end.

Definition strip_int (s : string) : string :=
  string_rev "" (lstrip_int (string_rev "" (lstrip_int s))).

(** [int(s)] for a [str] in base ten: surrounding white space, an optional
    sign, digit groups.  [None] stands for [ValueError]. *)
Definition int_of_str (s : string) : option Z :=
  match strip_int s with
  | String "-" r => option_map Z.opp (digits_value r)
  | String "+" r => digits_value r
  | r => digits_value r
  end.

(** [float(n)] for an [int], as in [x * n] with [x] a float: the nearest
    binary64 value, or [OverflowError] ([None]) beyond its range. *)
Definition float_of_int (n : Z) : option float :=
  let f := SF2Prim (SpecFloat.binary_normalize prec emax n 0 false) in
  if is_infinity f then None else Some f.

(** Keys of the dictionaries kept in the session: [int] and [str] never
    compare equal, whatever they spell. *)
Inductive pykey :=
| KInt (n : Z)
| KStr (s : string).

Definition pykey_eqb (a b : pykey) : bool :=
  match a, b with
  | KInt m, KInt n => m =? n
  | KStr s, KStr t => String.eqb s t
  | _, _ => false
  end.

(** [dict]: at most one entry per key, in insertion order. *)
Definition dict (V : Type) := list (pykey * V).

Fixpoint dict_get {V} (d : dict V) (k : pykey) : option V :=
  match d with
  | [] => None
  | (k', v) :: r => if pykey_eqb k' k then Some v else dict_get r k
  end.

(** [k in d] *)
Definition dict_contains {V} (d : dict V) (k : pykey) : bool :=
  match dict_get d k with Some _ => true | None => false end.

(** [d.get(k, default)] *)
Definition dict_get_default {V} (d : dict V) (k : pykey) (default : V) : V :=
  match dict_get d k with Some v => v | None => default end.

(** [d[k] = v]: an existing key keeps its place, a new one goes last. *)
Fixpoint dict_set {V} (d : dict V) (k : pykey) (v : V) : dict V :=
  match d with
  | [] => [(k, v)]
  | (k', v') :: r =>
      if pykey_eqb k' k then (k', v) :: r else (k', v') :: dict_set r k v
  end.

(** [del d[k]] *)
Fixpoint dict_del {V} (d : dict V) (k : pykey) : dict V :=
  match d with
  | [] => []
  | (k', v') :: r =>
      if pykey_eqb k' k then dict_del r k else (k', v') :: dict_del r k
  end.

(** [o == s] for [o] a string or [None] *)
Definition option_str_eqb (o : option string) (s : string) : bool :=
  match o with
  | Some a => String.eqb a s
  | None => false
  end.

(** Truthiness of an optional string, as [all([...])] tests it. *)
Definition truthy (o : option string) : bool :=
  match o with
  | Some s => negb (String.eqb s "")
  | None => false
  end.

(* ================================================================== *)
(** * The relational store *)
(* ================================================================== *)

(** A value held in an SQLite column. *)
Inductive sqlval :=
| SqlNull
| SqlInt (n : Z)
| SqlText (s : string).

(** What SQLite makes of a bound parameter that meets an INTEGER column:
    an integer stays, a text that spells an integer becomes that integer,
    any other text stays text.  Only the plain spelling (an optional minus
    sign and decimal digits, the one [str] produces) is recognised here. *)
Definition integer_affinity (v : pykey) : sqlval :=
  match v with
  | KInt n => SqlInt n
  | KStr s =>
      match NilZero.int_of_string s with
      | Some d => SqlInt (Z.of_int d)
      | None => SqlText s
      end
  end.

Record Produto := mkProduto {
  Produto_id : Z;
  Produto_nome : string;
  Produto_imagem : string;
  Produto_preco : float }.

Record Usuario := mkUsuario {
  Usuario_id : Z;
  Usuario_nome : string;
  Usuario_senha : string }.

Record Pedido := mkPedido {
  Pedido_id : Z;
  Pedido_usuario_id : Z;
  Pedido_data : Z }.

Record ItemPedido := mkItemPedido {
  ItemPedido_id : Z;
  ItemPedido_pedido_id : Z;
  ItemPedido_produto_id : sqlval }.

Record Avaliacao := mkAvaliacao {
  Avaliacao_id : Z;
  Avaliacao_usuario_id : Z;
  Avaliacao_produto_id : sqlval;
  Avaliacao_nota : Z;
  Avaliacao_comentario : string;
  Avaliacao_data : Z }.

Record Endereco := mkEndereco {
  Endereco_id : Z;
  Endereco_pedido_id : Z;
  Endereco_cep : option string;
  Endereco_rua : option string;
  Endereco_numero_endereco : option string;
  Endereco_complemento : option string;
  Endereco_bairro : option string;
  Endereco_cidade : option string;
  Endereco_estado : option string }.

Record Database := mkDatabase {
  tb_produto : list Produto;
  tb_usuario : list Usuario;
  tb_pedido : list Pedido;
  tb_item_pedido : list ItemPedido;
  tb_avaliacao : list Avaliacao;
  tb_endereco : list Endereco }.

(** The key SQLite gives a new row of an INTEGER PRIMARY KEY table: one
    more than the largest in use. *)
Definition next_id (ids : list Z) : Z := 1 + fold_right Z.max 0 ids.

(** An INTEGER of SQLite is a signed integer of 64 bits. *)
Definition in_int64 (n : Z) : bool := (- 2 ^ 63 <=? n) && (n <? 2 ^ 63).

(** The row of [produto] whose primary key is [n].  The key of a row is an
    INTEGER: no row has a key beyond 64 bits. *)
Definition Produto_by_id (db : Database) (n : Z) : option Produto :=
  if in_int64 n then find (fun p => Produto_id p =? n) (tb_produto db) else None.

(** The row the SELECT of [Produto.query.get(ident)] yields: the parameter
    meets the INTEGER column [id]. *)
Definition Produto_row (db : Database) (ident : pykey) : option Produto :=
  match integer_affinity ident with
  | SqlInt n => Produto_by_id db n
  | _ => None
  end.

(** [item.produto] *)
Definition ItemPedido_produto (db : Database) (item : ItemPedido) : option Produto :=
  match ItemPedido_produto_id item with
  | SqlInt n => Produto_by_id db n
  | _ => None
  end.

(** [pedido.itens] *)
Definition Pedido_itens (db : Database) (pedido : Pedido) : list ItemPedido :=
  filter (fun i => ItemPedido_pedido_id i =? Pedido_id pedido) (tb_item_pedido db).

(** [Usuario.query.filter_by(nome=nome).first()] *)
Definition Usuario_by_nome (db : Database) (nome : string) : option Usuario :=
  find (fun u => String.eqb (Usuario_nome u) nome) (tb_usuario db).

Definition insert_pedido (db : Database) (usuario_id data : Z) : Z * Database :=
  let id := next_id (map Pedido_id (tb_pedido db)) in
  (id, mkDatabase (tb_produto db) (tb_usuario db)
         (tb_pedido db ++ [mkPedido id usuario_id data])
         (tb_item_pedido db) (tb_avaliacao db) (tb_endereco db)).

Definition insert_item_pedido (db : Database) (pedido_id : Z) (produto_id : sqlval)
  : Database :=
  let id := next_id (map ItemPedido_id (tb_item_pedido db)) in
  mkDatabase (tb_produto db) (tb_usuario db) (tb_pedido db)
    (tb_item_pedido db ++ [mkItemPedido id pedido_id produto_id])
    (tb_avaliacao db) (tb_endereco db).

(** The row that [db.session.add(nova_avaliacao)] leaves pending.  Whether
    the driver takes its integers is settled when the commit flushes it:
    [bind_int] in [avaliar]. *)
Definition insert_avaliacao (db : Database) (usuario_id : Z) (produto_id : sqlval)
  (nota : Z) (comentario : string) (data : Z) : Database :=
  let id := next_id (map Avaliacao_id (tb_avaliacao db)) in
  mkDatabase (tb_produto db) (tb_usuario db) (tb_pedido db) (tb_item_pedido db)
    (tb_avaliacao db ++ [mkAvaliacao id usuario_id produto_id nota comentario data])
    (tb_endereco db).

Definition insert_endereco (db : Database) (pedido_id : Z)
  (cep rua numero_endereco complemento bairro cidade estado : option string)
  : Database :=
  let id := next_id (map Endereco_id (tb_endereco db)) in
  mkDatabase (tb_produto db) (tb_usuario db) (tb_pedido db) (tb_item_pedido db)
    (tb_avaliacao db)
    (tb_endereco db ++
       [mkEndereco id pedido_id cep rua numero_endereco complemento bairro cidade estado]).

(** [db.session.delete(produto)]: the row goes; the reviews reached through
    [Produto.avaliacoes] lose their reference; order lines are left alone. *)
Definition delete_produto (db : Database) (id : Z) : Database :=
  mkDatabase
    (filter (fun p => negb (Produto_id p =? id)) (tb_produto db))
    (tb_usuario db) (tb_pedido db) (tb_item_pedido db)
    (map (fun a =>
            match Avaliacao_produto_id a with
            | SqlInt n =>
                if n =? id then
                  mkAvaliacao (Avaliacao_id a) (Avaliacao_usuario_id a) SqlNull
                    (Avaliacao_nota a) (Avaliacao_comentario a) (Avaliacao_data a)
                else a
            | _ => a
            end) (tb_avaliacao db))
    (tb_endereco db).

(* ================================================================== *)
(** * Session, world and the handler monad *)
(* ================================================================== *)

Record Session := mkSession {
  s_usuario : option string;        (* session['usuario'] *)
  s_carrinho : option (dict Z);     (* session['carrinho'] *)
  s_cep_usuario : option string;    (* session['cep_usuario'] *)
  s_frete : option float;           (* session['frete'] *)
  s_flashes : list (string * string) (* (category, message), oldest first *) }.

(** A row of the e-mail's item list: name, quantity, unit price. *)
Definition ItemEmail : Type := string * Z * float.

(** The text of a message, kept as the values its f-strings print. *)
Inductive MailBody :=
| CorpoCompra (nome : string) (linhas : list (string * Z * float)) (total : float)
| CorpoRelatorio (total_usuarios total_produtos total_pedidos : Z) (total_vendas : float).

Record Message := mkMessage {
  msg_subject : string;
  msg_recipients : list (option string);
  msg_body : MailBody;
  msg_attachment : option string }.

(** Calls of [enviar_confirmacao_compra], as made: a trace kept for the
    statements below, which the handlers never read. *)
Record ChamadaConfirmacao := mkChamada {
  ch_nome : string;
  ch_email_destino : option string;
  ch_itens : list ItemEmail;
  ch_total : float }.

Record World := mkWorld {
  w_db : Database;          (* committed rows *)
  w_tx : Database;          (* the rows the request's unit of work sees *)
  w_session : Session;
  w_stdout : list string;   (* lines printed, oldest first *)
  w_charts : list (string * list (string * Z)); (* files written by savefig *)
  w_chamadas : list ChamadaConfirmacao;
  w_now : Z                 (* CURRENT_TIMESTAMP *) }.

Inductive Res (A : Type) :=
| Val (a : A) (w : World)
| Exc (e : exn) (w : World).
Arguments Val {A} a w.
Arguments Exc {A} e w.

Definition M (A : Type) : Type := World -> Res A.

Definition ret {A} (a : A) : M A := fun w => Val a w.

Definition bind {A B} (m : M A) (k : A -> M B) : M B :=
  fun w => match m w with
           | Val a w' => k a w'
           | Exc e w' => Exc e w'
           end.

Definition raise {A} (cls : exn_class) (msg : string) : M A :=
  fun w => Exc (mkExn cls msg) w.

Definition reraise {A} (e : exn) : M A := fun w => Exc e w.

(** [try: body  except Exception as e: handler(e)] *)
Definition try_except {A} (body : M A) (handler : exn -> M A) : M A :=
  fun w => match body w with
           | Val a w' => Val a w'
           | Exc e w' => handler e w'
           end.

Declare Scope py_scope.
Delimit Scope py_scope with py.
Notation "x <- m ;; k" := (bind m (fun x => k))
  (at level 61, m at next level, right associativity) : py_scope.
Notation "m ;;; k" := (bind m (fun _ => k))
  (at level 61, right associativity) : py_scope.
Open Scope py_scope.

Definition get_session : M Session := fun w => Val (w_session w) w.

Definition put_session (s : Session) : M unit :=
  fun w => Val tt (mkWorld (w_db w) (w_tx w) s (w_stdout w) (w_charts w)
                     (w_chamadas w) (w_now w)).

Definition get_tx : M Database := fun w => Val (w_tx w) w.

Definition set_tx (w : World) (tx : Database) : World :=
  mkWorld (w_db w) tx (w_session w) (w_stdout w) (w_charts w) (w_chamadas w) (w_now w).

Definition put_tx (tx : Database) : M unit := fun w => Val tt (set_tx w tx).

(** Handing a Python [int] to the driver as the parameter of a statement:
    [OverflowError] beyond 64 bits. *)
Definition bind_int (n : Z) : M unit :=
  if in_int64 n then ret tt
  else raise OverflowError "Python int too large to convert to SQLite INTEGER".

(** [Produto.query.get(ident)] *)
Definition Produto_get (tx : Database) (ident : pykey) : M (option Produto) :=
  match ident with
  | KInt n => bind_int n ;;; ret (Produto_row tx ident)
  | KStr _ => ret (Produto_row tx ident)
  end.

Definition get_now : M Z := fun w => Val (w_now w) w.

(** [db.session.commit()] *)
Definition db_session_commit : M unit :=
  fun w => Val tt (mkWorld (w_tx w) (w_tx w) (w_session w) (w_stdout w) (w_charts w)
                     (w_chamadas w) (w_now w)).

(** [print(line)] *)
Definition print (line : string) : M unit :=
  fun w => Val tt (mkWorld (w_db w) (w_tx w) (w_session w) (w_stdout w ++ [line])
                     (w_charts w) (w_chamadas w) (w_now w)).

(** [plt.savefig(path)] of the bar chart of [vendas] *)
Definition savefig (path : string) (vendas : list (string * Z)) : M unit :=
  fun w => Val tt (mkWorld (w_db w) (w_tx w) (w_session w) (w_stdout w)
                     ((path, vendas) :: w_charts w) (w_chamadas w) (w_now w)).

Definition registrar_chamada (c : ChamadaConfirmacao) : M unit :=
  fun w => Val tt (mkWorld (w_db w) (w_tx w) (w_session w) (w_stdout w) (w_charts w)
                     (w_chamadas w ++ [c]) (w_now w)).

(** [flash(message, category)] *)
Definition flash (message category : string) : M unit :=
  s <- get_session ;;
  put_session (mkSession (s_usuario s) (s_carrinho s) (s_cep_usuario s) (s_frete s)
                 (s_flashes s ++ [(category, message)])).

(** [session['carrinho'] = carrinho] *)
Definition set_carrinho (carrinho : dict Z) : M unit :=
  s <- get_session ;;
  put_session (mkSession (s_usuario s) (Some carrinho) (s_cep_usuario s) (s_frete s)
                 (s_flashes s)).

(** [session.get('carrinho', {})] *)
Definition get_carrinho (s : Session) : dict Z :=
  match s_carrinho s with Some c => c | None => [] end.

(** The order in which [sort_keys] puts two keys of a dictionary.  The
    keys the routes file in the cart are [str]: they are compared character
    by character.  An [int] key, which no route files, is put before them
    and kept as it is. *)
Definition pykey_leb (a b : pykey) : bool :=
  match a, b with
  | KStr s, KStr t => String.leb s t
  | KInt n, KInt m => n <=? m
  | KInt _, KStr _ => true
  | KStr _, KInt _ => false
  end.

Fixpoint insert_sorted {V} (e : pykey * V) (d : dict V) : dict V :=
  match d with
  | [] => [e]
  | x :: r => if pykey_leb (fst e) (fst x) then e :: d else x :: insert_sorted e r
  end.

(** [sorted(d.items())] by key *)
Definition sorted_items {V} (d : dict V) : dict V := fold_right insert_sorted [] d.

(** The session as the next request reads it back.  Flask keeps the session
    in a cookie, written as JSON with sorted keys: the cart comes back with
    its entries in the order of their keys, whatever the order in which the
    handlers filed them. *)
Definition from_cookie (s : Session) : Session :=
  mkSession (s_usuario s) (option_map sorted_items (s_carrinho s)) (s_cep_usuario s)
    (s_frete s) (s_flashes s).

(** The world the next request of the browser starts from. *)
Definition next_request (w : World) : World :=
  mkWorld (w_db w) (w_tx w) (from_cookie (w_session w)) (w_stdout w) (w_charts w)
    (w_chamadas w) (w_now w).

(** [x * n] with [x] a float and [n] an int *)
Definition float_mul_int (x : float) (n : Z) : M float :=
  match float_of_int n with
  | Some f => ret (PrimFloat.mul x f)
  | None => raise OverflowError "int too large to convert to float"
  end.

(** [int(k)] for a key of the cart *)
Definition int_of_key (k : pykey) : M Z :=
  match k with
  | KInt n => ret n
  | KStr s =>
      match int_of_str s with
      | Some n => ret n
      | None => raise ValueError ("invalid literal for int() with base 10: " ++ s)
      end
  end.

(** [for x in l: acc = body(acc, x)] *)
Fixpoint for_each {A S} (l : list A) (body : S -> A -> M S) (acc : S) : M S :=
  match l with
  | [] => ret acc
  | x :: r => acc' <- body acc x ;; for_each r body acc'
  end.

(** [for _ in range(n): body()] *)
Fixpoint repeat_m (n : nat) (body : M unit) : M unit :=
  match n with
  | O => ret tt
  | S n' => body ;;; repeat_m n' body
  end.

(** The parts of a request the handlers read. *)
Inductive Method := GET | POST.

Record Request := mkRequest {
  req_method : Method;
  req_form : list (string * string) }.

(** [request.form.get(k)] *)
Fixpoint form_get (form : list (string * string)) (k : string) : option string :=
  match form with
  | [] => None
  | (k', v) :: r => if String.eqb k' k then Some v else form_get r k
  end.

(** [request.form[k]] *)
Definition form_item (form : list (string * string)) (k : string) : M string :=
  match form_get form k with
  | Some v => ret v
  | None => raise BadRequestKeyError k
  end.

(** The context handed to [carrinho.html]. *)
Record CarrinhoView := mkCarrinhoView {
  cv_itens : list (Produto * Z * float);
  cv_total : float;
  cv_tem_frete_gratis : bool;
  cv_valor_faltante : float;
  cv_frete : option float;
  cv_cep_usuario : option string;
  cv_total_geral : float }.

Inductive Response :=
| Redirect (endpoint : string)
| RenderCarrinho (view : CarrinhoView)
| RenderFinalizarCompra
| RenderObrigado (nome : string)
| RenderRelatorios (grafico : option string)
| RenderEnviarRelatorio
| Text (body : string).

(** What the client gets: the handler's response, or the error page Flask
    makes of an exception that left the handler. *)
Inductive HttpResult :=
| Served (r : Response)
| Failed (status : Z) (e : exn).

Definition status_of (e : exn) : Z :=
  match exn_cls e with
  | BadRequestKeyError => 400
  | NotFound => 404
  | _ => 500
  end.

(** A request: a fresh unit of work over the committed rows, the handler,
    and the teardown that drops whatever was not committed. *)
Definition serve (handler : M Response) (w : World) : World * HttpResult :=
  let fresh := mkWorld (w_db w) (w_db w) (w_session w) (w_stdout w) (w_charts w)
                 (w_chamadas w) (w_now w) in
  let teardown w' := mkWorld (w_db w') (w_db w') (w_session w') (w_stdout w')
                       (w_charts w') (w_chamadas w') (w_now w') in
  match handler fresh with
  | Val r w' => (teardown w', Served r)
  | Exc e w' => (teardown w', Failed (status_of e) e)
  end.

(* ================================================================== *)
(** * The handlers of [app.py] *)
(* ================================================================== *)

(** [df["produto"].value_counts()]: how often each name occurs.  The table
    keeps the names in order of first occurrence; the ranking by count that
    pandas applies on top is left to the chart. *)
Fixpoint count_up (table : list (string * Z)) (nome : string) : list (string * Z) :=
  match table with
  | [] => [(nome, 1)]
  | (n, c) :: r =>
      if String.eqb n nome then (n, c + 1) :: r else (n, c) :: count_up r nome
  end.

Definition value_counts (dados : list string) : list (string * Z) :=
  fold_left count_up dados [].

Section Handlers.

(** [mail.send(msg)]: [None] when the transport took the message, the
    exception it raised otherwise. *)
Variable mail_send : Message -> option exn.

(** Whether [app.py] runs as [__main__].  Then [app.run] serves from inside
    the module body and the definition of [enviar_confirmacao_compra] that
    follows it (line 725) is never bound; under a WSGI server or
    [flask run] the module is imported whole and the later definition
    replaces the one of line 115. *)
Variable script_mode : bool.

(** [os.getenv('ADMIN_EMAIL') or app.config['MAIL_DEFAULT_SENDER']] *)
Variable admin_email : option string.

Definition mail_send_m (msg : Message) : M unit :=
  match mail_send msg with
  | None => ret tt
  | Some e => reraise e
  end.

(** Line 733: one line of the item list. *)
Definition linha_email (linhas : list (string * Z * float)) (item : ItemEmail)
  : M (list (string * Z * float)) :=
  let '(produto, quantidade, preco) := item in
  valor <- float_mul_int preco quantidade ;;
  ret (linhas ++ [(produto, quantidade, valor)])%list.

(** Line 725: builds the text and sends it; logs and re-raises on failure. *)
Definition enviar_confirmacao_compra_second (nome : string)
  (email_destino : option string) (itens : list ItemEmail) (total : float)
  : M unit :=
  try_except
    (linhas <- for_each itens linha_email [] ;;
     mail_send_m
       (mkMessage "Confirmação da sua compra - Power Supps" [email_destino]
          (CorpoCompra nome linhas total) None))
    (fun e =>
       print ("❌ Erro ao enviar e-mail de compra: " ++ exn_msg e) ;;;
       reraise e).

(** [enviar_confirmacao_compra(nome=, email_destino=, itens=, total=)] as
    [finalizar_compra] calls it.  The definition of line 115 takes
    [(email_destino, pedido_id, nome_cliente, total)] and rejects the
    keywords before its body runs. *)
Definition enviar_confirmacao_compra (nome : string)
  (email_destino : option string) (itens : list ItemEmail) (total : float)
  : M unit :=
  registrar_chamada (mkChamada nome email_destino itens total) ;;;
  if script_mode then
    raise TypeError
      "enviar_confirmacao_compra() got an unexpected keyword argument 'nome'"
  else enviar_confirmacao_compra_second nome email_destino itens total.

(** Lines 218-229: one turn of the loop of the cart page. *)
Definition carrinho_item (tx : Database)
  (acc : list (Produto * Z * float) * float) (entry : pykey * Z)
  : M (list (Produto * Z * float) * float) :=
  let '(itens, total) := acc in
  let '(prod_id_str, quantidade) := entry in
  prod_id <- int_of_key prod_id_str ;;
  achado <- Produto_get tx (KInt prod_id) ;;
  match achado with
  | Some produto =>
      subtotal <- float_mul_int (Produto_preco produto) quantidade ;;
      ret ((itens ++ [(produto, quantidade, subtotal)])%list,
           PrimFloat.add total subtotal)
  | None => ret (itens, total)
  end.

(** Lines 215-229: the rows and the subtotal of the cart page. *)
Definition carrinho_itens (tx : Database) (carrinho : dict Z)
  : M (list (Produto * Z * float) * float) :=
  for_each carrinho (carrinho_item tx) ([], 0%float).

Definition carrinho : M Response :=
  s <- get_session ;;
  match s_usuario s with
  | None =>
      flash "Faça login para acessar o carrinho" "message" ;;;
      ret (Redirect "login")
  | Some _ =>
      tx <- get_tx ;;
      r <- carrinho_itens tx (get_carrinho s) ;;
      let '(itens, total) := r in
      let frete_minimo := 250%float in
      let falta := PrimFloat.sub frete_minimo total in
      let valor_faltante := if PrimFloat.ltb 0 falta then falta else 0%float in
      let tem_frete_gratis := PrimFloat.leb frete_minimo total in
      let frete := if tem_frete_gratis then Some 0%float else s_frete s in
      let total_geral :=
        PrimFloat.add total
          (match frete with
           | Some f => if PrimFloat.eqb f 0 then 0%float else f
           | None => 0%float
           end) in
      ret (RenderCarrinho
             (mkCarrinhoView itens total tem_frete_gratis valor_faltante frete
                (s_cep_usuario s) total_geral))
  end.

Definition adicionar_ao_carrinho (id : Z) : M Response :=
  s <- get_session ;;
  match s_usuario s with
  | None =>
      flash "Faça login para adicionar produtos ao carrinho" "message" ;;;
      ret (Redirect "login")
  | Some _ =>
      let carrinho := get_carrinho s in
      let id_str := KStr (str id) in
      let carrinho := dict_set carrinho id_str (dict_get_default carrinho id_str 0 + 1) in
      set_carrinho carrinho ;;;
      flash "Produto adicionado ao carrinho!" "message" ;;;
      ret (Redirect "index")
  end.

Definition alterar_quantidade (produto_id : Z) (req : Request) : M Response :=
  s <- get_session ;;
  let carrinho := get_carrinho s in
  let produto_id_str := KStr (str produto_id) in
  let acao := form_get (req_form req) "acao" in
  let carrinho :=
    match dict_get carrinho produto_id_str with
    | Some quantidade =>
        if option_str_eqb acao "mais"
        then dict_set carrinho produto_id_str (quantidade + 1)
        else if option_str_eqb acao "menos"
        then
          if quantidade - 1 <=? 0 then dict_del carrinho produto_id_str
          else dict_set carrinho produto_id_str (quantidade - 1)
        else carrinho
    | None => carrinho
    end in
  set_carrinho carrinho ;;;
  ret (Redirect "carrinho").

Definition remover_do_carrinho (produto_id : Z) : M Response :=
  s <- get_session ;;
  let carrinho := get_carrinho s in
  let carrinho :=
    if dict_contains carrinho (KInt produto_id)
    then dict_del carrinho (KInt produto_id)
    else carrinho in
  set_carrinho carrinho ;;;
  flash "Produto removido do carrinho com sucesso!" "message" ;;;
  ret (Redirect "carrinho").

Definition limpar_carrinho : M Response :=
  set_carrinho [] ;;;
  flash "Carrinho limpo com sucesso!" "message" ;;;
  ret (Redirect "carrinho").

(** Lines 327-331: one turn of the loop of the shipping quote. *)
Definition calcular_frete_item (tx : Database) (total : float) (entry : pykey * Z)
  : M float :=
  let '(prod_id_str, quantidade) := entry in
  prod_id <- int_of_key prod_id_str ;;
  achado <- Produto_get tx (KInt prod_id) ;;
  match achado with
  | Some produto =>
      subtotal <- float_mul_int (Produto_preco produto) quantidade ;;
      ret (PrimFloat.add total subtotal)
  | None => ret total
  end.

(** Lines 326-331: the subtotal the shipping rule is applied to. *)
Definition calcular_frete_total (tx : Database) (carrinho : dict Z) : M float :=
  for_each carrinho (calcular_frete_item tx) 0%float.

(** [f"{frete:.2f}"] on the two fees the rule produces. *)
Definition frete_2f (frete : float) : string :=
  if PrimFloat.eqb frete 0 then "0.00" else "19.90".

Definition calcular_frete (req : Request) : M Response :=
  let cep := form_get (req_form req) "cep" in
  if negb (truthy cep)
     || (String.length (match cep with Some c => c | None => "" end) <? 8)%nat
  then
    flash "CEP inválido. Digite um CEP válido." "error" ;;;
    ret (Redirect "carrinho")
  else
    s <- get_session ;;
    tx <- get_tx ;;
    total <- calcular_frete_total tx (get_carrinho s) ;;
    let frete := if PrimFloat.leb 250 total then 0%float else 19.90%float in
    s <- get_session ;;
    put_session (mkSession (s_usuario s) (s_carrinho s) cep (Some frete)
                   (s_flashes s)) ;;;
    flash ("Frete calculado! Valor do frete: R$ " ++ frete_2f frete) "success" ;;;
    ret (Redirect "carrinho").

(** [db.session.add(ItemPedido(pedido_id=pedido_id, produto_id=pid))] *)
Definition add_item_pedido (pedido_id : Z) (pid : pykey) : M unit :=
  tx <- get_tx ;;
  put_tx (insert_item_pedido tx pedido_id (integer_affinity pid)).

(** Lines 393-406: one turn of the loop of the checkout. *)
Definition finalizar_compra_item (pedido_id : Z)
  (acc : float * list ItemEmail) (entry : pykey * Z) : M (float * list ItemEmail) :=
  let '(total, itens_para_email) := acc in
  let '(pid, quantidade) := entry in
  tx <- get_tx ;;
  achado <- Produto_get tx pid ;;
  match achado with
  | Some prod =>
      valor <- float_mul_int (Produto_preco prod) quantidade ;;
      repeat_m (Z.to_nat quantidade) (add_item_pedido pedido_id pid) ;;;
      ret (PrimFloat.add total valor,
           (itens_para_email ++ [(Produto_nome prod, quantidade, Produto_preco prod)])%list)
  | None => ret (total, itens_para_email)
  end.

(** Lines 387-406: the order lines, the total and the e-mail's rows. *)
Definition finalizar_compra_itens (pedido_id : Z) (carrinho : dict Z)
  : M (float * list ItemEmail) :=
  for_each carrinho (finalizar_compra_item pedido_id) (0%float, []).

Definition finalizar_compra (req : Request) : M Response :=
  s <- get_session ;;
  match s_usuario s with
  | None =>
      flash "Faça login para finalizar a compra" "message" ;;;
      ret (Redirect "login")
  | Some nome_sessao =>
      match req_method req with
      | POST =>
          let form := req_form req in
          let cep := form_get form "cep" in
          let rua := form_get form "rua" in
          let numero_endereco := form_get form "numero" in
          let complemento := form_get form "complemento" in
          let bairro := form_get form "bairro" in
          let cidade := form_get form "cidade" in
          let estado := form_get form "estado" in
          let email_cliente := form_get form "email" in
          if negb (forallb truthy
                     [cep; rua; numero_endereco; bairro; cidade; estado; email_cliente])
          then
            flash "Preencha todos os campos, incluindo o e-mail para confirmação."
              "message" ;;;
            ret (Redirect "finalizar_compra")
          else
            tx <- get_tx ;;
            match Usuario_by_nome tx nome_sessao with
            | None => raise AttributeError "'NoneType' object has no attribute 'id'"
            | Some usuario =>
                now <- get_now ;;
                let '(pedido_id, tx) := insert_pedido tx (Usuario_id usuario) now in
                put_tx tx ;;;
                put_tx (insert_endereco tx pedido_id cep rua numero_endereco
                          complemento bairro cidade estado) ;;;
                s <- get_session ;;
                r <- finalizar_compra_itens pedido_id (get_carrinho s) ;;
                let '(total, itens_para_email) := r in
                db_session_commit ;;;
                set_carrinho [] ;;;
                try_except
                  (enviar_confirmacao_compra nome_sessao email_cliente
                     itens_para_email total)
                  (fun e => print ("Falha ao enviar e-mail de pedido: " ++ exn_msg e)) ;;;
                ret (RenderObrigado nome_sessao)
            end
      | GET => ret RenderFinalizarCompra
      end
  end.

Definition avaliar (produto_id : Z) (req : Request) : M Response :=
  s <- get_session ;;
  match s_usuario s with
  | None =>
      flash "Faça login para avaliar" "message" ;;;
      ret (Redirect "login")
  | Some nome_sessao =>
      nota_str <- form_item (req_form req) "nota" ;;
      nota <- match int_of_str nota_str with
              | Some n => ret n
              | None =>
                  raise ValueError
                    ("invalid literal for int() with base 10: " ++ nota_str)
              end ;;
      comentario <- form_item (req_form req) "comentario" ;;
      tx <- get_tx ;;
      match Usuario_by_nome tx nome_sessao with
      | None => raise AttributeError "'NoneType' object has no attribute 'id'"
      | Some usuario =>
          now <- get_now ;;
          put_tx (insert_avaliacao tx (Usuario_id usuario) (SqlInt produto_id)
                    nota comentario now) ;;;
          (* the INSERT that the commit flushes binds both integers *)
          bind_int produto_id ;;;
          bind_int nota ;;;
          db_session_commit ;;;
          flash "Avaliação enviada com sucesso!" "message" ;;;
          ret (Redirect "index")
      end
  end.

(** The image file of the product lives outside the store and is left out. *)
Definition excluir (id : Z) : M Response :=
  s <- get_session ;;
  match s_usuario s with
  | None =>
      flash "Faça login para excluir produtos" "message" ;;;
      ret (Redirect "login")
  | Some _ =>
      tx <- get_tx ;;
      achado <- Produto_get tx (KInt id) ;;
      match achado with
      | None => raise NotFound "404 Not Found"
      | Some _ =>
          put_tx (delete_produto tx id) ;;;
          db_session_commit ;;;
          s <- get_session ;;
          (if dict_contains (get_carrinho s) (KInt id)
           then raise AttributeError "'dict' object has no attribute 'remove'"
           else ret tt) ;;;
          flash "Produto excluído com sucesso!" "message" ;;;
          ret (Redirect "index")
      end
  end.

(** Lines 590-595 and 664-672: the names of the products sold, one per
    order line whose product still exists. *)
Definition nomes_vendidos (tx : Database) : list string :=
  flat_map (fun item =>
              match ItemPedido_produto tx item with
              | Some p => [Produto_nome p]
              | None => []
              end) (tb_item_pedido tx).

Definition relatorios_admin : M Response :=
  tx <- get_tx ;;
  let dados := nomes_vendidos tx in
  match dados with
  | [] => ret (RenderRelatorios None)
  | _ =>
      savefig "graficos/vendas_barra_horizontal.png" (value_counts dados) ;;;
      ret (RenderRelatorios (Some "graficos/vendas_barra_horizontal.png"))
  end.

(** Line 648: [total_vendas += item.produto.preco] *)
Definition total_vendas_item (tx : Database) (total : float) (item : ItemPedido)
  : M float :=
  match ItemPedido_produto tx item with
  | Some p => ret (PrimFloat.add total (Produto_preco p))
  | None => raise AttributeError "'NoneType' object has no attribute 'preco'"
  end.

(** Lines 644-648: the estimated revenue. *)
Definition total_vendas (tx : Database) : M float :=
  for_each (tb_pedido tx)
    (fun total pedido => for_each (Pedido_itens tx pedido) (total_vendas_item tx) total)
    0%float.

Definition enviar_relatorio : M Response :=
  tx <- get_tx ;;
  let total_usuarios := Z.of_nat (List.length (tb_usuario tx)) in
  let total_produtos := Z.of_nat (List.length (tb_produto tx)) in
  let total_pedidos := Z.of_nat (List.length (tb_pedido tx)) in
  vendas <- total_vendas tx ;;
  let relatorio := CorpoRelatorio total_usuarios total_produtos total_pedidos vendas in
  let dados := nomes_vendidos tx in
  caminho_imagem <-
    match dados with
    | [] => ret None
    | _ => savefig "graficos/vendas.png" (value_counts dados) ;;;
           ret (Some "graficos/vendas.png")
    end ;;
  try_except
    (mail_send_m
       (mkMessage "📊 Relatório da Loja - Power Supps" [admin_email] relatorio
          caminho_imagem) ;;;
     ret RenderEnviarRelatorio)
    (fun e => ret (Text ("Erro ao enviar relatório: " ++ exn_msg e))).

End Handlers.

(* ================================================================== *)
(** * Statements: reachable carts *)
(* ================================================================== *)

(** The requests that change the cart. *)
Inductive cart_op :=
| OpAdd (id : Z)
| OpAlter (id : Z) (req : Request)
| OpRemove (id : Z)
| OpClear.

Definition cart_handler (op : cart_op) : M Response :=
  match op with
  | OpAdd id => adicionar_ao_carrinho id
  | OpAlter id req => alterar_quantidade id req
  | OpRemove id => remover_do_carrinho id
  | OpClear => limpar_carrinho
  end.

Definition cart_of (w : World) : dict Z := get_carrinho (w_session w).

(** The carts a session can hold: the empty one, what a cart request makes
    of a reachable cart, whoever is logged in and whatever the store holds
    at that moment, and what the cookie makes of it between two requests. *)
Inductive reachable_cart : dict Z -> Prop :=
| reach_empty : reachable_cart []
| reach_step (w : World) (op : cart_op) :
    reachable_cart (cart_of w) ->
    reachable_cart (cart_of (fst (serve (cart_handler op) w)))
| reach_cookie (c : dict Z) :
    reachable_cart c -> reachable_cart (sorted_items c).

Definition quantities_positive (c : dict Z) : Prop :=
  Forall (fun entry => 1 <= snd entry) c.

(** Every key is the [str] of an integer, as the routes file them. *)
Definition keys_are_str (c : dict Z) : Prop :=
  Forall (fun entry => exists n, fst entry = KStr (str n)) c.

(** [all(p(ch) for ch in s)] *)
Fixpoint all_chars (p : ascii -> bool) (s : string) : bool :=
  match s with
  | EmptyString => true
  | String c r => p c && all_chars p r
  end.

(* ================================================================== *)
(** * A small shop, used by the examples *)
(* ================================================================== *)

Definition whey : Produto := mkProduto 1 "Whey" "whey.png" 10%float.
Definition creatina : Produto := mkProduto 2 "Creatina" "creatina.png" 5%float.
Definition ana : Usuario := mkUsuario 1 "ana" "segredo".

Definition loja : Database := mkDatabase [whey; creatina] [ana] [] [] [] [].

Definition sessao_ana : Session := mkSession (Some "ana") None None None [].

Definition mundo : World := mkWorld loja loja sessao_ana [] [] [] 1700000000.

Definition formulario_completo : list (string * string) :=
  [("cep", "01310-100"); ("rua", "Av. Paulista"); ("numero", "1000");
   ("bairro", "Bela Vista"); ("cidade", "Sao Paulo"); ("estado", "SP");
   ("email", "ana@example.com")].

(** A transport that takes every message, and one that is down. *)
Definition entrega : Message -> option exn := fun _ => None.

(** A transport that refuses the messages for one address and takes every
    other. *)
Definition so_este_destinatario : Message -> option exn :=
  fun m =>
    match msg_recipients m with
    | [Some a] =>
        if String.eqb a "ana@example.com"
        then Some (mkExn MailError "Recipient refused") else None
    | _ => None
    end.

(** Ana's session after [/adicionar_ao_carrinho/1] twice and
    [/adicionar_ao_carrinho/2] once: the cart [{"1": 2, "2": 1}]. *)
Definition mundo_com_carrinho : World :=
  fst (serve (adicionar_ao_carrinho 2)
         (fst (serve (adicionar_ao_carrinho 1)
                 (fst (serve (adicionar_ao_carrinho 1) mundo))))).

(* ================================================================== *)
(** * Statements: forms *)
(* ================================================================== *)

(** The form fields [finalizar_compra] insists on. *)
Definition campos_obrigatorios : list string :=
  ["cep"; "rua"; "numero"; "bairro"; "cidade"; "estado"; "email"].

(** The form carries a non-empty value for every required field. *)
Definition formulario_valido (form : list (string * string)) : bool :=
  forallb (fun campo => truthy (form_get form campo)) campos_obrigatorios.

(** The postal codes [calcular_frete] turns down: none, or fewer than eight
    characters as submitted. *)
Definition cep_curto (cep : option string) : Prop :=
  match cep with
  | None => True
  | Some c => (String.length c < 8)%nat
  end.

(* ================================================================== *)
(** * Statements: checkout *)
(* ================================================================== *)

(** The world with other lines on the standard output and another trace of
    notification calls. *)
Definition set_log (w : World) (out : list string) (ch : list ChamadaConfirmacao)
  : World :=
  mkWorld (w_db w) (w_tx w) (w_session w) out (w_charts w) ch (w_now w).

(** The line [finalizar_compra] prints when the notification raised. *)
Definition falha_email (msg : string) : string :=
  "Falha ao enviar e-mail de pedido: " ++ msg.

(** The purchase confirmation raises [e]: the call, as [finalizar_compra]
    makes it, ends in that exception, be it the transport that raised on the
    message, the formatting of a line, or the call itself. *)
Definition envio_levanta (mail_send : Message -> option exn) (script_mode : bool)
  (nome : string) (email_destino : option string) (itens : list ItemEmail)
  (total : float) (e : exn) : Prop :=
  exists w w',
    enviar_confirmacao_compra mail_send script_mode nome email_destino itens total w
    = Exc e w'.

(** Every quantity of the cart has a [float]. *)
Definition quantidades_convertiveis (c : dict Z) : Prop :=
  Forall (fun entry => float_of_int (snd entry) <> None) c.

(** The product references of the order lines a cart gives rise to, in the
    order the loop of the checkout adds them. *)
Definition referencias (tx : Database) (c : dict Z) : list sqlval :=
  flat_map (fun entry =>
              match Produto_row tx (fst entry) with
              | Some _ => repeat (integer_affinity (fst entry)) (Z.to_nat (snd entry))
              | None => []
              end) c.

(** [tx'] is [tx] with order lines added at the end, all of order [pid],
    referring to [refs] in that order. *)
Definition itens_acrescidos (pid : Z) (tx tx' : Database) (refs : list sqlval) : Prop :=
  tb_produto tx' = tb_produto tx /\
  tb_usuario tx' = tb_usuario tx /\
  tb_pedido tx' = tb_pedido tx /\
  tb_avaliacao tx' = tb_avaliacao tx /\
  tb_endereco tx' = tb_endereco tx /\
  exists extra,
    tb_item_pedido tx' = (tb_item_pedido tx ++ extra)%list /\
    Forall (fun i => ItemPedido_pedido_id i = pid) extra /\
    map ItemPedido_produto_id extra = refs.

(** The unit of work of a checkout once the order and its address are in:
    what the loop over the cart starts from. *)
Definition pedido_aberto (w : World) (req : Request) (usuario : Usuario) : World :=
  let form := req_form req in
  let aberto := insert_pedido (w_db w) (Usuario_id usuario) (w_now w) in
  mkWorld (w_db w)
    (insert_endereco (snd aberto) (fst aberto)
       (form_get form "cep") (form_get form "rua") (form_get form "numero")
       (form_get form "complemento") (form_get form "bairro")
       (form_get form "cidade") (form_get form "estado"))
    (w_session w) (w_stdout w) (w_charts w) (w_chamadas w) (w_now w).

(** The session with an empty cart. *)
Definition carrinho_vazio (s : Session) : Session :=
  mkSession (s_usuario s) (Some []) (s_cep_usuario s) (s_frete s) (s_flashes s).

(** The order line refers to the product of key [n]. *)
Definition refere (n : Z) (item : ItemPedido) : bool :=
  match ItemPedido_produto_id item with
  | SqlInt m => m =? n
  | _ => false
  end.


(** A key the driver takes as the parameter of a statement: any [str], and
    an [int] of 64 bits. *)
Definition chave_aceita (k : pykey) : Prop :=
  match k with
  | KInt n => in_int64 n = true
  | KStr _ => True
  end.

Definition chaves_aceitas (c : dict Z) : Prop :=
  Forall (fun entry => chave_aceita (fst entry)) c.

(** Every key is the [str] of an integer of 64 bits: the keys that
    [adicionar_ao_carrinho] files for the key of a row. *)
Definition keys_fit_int64 (c : dict Z) : Prop :=
  Forall (fun entry => exists n, fst entry = KStr (str n) /\ in_int64 n = true) c.
(* ================================================================== *)
(** * More of [app.py]: uploads, accounts, order history, contact *)
(* ================================================================== *)

From Stdlib Require Import Permutation Sorted.

(** [s.lower()] on one-byte characters: the letters A..Z. *)
Definition lower_char (c : ascii) : ascii :=
  let n := nat_of_ascii c in
  if ((65 <=? n) && (n <=? 90))%nat then ascii_of_nat (n + 32) else c.

Fixpoint lower (s : string) : string :=
  match s with
  | EmptyString => EmptyString
  | String c r => String (lower_char c) (lower r)
  end.

(** [c in s] for a character [c] *)
Fixpoint contains_char (c : ascii) (s : string) : bool :=
  match s with
  | EmptyString => false
  | String c' r => Ascii.eqb c' c || contains_char c r
  end.

(** [s.rsplit(sep, 1)] when [sep] occurs in [s]: what comes before its last
    occurrence and what comes after; [None] when it does not occur (the
    list then has [s] alone). *)
Fixpoint rsplit1 (sep : ascii) (s : string) : option (string * string) :=
  match s with
  | EmptyString => None
  | String c r =>
      match rsplit1 sep r with
      | Some (a, b) => Some (String c a, b)
      | None => if Ascii.eqb c sep then Some (EmptyString, r) else None
      end
  end.

Definition ALLOWED_EXTENSIONS : list string := ["png"; "jpg"; "jpeg"; "gif"].

Definition allowed_file (filename : string) : bool :=
  contains_char "." filename &&
  match rsplit1 "." filename with
  | Some (_, ext) => existsb (String.eqb (lower ext)) ALLOWED_EXTENSIONS
  | None => false
  end.

(** The line feed of the message texts. *)
Definition nl : string := String "010"%char EmptyString.

(** [f"{o}"] for [o] a string or [None] *)
Definition fmt (o : option string) : string :=
  match o with
  | Some s => s
  | None => "None"
  end.

(** [Message(subject=, recipients=, body=)] with a body of plain text. *)
Record Email := mkEmail {
  em_subject : string;
  em_recipients : list (option string);
  em_body : string }.

(** [Usuario.query.filter_by(nome=nome, senha=senha).first()] *)
Definition Usuario_by_credentials (db : Database) (nome senha : string)
  : option Usuario :=
  find (fun u => String.eqb (Usuario_nome u) nome && String.eqb (Usuario_senha u) senha)
    (tb_usuario db).

Definition insert_usuario (db : Database) (nome senha : string) : Database :=
  let id := next_id (map Usuario_id (tb_usuario db)) in
  mkDatabase (tb_produto db) (tb_usuario db ++ [mkUsuario id nome senha])
    (tb_pedido db) (tb_item_pedido db) (tb_avaliacao db) (tb_endereco db).

(** The row that [db.session.add(novo_produto)] leaves pending.  Whether
    the table takes its price is settled when the commit flushes it: the
    test for NaN in [adicionar]. *)
Definition insert_produto (db : Database) (nome imagem : string) (preco : float)
  : Database :=
  let id := next_id (map Produto_id (tb_produto db)) in
  mkDatabase (tb_produto db ++ [mkProduto id nome imagem preco]) (tb_usuario db)
    (tb_pedido db) (tb_item_pedido db) (tb_avaliacao db) (tb_endereco db).

(** [.order_by(Pedido.data.desc())]: newest first.  Orders of the same
    instant keep the order of the table, which SQL leaves open. *)
Fixpoint insert_desc (p : Pedido) (l : list Pedido) : list Pedido :=
  match l with
  | [] => [p]
  | q :: r =>
      if Pedido_data q <=? Pedido_data p then p :: l else q :: insert_desc p r
  end.

Definition order_by_data_desc (l : list Pedido) : list Pedido :=
  fold_right insert_desc [] l.

(** [session['usuario'] = nome], [session.pop('usuario', None)] *)
Definition set_usuario (u : option string) : M unit :=
  s <- get_session ;;
  put_session (mkSession u (s_carrinho s) (s_cep_usuario s) (s_frete s) (s_flashes s)).

(** The pages of the handlers below, beside the responses of the ones above. *)
Inductive Reply :=
| Plain (r : Response)
| RenderIndex (produtos : list Produto)
| RenderLogin
| RenderCadastro
| RenderMeusPedidos (pedidos : list Pedido)
| RenderAdicionar
| RenderContact
| RenderRecover
| RenderFreteGratis
| RenderFaq.

Inductive HttpReply :=
| Replied (r : Reply)
| Refused (status : Z) (e : exn).

(** A request to one of the handlers below: as [serve]. *)
Definition serve_reply (handler : M Reply) (w : World) : World * HttpReply :=
  let fresh := mkWorld (w_db w) (w_db w) (w_session w) (w_stdout w) (w_charts w)
                 (w_chamadas w) (w_now w) in
  let teardown w' := mkWorld (w_db w') (w_db w') (w_session w') (w_stdout w')
                       (w_charts w') (w_chamadas w') (w_now w') in
  match handler fresh with
  | Val r w' => (teardown w', Replied r)
  | Exc e w' => (teardown w', Refused (status_of e) e)
  end.

Section Accounts.

(** [mail.send(msg)] for a message of plain text: [None] when the transport
    took it, the exception it raised otherwise. *)
Variable send_text : Email -> option exn.

(** [os.getenv('ADMIN_EMAIL') or app.config['MAIL_DEFAULT_SENDER']] *)
Variable admin_email : option string.

(** [url_for('login', _external=True)] *)
Variable login_url : string.

(** [float(s)] for a [str]; [None] stands for [ValueError]. *)
Variable float_of_str : string -> option float.

Definition send_email (subject : string) (recipients : list (option string))
  (body : string) : M unit :=
  match send_text (mkEmail subject recipients body) with
  | None => ret tt
  | Some e => reraise e
  end.

Definition enviar_confirmacao_cadastro (nome email_destino : string) : M unit :=
  let corpo :=
    "Olá " ++ nome ++ "," ++ nl ++ nl ++
    "Seu cadastro na Power Supps foi realizado com sucesso!" ++ nl ++ nl ++
    "Obrigado por se juntar a nós!" in
  send_email "Confirmação de cadastro - Power Supps" [Some email_destino] corpo.

Definition enviar_contato_para_admin (admin : option string)
  (nome email assunto mensagem : option string) : M unit :=
  let corpo :=
    "Novo contato recebido:" ++ nl ++ nl ++
    "Nome: " ++ fmt nome ++ nl ++
    "E-mail: " ++ fmt email ++ nl ++
    "Assunto: " ++ fmt assunto ++ nl ++ nl ++
    "Mensagem:" ++ nl ++ fmt mensagem in
  send_email
    ("[Power Supps] Contato: " ++
     (if truthy assunto then fmt assunto else "Sem assunto"))
    [admin] corpo.

Definition enviar_recuperacao (email_destino : option string) (link : string)
  : M unit :=
  let corpo :=
    "Recebemos uma solicitação para redefinir sua senha na Power Supps." ++ nl ++ nl ++
    "Use o link abaixo para continuar:" ++ nl ++ link ++ nl ++ nl ++
    "Se você não solicitou, ignore este e-mail." in
  send_email "Recuperação de senha - Power Supps" [email_destino] corpo.

Definition index : M Reply :=
  tx <- get_tx ;;
  ret (RenderIndex (tb_produto tx)).

Definition login (req : Request) : M Reply :=
  match req_method req with
  | POST =>
      usuario <- form_item (req_form req) "usuario" ;;
      senha <- form_item (req_form req) "senha" ;;
      tx <- get_tx ;;
      match Usuario_by_credentials tx usuario senha with
      | Some _ =>
          set_usuario (Some usuario) ;;;
          flash ("Bem-vindo, " ++ usuario ++ "!") "message" ;;;
          ret (Plain (Redirect "index"))
      | None =>
          flash "Usuário ou senha incorretos" "message" ;;;
          ret (Plain (Redirect "login"))
      end
  | GET => ret RenderLogin
  end.

Definition logout : M Reply :=
  set_usuario None ;;;
  flash "Você saiu da conta" "message" ;;;
  ret (Plain (Redirect "index")).

Definition cadastro (req : Request) : M Reply :=
  match req_method req with
  | POST =>
      nome <- form_item (req_form req) "usuario" ;;
      senha <- form_item (req_form req) "senha" ;;
      let email_cadastro := form_get (req_form req) "email" in
      tx <- get_tx ;;
      match Usuario_by_nome tx nome with
      | Some _ =>
          flash "Usuário já existe" "message" ;;;
          ret (Plain (Redirect "cadastro"))
      | None =>
          put_tx (insert_usuario tx nome senha) ;;;
          db_session_commit ;;;
          try_except
            (if truthy email_cadastro
             then enviar_confirmacao_cadastro nome (fmt email_cadastro)
             else enviar_contato_para_admin admin_email (Some nome) admin_email
                    (Some "Novo cadastro")
                    (Some ("O usuário '" ++ nome ++
                           "' acabou de se cadastrar (sem e-mail no formulário).")))
            (fun e => print ("Falha ao enviar e-mail de cadastro: " ++ exn_msg e)) ;;;
          flash "Usuário cadastrado com sucesso! Faça login." "message" ;;;
          ret (Plain (Redirect "login"))
      end
  | GET => ret RenderCadastro
  end.

Definition meus_pedidos : M Reply :=
  s <- get_session ;;
  match s_usuario s with
  | None =>
      flash "Faça login para ver seus pedidos" "message" ;;;
      ret (Plain (Redirect "login"))
  | Some nome_sessao =>
      tx <- get_tx ;;
      match Usuario_by_nome tx nome_sessao with
      | None => raise AttributeError "'NoneType' object has no attribute 'id'"
      | Some usuario =>
          ret (RenderMeusPedidos
                 (order_by_data_desc
                    (filter (fun p => Pedido_usuario_id p =? Usuario_id usuario)
                       (tb_pedido tx))))
      end
  end.

(** [files] are the uploads of the request, field name to file name;
    [uuid_hex] is the [uuid.uuid4().hex] drawn for it.  Saving the image
    lies outside the store and is left out. *)
Definition adicionar (uuid_hex : string) (req : Request)
  (files : list (string * string)) : M Reply :=
  s <- get_session ;;
  match s_usuario s with
  | None =>
      flash "Faça login para adicionar produtos" "message" ;;;
      ret (Plain (Redirect "login"))
  | Some _ =>
      match req_method req with
      | POST =>
          nome <- form_item (req_form req) "nome" ;;
          preco_str <- form_item (req_form req) "preco" ;;
          preco <- match float_of_str preco_str with
                   | Some x => ret x
                   | None =>
                       raise ValueError
                         ("could not convert string to float: '" ++ preco_str ++ "'")
                   end ;;
          imagem <- form_item files "imagem" ;;
          if negb (String.eqb imagem "") && allowed_file imagem then
            let ext := match rsplit1 "." imagem with
                       | Some (_, e) => lower e
                       | None => EmptyString
                       end in
            let filename := uuid_hex ++ "." ++ ext in
            tx <- get_tx ;;
            put_tx (insert_produto tx nome filename preco) ;;;
            (* a NaN reaches the table as NULL, which [preco] does not allow *)
            (if PrimFloat.is_nan preco
             then raise IntegrityError "NOT NULL constraint failed: produto.preco"
             else ret tt) ;;;
            db_session_commit ;;;
            flash "Produto adicionado com sucesso!" "message" ;;;
            ret (Plain (Redirect "index"))
          else
            flash "Formato de imagem inválido. Use .jpg, .png, .gif ou .jpeg" "message" ;;;
            ret (Plain (Redirect "adicionar"))
      | GET => ret RenderAdicionar
      end
  end.

Definition contato (req : Request) : M Reply :=
  match req_method req with
  | POST =>
      let nome := form_get (req_form req) "nome" in
      let email := form_get (req_form req) "email" in
      let assunto := form_get (req_form req) "assunto" in
      let mensagem := form_get (req_form req) "mensagem" in
      try_except
        (enviar_contato_para_admin admin_email nome email assunto mensagem ;;;
         flash "Mensagem enviada! Em breve entraremos em contato." "success")
        (fun e => flash ("Erro ao enviar mensagem: " ++ exn_msg e) "danger") ;;;
      ret (Plain (Redirect "contato"))
  | GET => ret RenderContact
  end.

Definition recover (req : Request) : M Reply :=
  match req_method req with
  | POST =>
      let email := form_get (req_form req) "email" in
      let token := "TOKEN123456" in
      let link := login_url ++ "?reset=" ++ token in
      try_except
        (enviar_recuperacao email link ;;;
         flash "E-mail de recuperação enviado." "info")
        (fun e => flash ("Erro: " ++ exn_msg e) "danger") ;;;
      ret (Plain (Redirect "recover"))
  | GET => ret RenderRecover
  end.

(** The two pages without a form; the fixed questions and answers of the
    second are part of the page. *)
Definition frete_gratis : M Reply := ret RenderFreteGratis.

Definition faq : M Reply := ret RenderFaq.

Definition teste_email : M Reply :=
  try_except
    (send_email "Teste de E-mail Flask" [admin_email]
       "Este é um e-mail de teste enviado pelo Flask usando Gmail + .env" ;;;
     ret (Plain (Text "✅ E-mail enviado com sucesso! Verifique sua caixa de entrada.")))
    (fun e => ret (Plain (Text ("❌ Erro ao enviar e-mail: " ++ exn_msg e)))).

End Accounts.

(* ================================================================== *)
(** * Statements: further properties *)
(* ================================================================== *)

(** The form of the plus and minus buttons of the cart page. *)
Definition req_acao (acao : string) : Request := mkRequest POST [("acao", acao)].

(** The quantity the cart holds of product [id], 0 when it has no entry. *)
Definition quantidade_de (c : dict Z) (id : Z) : Z :=
  dict_get_default c (KStr (str id)) 0.

(** What a request that was turned away leaves behind: the store, the cart,
    the cached quote and the notification trace as they were, and nobody
    logged in. *)
Definition turned_away (w w' : World) : Prop :=
  w_db w' = w_db w /\
  cart_of w' = cart_of w /\
  s_frete (w_session w') = s_frete (w_session w) /\
  s_cep_usuario (w_session w') = s_cep_usuario (w_session w) /\
  s_usuario (w_session w') = None /\
  w_chamadas w' = w_chamadas w.

(** The form of the login and registration pages. *)
Definition req_credenciais (nome senha : string) : Request :=
  mkRequest POST [("usuario", nome); ("senha", senha)].

(** A transport for plain text that takes every message, and one that is
    down. *)
Definition entrega_texto : Email -> option exn := fun _ => None.
Definition smtp_fora_texto : Email -> option exn :=
  fun _ => Some (mkExn MailError "Connection refused").

(** The message [recover] hands to the transport for the address [email]. *)
Definition mensagem_recuperacao (login_url : string) (email : option string) : Email :=
  mkEmail "Recuperação de senha - Power Supps" [email]
    ("Recebemos uma solicitação para redefinir sua senha na Power Supps." ++ nl ++ nl ++
     "Use o link abaixo para continuar:" ++ nl ++
     (login_url ++ "?reset=TOKEN123456") ++ nl ++ nl ++
     "Se você não solicitou, ignore este e-mail.").

(** The message [contato] hands to the transport for the submitted form. *)
Definition mensagem_contato (admin_email : option string) (form : list (string * string))
  : Email :=
  mkEmail
    ("[Power Supps] Contato: " ++
     (if truthy (form_get form "assunto") then fmt (form_get form "assunto")
      else "Sem assunto"))
    [admin_email]
    ("Novo contato recebido:" ++ nl ++ nl ++
     "Nome: " ++ fmt (form_get form "nome") ++ nl ++
     "E-mail: " ++ fmt (form_get form "email") ++ nl ++
     "Assunto: " ++ fmt (form_get form "assunto") ++ nl ++ nl ++
     "Mensagem:" ++ nl ++ fmt (form_get form "mensagem")).

(** The message [enviar_relatorio] hands to the transport when the revenue
    it summed is [vendas]: the chart is attached when something was sold. *)
Definition mensagem_relatorio (admin_email : option string) (db : Database)
  (vendas : float) : Message :=
  mkMessage "📊 Relatório da Loja - Power Supps" [admin_email]
    (CorpoRelatorio (Z.of_nat (List.length (tb_usuario db)))
       (Z.of_nat (List.length (tb_produto db)))
       (Z.of_nat (List.length (tb_pedido db))) vendas)
    (match nomes_vendidos db with
     | [] => None
     | _ => Some "graficos/vendas.png"
     end).


(** The session with one more flashed message. *)
Definition com_flash (s : Session) (category message : string) : Session :=
  mkSession (s_usuario s) (s_carrinho s) (s_cep_usuario s) (s_frete s)
    (s_flashes s ++ [(category, message)]).

(** No order line of the store is left without its product. *)
Definition sem_orfaos (db : Database) : Prop :=
  Forall (fun item => ItemPedido_produto db item <> None) (tb_item_pedido db).

(** The units of a cart that a checkout turns into order lines: the
    quantities of the entries whose product is in the store. *)
Definition unidades (tx : Database) (c : dict Z) : nat :=
  fold_right (fun entry n =>
                match Produto_row tx (fst entry) with
                | Some _ => (Z.to_nat (snd entry) + n)%nat
                | None => n
                end) O c.

(** A computation that reads nothing of the world and leaves it as it is:
    it yields the same value, or raises the same exception, in every world. *)
Definition puro {A : Type} (m : M A) : Prop :=
  exists r : A + exn,
    forall w, m w = match r with inl a => Val a w | inr e => Exc e w end.

(** Every line of every stored order has its product. *)
Definition pedidos_integros (db : Database) : Prop :=
  forall pedido, In pedido (tb_pedido db) ->
    Forall (fun item => ItemPedido_produto db item <> None) (Pedido_itens db pedido).

(** Newest first. *)
Definition mais_recente_primeiro (a b : Pedido) : Prop := Pedido_data b <= Pedido_data a.

(* ================================================================== *)
(** * Statements: the application as a whole *)
(* ================================================================== *)

(** What a request takes from outside the program: the mail transports, the
    way the module was loaded, the administrator's address, the external
    address of the login page and the parser of [float]. *)
Record Ambiente := mkAmbiente {
  amb_mail_send : Message -> option exn;
  amb_script_mode : bool;
  amb_admin_email : option string;
  amb_send_text : Email -> option exn;
  amb_login_url : string;
  amb_float_of_str : string -> option float }.

(** A request that reaches a handler: the routes of [app.py] with what the
    router and the request hand to the view function. *)
Inductive Rota :=
| RotaIndex
| RotaLogin (req : Request)
| RotaLogout
| RotaCadastro (req : Request)
| RotaCarrinho
| RotaAdicionarAoCarrinho (id : Z)
| RotaAlterarQuantidade (produto_id : Z) (req : Request)
| RotaRemoverDoCarrinho (produto_id : Z)
| RotaLimparCarrinho
| RotaCalcularFrete (req : Request)
| RotaFreteGratis
| RotaFinalizarCompra (req : Request)
| RotaAvaliar (produto_id : Z) (req : Request)
| RotaMeusPedidos
| RotaAdicionar (uuid_hex : string) (req : Request) (files : list (string * string))
| RotaExcluir (id : Z)
| RotaContato (req : Request)
| RotaRecover (req : Request)
| RotaFaq
| RotaTesteEmail
| RotaRelatoriosAdmin
| RotaEnviarRelatorio.

(** The world after the request. *)
Definition atender (amb : Ambiente) (r : Rota) (w : World) : World :=
  match r with
  | RotaIndex => fst (serve_reply index w)
  | RotaLogin req => fst (serve_reply (login req) w)
  | RotaLogout => fst (serve_reply logout w)
  | RotaCadastro req =>
      fst (serve_reply (cadastro (amb_send_text amb) (amb_admin_email amb) req) w)
  | RotaCarrinho => fst (serve carrinho w)
  | RotaAdicionarAoCarrinho id => fst (serve (adicionar_ao_carrinho id) w)
  | RotaAlterarQuantidade id req => fst (serve (alterar_quantidade id req) w)
  | RotaRemoverDoCarrinho id => fst (serve (remover_do_carrinho id) w)
  | RotaLimparCarrinho => fst (serve limpar_carrinho w)
  | RotaCalcularFrete req => fst (serve (calcular_frete req) w)
  | RotaFreteGratis => fst (serve_reply frete_gratis w)
  | RotaFinalizarCompra req =>
      fst (serve (finalizar_compra (amb_mail_send amb) (amb_script_mode amb) req) w)
  | RotaAvaliar id req => fst (serve (avaliar id req) w)
  | RotaMeusPedidos => fst (serve_reply meus_pedidos w)
  | RotaAdicionar uuid_hex req files =>
      fst (serve_reply (adicionar (amb_float_of_str amb) uuid_hex req files) w)
  | RotaExcluir id => fst (serve (excluir id) w)
  | RotaContato req =>
      fst (serve_reply (contato (amb_send_text amb) (amb_admin_email amb) req) w)
  | RotaRecover req =>
      fst (serve_reply (recover (amb_send_text amb) (amb_login_url amb) req) w)
  | RotaFaq => fst (serve_reply faq w)
  | RotaTesteEmail =>
      fst (serve_reply (teste_email (amb_send_text amb) (amb_admin_email amb)) w)
  | RotaRelatoriosAdmin => fst (serve relatorios_admin w)
  | RotaEnviarRelatorio =>
      fst (serve (enviar_relatorio (amb_mail_send amb) (amb_admin_email amb)) w)
  end.

(** The world with another browser's session in place of its own. *)
Definition com_sessao (w : World) (s : Session) : World :=
  mkWorld (w_db w) (w_tx w) s (w_stdout w) (w_charts w) (w_chamadas w) (w_now w).

(** The world after a request of another browser, whose session is [s]:
    the store, the output and the files are the server's; the session of
    this browser is not touched. *)
Definition atender_alheio (amb : Ambiente) (r : Rota) (s : Session) (w : World) : World :=
  com_sessao (atender amb r (com_sessao w s)) (w_session w).

(** The world at another time. *)
Definition set_now (w : World) (t : Z) : World :=
  mkWorld (w_db w) (w_tx w) (w_session w) (w_stdout w) (w_charts w) (w_chamadas w) t.

(** The worlds the application gets to from [w0] while this browser and the
    others send requests of the routes [permitida] lets through, time passes
    and the session travels in its cookie. *)
Inductive alcancavel (permitida : Rota -> bool) (w0 : World) : World -> Prop :=
| alcancavel_inicio : alcancavel permitida w0 w0
| alcancavel_pedido amb r w :
    permitida r = true -> alcancavel permitida w0 w ->
    alcancavel permitida w0 (atender amb r w)
| alcancavel_alheio amb r s w :
    permitida r = true -> alcancavel permitida w0 w ->
    alcancavel permitida w0 (atender_alheio amb r s w)
| alcancavel_relogio t w :
    alcancavel permitida w0 w -> alcancavel permitida w0 (set_now w t)
| alcancavel_cookie w :
    alcancavel permitida w0 w -> alcancavel permitida w0 (next_request w).

Definition todas : Rota -> bool := fun _ => true.

Definition sem_excluir (r : Rota) : bool :=
  match r with
  | RotaExcluir _ => false
  | _ => true
  end.

(** Whoever the session says is logged in has a row in [usuario]. *)
Definition sessao_conhecida (w : World) : Prop :=
  forall nome, s_usuario (w_session w) = Some nome ->
    Usuario_by_nome (w_db w) nome <> None.

(** No two users share a name. *)
Definition nomes_unicos (db : Database) : Prop :=
  NoDup (map Usuario_nome (tb_usuario db)).

(** The ways a request adds to the store. *)
Inductive acrescenta (db : Database) : Database -> Prop :=
| acrescenta_nada : acrescenta db db
| acrescenta_usuario nome senha :
    Usuario_by_nome db nome = None -> acrescenta db (insert_usuario db nome senha)
| acrescenta_produto nome imagem preco :
    acrescenta db (insert_produto db nome imagem preco)
| acrescenta_avaliacao usuario_id produto_id nota comentario data :
    acrescenta db
      (insert_avaliacao db usuario_id (SqlInt produto_id) nota comentario data)
| acrescenta_compra usuario_id data cep rua numero complemento bairro cidade estado
    db' refs :
    let aberto := insert_pedido db usuario_id data in
    itens_acrescidos (fst aberto)
      (insert_endereco (snd aberto) (fst aberto) cep rua numero complemento bairro
         cidade estado)
      db' refs ->
    Forall (fun v => exists n, v = SqlInt n /\ Produto_by_id db n <> None) refs ->
    acrescenta db db'.

(** A request that leaves the store and the logged-in user as they were. *)
Definition inerte (w w' : World) : Prop :=
  w_db w' = w_db w /\ s_usuario (w_session w') = s_usuario (w_session w).

(** A request that adds to the store, if it changes it, and leaves the
    logged-in user as it was. *)
Definition so_acrescenta (w w' : World) : Prop :=
  acrescenta (w_db w) (w_db w') /\ s_usuario (w_session w') = s_usuario (w_session w).

(** An environment in which every message is taken, and a few steps of
    one browser in it. *)
Definition ambiente : Ambiente :=
  mkAmbiente entrega false None entrega_texto "http://loja/login" (fun _ => None).

(** The world between two requests: nothing pending in a unit of work. *)
Definition repouso (w : World) : World :=
  mkWorld (w_db w) (w_db w) (w_session w) (w_stdout w) (w_charts w) (w_chamadas w)
    (w_now w).

(** The number the table of [value_counts] holds for a name, 0 when it has
    no row for it. *)
Definition contagem (table : list (string * Z)) (nome : string) : Z :=
  match find (fun row => String.eqb (fst row) nome) table with
  | Some row => snd row
  | None => 0
  end.

(** The order lines whose product bears the name. *)
Definition linhas_de (db : Database) (nome : string) : list ItemPedido :=
  filter (fun item =>
            match ItemPedido_produto db item with
            | Some p => String.eqb (Produto_nome p) nome
            | None => false
            end) (tb_item_pedido db).

(** The world with another quote in the session: postal code and fee. *)
Definition com_cotacao (w : World) (cep : option string) (frete : option float) : World :=
  let s := w_session w in
  com_sessao w (mkSession (s_usuario s) (s_carrinho s) cep frete (s_flashes s)).

(** What one entry of the cart gives the cart page: a row, nothing when the
    product is gone, or the exception that ends the request. *)
Definition linha_carrinho (tx : Database) (entry : pykey * Z)
  : option (Produto * Z * float) + exn :=
  let '(k, q) := entry in
  let de_id (n : Z) :=
    if in_int64 n then
      match Produto_row tx (KInt n) with
      | Some p =>
          match float_of_int q with
          | Some f => inl (Some (p, q, PrimFloat.mul (Produto_preco p) f))
          | None => inr (mkExn OverflowError "int too large to convert to float")
          end
      | None => inl None
      end
    else inr (mkExn OverflowError "Python int too large to convert to SQLite INTEGER") in
  match k with
  | KInt n => de_id n
  | KStr s =>
      match int_of_str s with
      | Some n => de_id n
      | None => inr (mkExn ValueError ("invalid literal for int() with base 10: " ++ s))
      end
  end.

(** The rows a cart gives the cart page, in the order of its entries. *)
Definition linhas_carrinho (tx : Database) (c : dict Z) : list (Produto * Z * float) :=
  flat_map (fun entry =>
              match linha_carrinho tx entry with
              | inl (Some r) => [r]
              | _ => []
              end) c.
(* ================================================================== *)
(** * Properties *)
(* ================================================================== *)

Section DictFacts.
Context {V : Type}.
Variable P : pykey * V -> Prop.

Lemma dict_get_In (d : dict V) k v :
  dict_get d k = Some v -> exists k', In (k', v) d /\ pykey_eqb k' k = true.
Proof.
  induction d as [|[k' v'] r IH]; simpl; [discriminate|].
  destruct (pykey_eqb k' k) eqn:E.
  - intros [= <-]. exists k'. auto.
  - intros H. destruct (IH H) as (k'' & Hin & Hk). exists k''. auto.
Qed.

Lemma dict_del_Forall (d : dict V) k : Forall P d -> Forall P (dict_del d k).
Proof.
  induction 1 as [|[k' v'] r Hx Hr IH]; simpl; [constructor|].
  destruct (pykey_eqb k' k); [assumption | constructor; assumption].
Qed.

Lemma dict_set_Forall (d : dict V) k v :
  (forall k', pykey_eqb k' k = true -> P (k', v)) ->
  P (k, v) -> Forall P d -> Forall P (dict_set d k v).
Proof.
  intros Hsame Hnew. induction 1 as [|[k' v'] r Hx Hr IH]; simpl.
  - constructor; [assumption | constructor].
  - destruct (pykey_eqb k' k) eqn:E; constructor; auto.
Qed.

Lemma dict_del_absent (d : dict V) k : dict_get (dict_del d k) k = None.
Proof.
  induction d as [|[k' v'] r IH]; simpl; [reflexivity|].
  destruct (pykey_eqb k' k) eqn:E; simpl; [assumption | now rewrite E].
Qed.

Lemma insert_sorted_Forall (e : pykey * V) (d : dict V) :
  P e -> Forall P d -> Forall P (insert_sorted e d).
Proof.
  intros He. induction 1 as [|x r Hx Hr IH]; simpl.
  - constructor; [assumption | constructor].
  - destruct (pykey_leb (fst e) (fst x)); constructor; auto.
Qed.

(** What holds of every entry still holds when the cart comes back from the
    cookie. *)
Lemma sorted_items_Forall (d : dict V) : Forall P d -> Forall P (sorted_items d).
Proof.
  unfold sorted_items. induction 1 as [|x r Hx Hr IH]; simpl; [constructor|].
  now apply insert_sorted_Forall.
Qed.
End DictFacts.

Lemma pykey_eqb_eq a b : pykey_eqb a b = true -> a = b.
Proof.
  destruct a, b; simpl; try discriminate.
  - intros H. apply Z.eqb_eq in H. now subst.
  - intros H. apply String.eqb_eq in H. now subst.
Qed.

Lemma dict_get_positive (c : dict Z) k q :
  quantities_positive c -> dict_get c k = Some q -> 1 <= q.
Proof.
  intros Hc Hg. apply dict_get_In in Hg. destruct Hg as (k' & Hin & _).
  unfold quantities_positive in Hc. rewrite Forall_forall in Hc.
  exact (Hc _ Hin).
Qed.

(** A cart whose keys are all strings has no entry under an [int]. *)
Lemma dict_contains_int (c : dict Z) n :
  keys_are_str c -> dict_contains c (KInt n) = false.
Proof.
  unfold dict_contains. induction 1 as [|[k v] r [s Hs] Hr IH]; simpl; [reflexivity|].
  simpl in Hs. subst k. simpl. exact IH.
Qed.

(** One cart request, seen from the cart alone. *)
Lemma cart_step (P : dict Z -> Prop) (w : World) (op : cart_op) :
  P [] ->
  (forall c k v, P c -> (forall q, dict_get c k = Some q -> 1 <= q) ->
                 (exists n, k = KStr (str n)) -> 1 <= v -> P (dict_set c k v)) ->
  (forall c k, P c -> P (dict_del c k)) ->
  (forall c, P c -> forall k q, dict_get c k = Some q -> 1 <= q) ->
  P (cart_of w) -> P (cart_of (fst (serve (cart_handler op) w))).
Proof.
  intros Hnil Hset Hdel Hpos Hc.
  destruct w as [db tx [u c cep fr fl] out ch cs now]. unfold cart_of in *.
  destruct op as [id|id req|id|]; unfold serve; simpl.
  - destruct u; simpl; [|exact Hc].
    unfold get_carrinho in *; simpl in *.
    set (c0 := match c with Some c => c | None => [] end) in *.
    apply Hset; eauto.
    unfold dict_get_default. destruct (dict_get c0 (KStr (str id))) eqn:E; [|lia].
    specialize (Hpos c0 Hc _ _ E). lia.
  - unfold get_carrinho in *; simpl in *.
    set (c0 := match c with Some c => c | None => [] end) in *.
    destruct (dict_get c0 (KStr (str id))) as [q|] eqn:E; [|exact Hc].
    pose proof (Hpos c0 Hc _ _ E) as Hq.
    destruct (option_str_eqb (form_get (req_form req) "acao") "mais").
    + apply Hset; eauto. lia.
    + destruct (option_str_eqb (form_get (req_form req) "acao") "menos"); [|exact Hc].
      destruct (q - 1 <=? 0) eqn:Eq.
      * apply Hdel, Hc.
      * apply Hset; eauto. apply Z.leb_gt in Eq. lia.
  - unfold get_carrinho in *; simpl in *.
    set (c0 := match c with Some c => c | None => [] end) in *.
    destruct (dict_contains c0 (KInt id)); [apply Hdel|]; exact Hc.
  - exact Hnil.
Qed.

Lemma reachable_cart_invariant (c : dict Z) :
  reachable_cart c -> quantities_positive c /\ keys_are_str c.
Proof.
  induction 1 as [|w op Hr IH|c Hr IH].
  - split; constructor.
  - revert IH.
    apply (cart_step (fun c => quantities_positive c /\ keys_are_str c)).
    + split; constructor.
    + intros c k v [Hq Hk] _ Hs Hv. split.
      * apply dict_set_Forall; auto.
      * apply dict_set_Forall; auto.
        intros k' E. apply pykey_eqb_eq in E. now subst.
    + intros c k [Hq Hk]. split; apply dict_del_Forall; assumption.
    + intros c [Hq _] k q. now apply dict_get_positive.
  - destruct IH as [Hq Hk]. split; apply sorted_items_Forall; assumption.
Qed.

(** ** Quantities in the cart *)

(** C5: every cart reachable from the empty one through add,
    quantity-change, remove and clear requests holds only quantities of at
    least 1; and decrementing an entry whose quantity would drop to 0 or
    below deletes the entry instead of storing it. *)
Theorem cart_quantities_at_least_one (c : dict Z) :
  reachable_cart c ->
  (forall k q, In (k, q) c -> 1 <= q) /\
  (forall w id q,
      cart_of w = c ->
      dict_get c (KStr (str id)) = Some q -> q - 1 <= 0 ->
      dict_get
        (cart_of (fst (serve (alterar_quantidade id (mkRequest POST [("acao", "menos")])) w)))
        (KStr (str id)) = None).
Proof.
  intros Hr. apply reachable_cart_invariant in Hr. destruct Hr as [Hq _]. split.
  - intros k q Hin. unfold quantities_positive in Hq. rewrite Forall_forall in Hq.
    exact (Hq _ Hin).
  - intros w id q Hw Hg Hle.
    destruct w as [db tx [u c' cep fr fl] out ch cs now].
    unfold cart_of in *; simpl in *. subst c.
    unfold serve, alterar_quantidade, bind, get_session; simpl.
    rewrite Hg. simpl.
    apply Z.leb_le in Hle. rewrite Hle. simpl. apply dict_del_absent.
Qed.

Lemma cart_quantities_at_least_one_witness :
  reachable_cart [(KStr "7", 1)] /\
  (forall k q, In (k, q) [(KStr "7", 1)] -> 1 <= q).
Proof.
  assert (H : reachable_cart [(KStr "7", 1)]).
  { change [(KStr "7", 1)]
      with (cart_of (fst (serve (cart_handler (OpAdd 7)) mundo))).
    apply reach_step. exact reach_empty. }
  split; [exact H|].
  exact (proj1 (cart_quantities_at_least_one _ H)).
Defined.

(** ** Removing an entry *)

(** The membership test of [remover_do_carrinho] looks the [int] up among
    keys that are all [str]: on a reachable cart it never finds anything. *)
Lemma remover_do_carrinho_noop (w : World) (id : Z) :
  reachable_cart (cart_of w) ->
  cart_of (fst (serve (remover_do_carrinho id) w)) = cart_of w.
Proof.
  intros Hr. apply reachable_cart_invariant in Hr. destruct Hr as [_ Hk].
  destruct w as [db tx [u c cep fr fl] out ch cs now].
  unfold cart_of in *; simpl in *.
  unfold serve, remover_do_carrinho, bind, get_session; simpl.
  rewrite (dict_contains_int _ id Hk). reflexivity.
Qed.

(** C6: with the cart [{"1": 1}] that [/adicionar_ao_carrinho/1] leaves,
    [/remover_do_carrinho/1] answers with its success message and the
    redirect, and the entry for product 1 is still in the cart. *)
Theorem remover_do_carrinho_leaves_entry :
  let w1 := fst (serve (adicionar_ao_carrinho 1) mundo) in
  let w2 := fst (serve (remover_do_carrinho 1) w1) in
  cart_of w1 = [(KStr "1", 1)] /\
  snd (serve (remover_do_carrinho 1) w1) = Served (Redirect "carrinho") /\
  In ("message", "Produto removido do carrinho com sucesso!") (s_flashes (w_session w2)) /\
  dict_get (cart_of w2) (KStr (str 1)) = Some 1.
Proof.
  vm_compute. repeat split; auto.
Qed.

(** ** Validation of the checkout form *)



(** ** Validation of the postal code *)

(** C7, as the handler has it: the postal code is measured as submitted,
    without stripping.  A request without one, or with one of fewer than
    eight characters, gets the error message and the redirect to the cart,
    and the session's fee and postal code, the cart and the store stay as
    they were. *)
Theorem calcular_frete_short_cep (w : World) (req : Request) :
  cep_curto (form_get (req_form req) "cep") ->
  let out := serve (calcular_frete req) w in
  snd out = Served (Redirect "carrinho") /\
  s_frete (w_session (fst out)) = s_frete (w_session w) /\
  s_cep_usuario (w_session (fst out)) = s_cep_usuario (w_session w) /\
  s_flashes (w_session (fst out)) =
    (s_flashes (w_session w) ++ [("error", "CEP inválido. Digite um CEP válido.")])%list /\
  cart_of (fst out) = cart_of w /\
  w_db (fst out) = w_db w.
Proof.
  intros Hcep.
  destruct w as [db tx [u c cep fr fl] out ch cs now].
  unfold serve, calcular_frete. unfold cep_curto in Hcep.
  destruct (form_get (req_form req) "cep") as [s|]; simpl.
  - apply Nat.ltb_lt in Hcep. rewrite Hcep, orb_true_r. simpl. repeat split.
  - repeat split.
Qed.

Lemma calcular_frete_short_cep_witness :
  let req := mkRequest POST [("cep", "01310")] in
  let out := serve (calcular_frete req) mundo_com_carrinho in
  cep_curto (form_get (req_form req) "cep") /\
  snd out = Served (Redirect "carrinho") /\
  s_frete (w_session (fst out)) = None /\
  s_cep_usuario (w_session (fst out)) = None.
Proof.
  assert (Hc : cep_curto (form_get [("cep", "01310")] "cep")).
  { simpl. repeat constructor. }
  pose proof (calcular_frete_short_cep mundo_com_carrinho
                (mkRequest POST [("cep", "01310")]) Hc) as H.
  cbv zeta in H. destruct H as (Hr & Hf & Hz & _).
  split; [exact Hc|]. split; [exact Hr|]. split; [exact Hf | exact Hz].
Defined.

(** C7, as claimed, fails: ["1234567 "] has seven characters once stripped,
    yet the handler takes it, stores it and stores a fee. *)
Lemma calcular_frete_padded_cep_accepted :
  let req := mkRequest POST [("cep", "1234567 ")] in
  let out := serve (calcular_frete req) mundo_com_carrinho in
  (String.length (strip "1234567 ") < 8)%nat /\
  s_frete (w_session mundo_com_carrinho) = None /\
  s_frete (w_session (fst out)) = Some 19.90%float /\
  s_cep_usuario (w_session (fst out)) = Some "1234567 " /\
  In ("success", "Frete calculado! Valor do frete: R$ 19.90")
     (s_flashes (w_session (fst out))).
Proof.
  vm_compute. repeat split; auto 10. 
Qed.

(** ** Reviews *)




(** ** The unit of work *)

Lemma set_tx_set_tx w a b : set_tx (set_tx w a) b = set_tx w b.
Proof. reflexivity. Qed.

Lemma set_tx_same w : set_tx w (w_tx w) = w.
Proof. now destruct w. Qed.

Lemma set_tx_inj w a b : set_tx w a = set_tx w b -> a = b.
Proof. unfold set_tx. now intros [= ->]. Qed.

Lemma repeat_add_item_pedido (pedido_id : Z) (pid : pykey) (n : nat) (w : World) :
  repeat_m n (add_item_pedido pedido_id pid) w =
  Val tt (set_tx w (Nat.iter n
                      (fun tx => insert_item_pedido tx pedido_id (integer_affinity pid))
                      (w_tx w))).
Proof.
  revert w. induction n as [|n IH]; intros w.
  - simpl. unfold ret. now rewrite set_tx_same.
  - change (repeat_m (S n) (add_item_pedido pedido_id pid) w)
      with (repeat_m n (add_item_pedido pedido_id pid)
              (set_tx w (insert_item_pedido (w_tx w) pedido_id (integer_affinity pid)))).
    rewrite IH, set_tx_set_tx, Nat.iter_succ_r. reflexivity.
Qed.

Lemma itens_acrescidos_refl pid tx : itens_acrescidos pid tx tx [].
Proof.
  repeat split. exists []. rewrite app_nil_r. repeat split. constructor.
Qed.

Lemma itens_acrescidos_trans pid tx1 tx2 tx3 r1 r2 :
  itens_acrescidos pid tx1 tx2 r1 -> itens_acrescidos pid tx2 tx3 r2 ->
  itens_acrescidos pid tx1 tx3 (r1 ++ r2).
Proof.
  intros (P1 & U1 & O1 & A1 & E1 & x1 & I1 & F1 & M1)
         (P2 & U2 & O2 & A2 & E2 & x2 & I2 & F2 & M2).
  repeat split; try congruence.
  exists (x1 ++ x2)%list. repeat split.
  - now rewrite I2, I1, app_assoc.
  - apply Forall_app; auto.
  - now rewrite map_app, M1, M2.
Qed.

Lemma itens_acrescidos_iter pid v n tx :
  itens_acrescidos pid tx
    (Nat.iter n (fun tx => insert_item_pedido tx pid v) tx) (repeat v n).
Proof.
  revert tx. induction n as [|n IH]; intros tx.
  - apply itens_acrescidos_refl.
  - rewrite Nat.iter_succ_r. change (repeat v (S n)) with ([v] ++ repeat v n)%list.
    eapply itens_acrescidos_trans; [|apply IH].
    repeat split. eexists. repeat split. repeat constructor.
Qed.

Lemma Produto_row_same tx tx' k :
  tb_produto tx' = tb_produto tx -> Produto_row tx' k = Produto_row tx k.
Proof.
  intros H. unfold Produto_row, Produto_by_id. now rewrite H.
Qed.

Lemma referencias_same tx tx' c :
  tb_produto tx' = tb_produto tx -> referencias tx' c = referencias tx c.
Proof.
  intros H. unfold referencias. apply flat_map_ext. intros e.
  now rewrite (Produto_row_same _ _ _ H).
Qed.

(** The driver takes the key: the lookup is the SELECT. *)
Lemma Produto_get_aceita tx k w :
  chave_aceita k -> Produto_get tx k w = Val (Produto_row tx k) w.
Proof.
  destruct k as [n|s]; simpl; [|reflexivity].
  intros H. unfold Produto_get, bind_int, bind. now rewrite H.
Qed.

Lemma keys_are_str_aceitas (c : dict Z) : keys_are_str c -> chaves_aceitas c.
Proof.
  intros H. eapply Forall_impl; [|exact H]. cbv beta. intros [k q] [n Hn].
  simpl in *. now subst k.
Qed.

(** One turn of the checkout loop on a product that exists. *)
Lemma finalizar_compra_item_found pedido_id total itens pid quantidade w prod f :
  chave_aceita pid ->
  Produto_row (w_tx w) pid = Some prod ->
  float_of_int quantidade = Some f ->
  finalizar_compra_item pedido_id (total, itens) (pid, quantidade) w =
  Val (PrimFloat.add total (PrimFloat.mul (Produto_preco prod) f),
       (itens ++ [(Produto_nome prod, quantidade, Produto_preco prod)])%list)
      (set_tx w (Nat.iter (Z.to_nat quantidade)
                   (fun tx => insert_item_pedido tx pedido_id (integer_affinity pid))
                   (w_tx w))).
Proof.
  intros Hk Hp Hf. unfold finalizar_compra_item, bind, get_tx.
  rewrite (Produto_get_aceita _ _ _ Hk), Hp.
  unfold float_mul_int. rewrite Hf. unfold ret.
  now rewrite repeat_add_item_pedido.
Qed.

(** One turn of the checkout loop on a product that is gone. *)
Lemma finalizar_compra_item_missing pedido_id acc pid quantidade w :
  chave_aceita pid ->
  Produto_row (w_tx w) pid = None ->
  finalizar_compra_item pedido_id acc (pid, quantidade) w = Val acc w.
Proof.
  intros Hk Hp. destruct acc as [total itens].
  unfold finalizar_compra_item, bind, get_tx.
  now rewrite (Produto_get_aceita _ _ _ Hk), Hp.
Qed.

(** The checkout loop runs to its end when the driver takes every key and
    every quantity has a float; it touches the order lines of the unit of
    work and nothing else. *)
Lemma finalizar_compra_loop pedido_id (c : dict Z) :
  chaves_aceitas c ->
  quantidades_convertiveis c ->
  forall acc w, exists total itens tx',
    for_each c (finalizar_compra_item pedido_id) acc w = Val (total, itens) (set_tx w tx') /\
    itens_acrescidos pedido_id (w_tx w) tx' (referencias (w_tx w) c).
Proof.
  intros Hkeys.
  induction Hkeys as [|[pid q] r Hk Hkr IH]; intros Hconv [total itens] w.
  - exists total, itens, (w_tx w). simpl. unfold ret. rewrite set_tx_same.
    split; [reflexivity | apply itens_acrescidos_refl].
  - inversion Hconv as [|e r' Hq Hr]; subst. specialize (IH Hr).
    simpl in Hq, Hk. unfold referencias. simpl flat_map. fold (referencias (w_tx w) r).
    change (for_each ((pid, q) :: r) (finalizar_compra_item pedido_id) (total, itens) w)
      with (bind (finalizar_compra_item pedido_id (total, itens) (pid, q))
              (fun acc' => for_each r (finalizar_compra_item pedido_id) acc') w).
    unfold bind at 1.
    destruct (Produto_row (w_tx w) pid) as [prod|] eqn:Hp.
    + destruct (float_of_int q) as [f|] eqn:Hf; [|now elim Hq].
      rewrite (finalizar_compra_item_found pedido_id total itens pid q w prod f Hk Hp Hf).
      match goal with |- context [for_each r _ ?a ?w1] =>
        destruct (IH a w1) as (t' & i' & tx' & Hrun & Hext) end.
      exists t', i', tx'. rewrite Hrun, set_tx_set_tx. split; [reflexivity|].
      simpl w_tx in Hext.
      pose proof (itens_acrescidos_iter pedido_id (integer_affinity pid)
                    (Z.to_nat q) (w_tx w)) as Hit.
      rewrite (referencias_same _ _ r (proj1 Hit)) in Hext.
      exact (itens_acrescidos_trans _ _ _ _ _ _ Hit Hext).
    + rewrite (finalizar_compra_item_missing pedido_id (total, itens) pid q w Hk Hp).
      destruct (IH (total, itens) w) as (t' & i' & tx' & Hrun & Hext).
      exists t', i', tx'. split; assumption.
Qed.

(** ** Computations that leave the world alone *)

Lemma puro_ret {A} (a : A) : puro (ret a).
Proof. exists (inl a). reflexivity. Qed.

Lemma puro_raise {A} cls msg : puro (@raise A cls msg).
Proof. exists (inr (mkExn cls msg)). reflexivity. Qed.

Lemma puro_bind {A B} (m : M A) (k : A -> M B) :
  puro m -> (forall a, puro (k a)) -> puro (bind m k).
Proof.
  intros [[a|e] Hm] Hk.
  - destruct (Hk a) as [r Hr]. exists r. intros w. unfold bind. now rewrite Hm, Hr.
  - exists (inr e). intros w. unfold bind. now rewrite Hm.
Qed.

Lemma puro_for_each {A S} (l : list A) (body : S -> A -> M S) :
  (forall acc x, puro (body acc x)) -> forall acc, puro (for_each l body acc).
Proof.
  intros Hb. induction l as [|x r IH]; intros acc; simpl.
  - apply puro_ret.
  - apply puro_bind; [apply Hb | exact IH].
Qed.

Lemma puro_float_mul_int x n : puro (float_mul_int x n).
Proof.
  unfold float_mul_int. destruct (float_of_int n); [apply puro_ret | apply puro_raise].
Qed.

Lemma puro_int_of_key k : puro (int_of_key k).
Proof.
  unfold int_of_key. destruct k as [n|s]; [apply puro_ret|].
  destruct (int_of_str s); [apply puro_ret | apply puro_raise].
Qed.

Lemma puro_bind_int n : puro (bind_int n).
Proof.
  unfold bind_int. destruct (in_int64 n); [apply puro_ret | apply puro_raise].
Qed.

Lemma puro_Produto_get tx k : puro (Produto_get tx k).
Proof.
  destruct k as [n|s]; simpl; [|apply puro_ret].
  apply puro_bind; [apply puro_bind_int | intros; apply puro_ret].
Qed.

(** ** The purchase confirmation *)

Lemma puro_linhas_email (itens : list ItemEmail) acc :
  puro (for_each itens linha_email acc).
Proof.
  apply puro_for_each. intros l [[produto quantidade] preco]. unfold linha_email.
  apply puro_bind; [apply puro_float_mul_int | intros; apply puro_ret].
Qed.

(** What the call of the notification does, in every world alike: it files
    the call in the trace, prints what [out] holds and returns, or raises. *)
Lemma enviar_confirmacao_compra_outcome
  (mail_send : Message -> option exn) (script_mode : bool)
  (nome : string) (email : option string) (itens : list ItemEmail) (total : float) :
  exists (r : option exn) (out : list string),
    forall w,
      enviar_confirmacao_compra mail_send script_mode nome email itens total w =
      match r with
      | None => Val tt (set_log w (w_stdout w ++ out)
                          (w_chamadas w ++ [mkChamada nome email itens total]))
      | Some e => Exc e (set_log w (w_stdout w ++ out)
                           (w_chamadas w ++ [mkChamada nome email itens total]))
      end.
Proof.
  unfold enviar_confirmacao_compra, bind, registrar_chamada.
  destruct script_mode.
  - eexists (Some _), []. intros [db tx s so chs cs now].
    unfold raise, set_log. cbn. now rewrite app_nil_r.
  - unfold enviar_confirmacao_compra_second, try_except, bind.
    destruct (puro_linhas_email itens []) as [[l|e] Hl].
    + unfold mail_send_m.
      destruct (mail_send (mkMessage "Confirmação da sua compra - Power Supps" [email]
                             (CorpoCompra nome l total) None)) as [e|] eqn:Hm.
      * exists (Some e), ["❌ Erro ao enviar e-mail de compra: " ++ exn_msg e].
        intros [db tx s so chs cs now]. rewrite Hl, Hm. reflexivity.
      * exists None, []. intros [db tx s so chs cs now]. rewrite Hl, Hm.
        unfold ret, set_log. cbn. now rewrite app_nil_r.
    + exists (Some e), ["❌ Erro ao enviar e-mail de compra: " ++ exn_msg e].
      intros [db tx s so chs cs now]. rewrite Hl. reflexivity.
Qed.

(** Whatever the notification does, the guarded call returns: it adds the
    call to the trace and lines to the standard output, the same in every
    world, and when the notification raises the last line is the failure
    notice with the text of the exception. *)
Lemma notificacao_engolida
  (mail_send : Message -> option exn) (script_mode : bool)
  (nome : string) (email : option string) (itens : list ItemEmail) (total : float) :
  exists out,
    (forall w,
        try_except (enviar_confirmacao_compra mail_send script_mode nome email itens total)
          (fun e => print ("Falha ao enviar e-mail de pedido: " ++ exn_msg e)) w
        = Val tt (set_log w (w_stdout w ++ out)
                    (w_chamadas w ++ [mkChamada nome email itens total]))) /\
    (forall e, envio_levanta mail_send script_mode nome email itens total e ->
               exists pre, out = (pre ++ [falha_email (exn_msg e)])%list).
Proof.
  destruct (enviar_confirmacao_compra_outcome mail_send script_mode nome email itens total)
    as ([e0|] & out & Hrun).
  - exists (out ++ [falha_email (exn_msg e0)])%list. split.
    + intros w. unfold try_except. rewrite Hrun. destruct w as [db tx s so chs cs now].
      unfold print, set_log, falha_email. cbn. now rewrite app_assoc.
    + intros e (w & w' & He). rewrite Hrun in He. injection He as -> _. now exists out.
  - exists out. split.
    + intros w. unfold try_except. now rewrite Hrun.
    + intros e (w & w' & He). rewrite Hrun in He. discriminate.
Qed.

(** ** Checkout *)

Opaque finalizar_compra_itens try_except next_id insert_endereco.

(** What a checkout with a complete form does, for whatever transport and
    way of loading the module, on a cart whose keys the driver takes and
    whose quantities have a float: the loop over the cart runs from the
    opened order to a unit of work [tx'], which is committed; the cart is
    emptied; the notification is called once with the loop's rows and total;
    the client gets the thank-you page. *)
Lemma finalizar_compra_commits
  (mail_send : Message -> option exn) (script_mode : bool)
  (w : World) (req : Request) (nome : string) (usuario : Usuario) :
  req_method req = POST ->
  formulario_valido (req_form req) = true ->
  s_usuario (w_session w) = Some nome ->
  Usuario_by_nome (w_db w) nome = Some usuario ->
  chaves_aceitas (cart_of w) ->
  quantidades_convertiveis (cart_of w) ->
  let pid := next_id (map Pedido_id (tb_pedido (w_db w))) in
  let w1 := pedido_aberto w req usuario in
  exists total itens tx' out,
    finalizar_compra_itens pid (cart_of w) w1 = Val (total, itens) (set_tx w1 tx') /\
    itens_acrescidos pid (w_tx w1) tx' (referencias (w_tx w1) (cart_of w)) /\
    serve (finalizar_compra mail_send script_mode req) w =
      (mkWorld tx' tx' (carrinho_vazio (w_session w)) (w_stdout w ++ out) (w_charts w)
         (w_chamadas w ++ [mkChamada nome (form_get (req_form req) "email") itens total])
         (w_now w),
       Served (RenderObrigado nome)) /\
    (forall e,
        envio_levanta mail_send script_mode nome (form_get (req_form req) "email")
          itens total e ->
        exists pre, out = (pre ++ [falha_email (exn_msg e)])%list).
Proof.
  intros Hpost Hform Hnome Huser Hkeys Hconv pid w1.
  destruct (finalizar_compra_loop pid _ Hkeys Hconv (0%float, []) w1)
    as (total & itens & tx' & Hrun & Hext).
  destruct (notificacao_engolida mail_send script_mode nome
              (form_get (req_form req) "email") itens total)
    as (out & Hmail & Hfail).
  exists total, itens, tx', out.
  split; [exact Hrun|]. split; [exact Hext|]. split; [|exact Hfail].
  destruct w as [db tx s so chs cs now]. destruct req as [m form].
  destruct s as [u c cep fr fl].
  simpl in Hpost, Hnome, Huser. subst m u.
  unfold formulario_valido in Hform. simpl in Hform.
  unfold serve. cbn. rewrite Hform. cbn. rewrite Huser. cbn.
  unfold bind at 1.
  match type of Hrun with ?lhs = _ =>
    match goal with |- context [finalizar_compra_itens ?p ?c0 ?w0] =>
      change (finalizar_compra_itens p c0 w0) with lhs end end.
  rewrite Hrun. cbn. unfold bind at 1.
  rewrite Hmail. reflexivity.
Qed.

Transparent finalizar_compra_itens try_except next_id insert_endereco.

(** The key [adicionar_ao_carrinho] files a product under is read back by
    the store as that product's identifier. *)
Lemma integer_affinity_str (n : Z) : integer_affinity (KStr (str n)) = SqlInt n.
Proof.
  unfold integer_affinity, str.
  rewrite NilZero.isi.
  - now rewrite DecimalZ.of_to.
  - destruct n; simpl; try discriminate.
    intros [= H]. exact (DecimalPos.Unsigned.to_uint_nonnil _ H).
  - destruct n; simpl; try discriminate.
    intros [= H]. exact (DecimalPos.Unsigned.to_uint_nonnil _ H).
Qed.

Lemma Produto_row_str (db : Database) (n : Z) :
  Produto_row db (KStr (str n)) = Produto_by_id db n.
Proof.
  unfold Produto_row. now rewrite integer_affinity_str.
Qed.

Lemma pedido_aberto_tables (w : World) (req : Request) (usuario : Usuario) :
  let tx := w_tx (pedido_aberto w req usuario) in
  let pid := next_id (map Pedido_id (tb_pedido (w_db w))) in
  tb_produto tx = tb_produto (w_db w) /\
  tb_pedido tx = (tb_pedido (w_db w) ++ [mkPedido pid (Usuario_id usuario) (w_now w)])%list /\
  tb_item_pedido tx = tb_item_pedido (w_db w) /\
  tb_endereco tx =
    (tb_endereco (w_db w) ++
       [mkEndereco (next_id (map Endereco_id (tb_endereco (w_db w)))) pid
          (form_get (req_form req) "cep") (form_get (req_form req) "rua")
          (form_get (req_form req) "numero") (form_get (req_form req) "complemento")
          (form_get (req_form req) "bairro") (form_get (req_form req) "cidade")
          (form_get (req_form req) "estado")])%list.
Proof.
  repeat split.
Qed.

(** C3: whenever the purchase confirmation raises, whatever raises it (the
    transport on this message, the formatting of a line, or the call itself
    when the module runs as a script), a checkout with a complete form is
    still served the thank-you page; the committed store is the one a
    working transport would have left, with the new order, its address and
    its order lines; the failure is printed, with the text of the exception,
    as the last line of the standard output; the cart is empty.  The cart
    has the keys the routes file and quantities that have a float. *)
Theorem finalizar_compra_survives_notification_failure
  (mail_send : Message -> option exn) (script_mode : bool)
  (w : World) (req : Request) (nome : string) (usuario : Usuario) :
  req_method req = POST ->
  formulario_valido (req_form req) = true ->
  s_usuario (w_session w) = Some nome ->
  Usuario_by_nome (w_db w) nome = Some usuario ->
  keys_are_str (cart_of w) ->
  quantidades_convertiveis (cart_of w) ->
  let out := serve (finalizar_compra mail_send script_mode req) w in
  let db' := w_db (fst out) in
  let pid := next_id (map Pedido_id (tb_pedido (w_db w))) in
  let email := form_get (req_form req) "email" in
  exists itens total,
    w_chamadas (fst out) = (w_chamadas w ++ [mkChamada nome email itens total])%list /\
    forall e, envio_levanta mail_send script_mode nome email itens total e ->
      snd out = Served (RenderObrigado nome) /\
      db' = w_db (fst (serve (finalizar_compra entrega false req) w)) /\
      tb_pedido db' =
        (tb_pedido (w_db w) ++ [mkPedido pid (Usuario_id usuario) (w_now w)])%list /\
      (exists a, tb_endereco db' = (tb_endereco (w_db w) ++ [a])%list /\
                 Endereco_pedido_id a = pid /\
                 Endereco_cep a = form_get (req_form req) "cep") /\
      (exists extra,
          tb_item_pedido db' = (tb_item_pedido (w_db w) ++ extra)%list /\
          Forall (fun i => ItemPedido_pedido_id i = pid) extra /\
          map ItemPedido_produto_id extra = referencias (w_db w) (cart_of w)) /\
      (exists pre,
          w_stdout (fst out) = (w_stdout w ++ pre ++ [falha_email (exn_msg e)])%list) /\
      cart_of (fst out) = [].
Proof.
  intros Hpost Hform Hnome Huser Hstr Hconv out db' pid email.
  pose proof (keys_are_str_aceitas _ Hstr) as Hkeys.
  destruct (finalizar_compra_commits mail_send script_mode w req nome usuario
              Hpost Hform Hnome Huser Hkeys Hconv)
    as (total & itens & tx' & lines & Hrun & Hext & Hserve & Hlog).
  destruct (finalizar_compra_commits entrega false w req nome usuario
              Hpost Hform Hnome Huser Hkeys Hconv)
    as (total0 & itens0 & tx0 & lines0 & Hrun0 & _ & Hserve0 & _).
  rewrite Hrun in Hrun0. injection Hrun0 as _ _ Htx.
  exists itens, total.
  subst out db' email. rewrite Hserve, Hserve0. cbn [fst snd w_db w_stdout w_chamadas].
  split; [reflexivity|]. intros e Hfail.
  destruct (pedido_aberto_tables w req usuario) as (Hp & Ho & Hi & He).
  destruct Hext as (P & U & O & A & E & extra & I & F & R).
  split; [reflexivity|]. split; [exact Htx|].
  split; [now rewrite O, Ho|].
  split; [eexists; rewrite E, He; repeat split|].
  split.
  { exists extra. rewrite I, Hi. repeat split; [exact F|].
    rewrite R. apply referencias_same. exact Hp. }
  split; [|reflexivity].
  destruct (Hlog e Hfail) as (pre & ->). now exists pre.
Qed.

Lemma finalizar_compra_survives_notification_failure_witness :
  let w := mundo_com_carrinho in
  let req := mkRequest POST formulario_completo in
  let out := serve (finalizar_compra so_este_destinatario false req) w in
  so_este_destinatario (mkMessage "outro assunto" [Some "bia@example.com"]
                          (CorpoRelatorio 0 0 0 0) None) = None /\
  snd out = Served (RenderObrigado "ana") /\
  tb_pedido (w_db (fst out)) = [mkPedido 1 1 1700000000] /\
  List.length (tb_item_pedido (w_db (fst out))) = 3%nat /\
  (exists pre,
      w_stdout (fst out) = (w_stdout w ++ pre ++ [falha_email "Recipient refused"])%list).
Proof.
  assert (Hk : keys_are_str (cart_of mundo_com_carrinho)).
  { repeat constructor; [now exists 1 | now exists 2]. }
  assert (Hq : quantidades_convertiveis (cart_of mundo_com_carrinho)).
  { repeat constructor; vm_compute; discriminate. }
  pose proof (finalizar_compra_survives_notification_failure so_este_destinatario false
                mundo_com_carrinho (mkRequest POST formulario_completo) "ana" ana
                eq_refl eq_refl eq_refl eq_refl Hk Hq) as H.
  cbv zeta in H. destruct H as (itens & total & Hcall & H).
  assert (Hcall' :
            w_chamadas (fst (serve (finalizar_compra so_este_destinatario false
                                      (mkRequest POST formulario_completo))
                               mundo_com_carrinho))
            = [mkChamada "ana" (form_get formulario_completo "email")
                 [("Whey", 2, 10%float); ("Creatina", 1, 5%float)] 25%float])
    by (vm_compute; reflexivity).
  rewrite Hcall' in Hcall. injection Hcall as Hitens Htotal. subst itens total.
  assert (He : envio_levanta so_este_destinatario false "ana"
                 (form_get formulario_completo "email")
                 [("Whey", 2, 10%float); ("Creatina", 1, 5%float)] 25%float
                 (mkExn MailError "Recipient refused")).
  { exists mundo. eexists. vm_compute. reflexivity. }
  destruct (H _ He) as (Hr & _ & Hp & _ & (extra & Hi & _ & Hrefs) & Hlog & _).
  split; [reflexivity|]. split; [exact Hr|]. split; [exact Hp|].
  split; [|exact Hlog].
  rewrite Hi, length_app, <- (length_map ItemPedido_produto_id extra), Hrefs.
  reflexivity.
Defined.

(** C9: with an empty cart and a complete form the checkout goes through:
    the thank-you page, one new order of the user and its address, no order
    line, and a notification called with no rows and a total of 0.0. *)
Theorem finalizar_compra_empty_cart
  (mail_send : Message -> option exn) (script_mode : bool)
  (w : World) (req : Request) (nome : string) (usuario : Usuario) :
  req_method req = POST ->
  formulario_valido (req_form req) = true ->
  s_usuario (w_session w) = Some nome ->
  Usuario_by_nome (w_db w) nome = Some usuario ->
  cart_of w = [] ->
  let out := serve (finalizar_compra mail_send script_mode req) w in
  let db' := w_db (fst out) in
  let pid := next_id (map Pedido_id (tb_pedido (w_db w))) in
  snd out = Served (RenderObrigado nome) /\
  tb_pedido db' =
    (tb_pedido (w_db w) ++ [mkPedido pid (Usuario_id usuario) (w_now w)])%list /\
  (exists e, tb_endereco db' = (tb_endereco (w_db w) ++ [e])%list /\
             Endereco_pedido_id e = pid) /\
  tb_item_pedido db' = tb_item_pedido (w_db w) /\
  w_chamadas (fst out) =
    (w_chamadas w ++ [mkChamada nome (form_get (req_form req) "email") [] 0%float])%list.
Proof.
  intros Hpost Hform Hnome Huser Hcart out db' pid.
  assert (Hconv : quantidades_convertiveis (cart_of w)) by (rewrite Hcart; constructor).
  assert (Hkeys : chaves_aceitas (cart_of w)) by (rewrite Hcart; constructor).
  destruct (finalizar_compra_commits mail_send script_mode w req nome usuario
              Hpost Hform Hnome Huser Hkeys Hconv)
    as (total & itens & tx' & lines & Hrun & _ & Hserve & _).
  rewrite Hcart in Hrun.
  set (w1 := pedido_aberto w req usuario) in *.
  assert (Hx : Val (0%float, @nil ItemEmail) (set_tx w1 (w_tx w1)) =
               Val (total, itens) (set_tx w1 tx'))
    by (rewrite set_tx_same; exact Hrun).
  injection Hx as Ht Hi Hw. subst total itens tx' w1.
  subst out db'. rewrite Hserve. cbn [fst snd w_db w_chamadas].
  destruct (pedido_aberto_tables w req usuario) as (Hp & Ho & Hit & He).
  split; [reflexivity|]. split; [exact Ho|].
  split; [eexists; split; reflexivity|].
  split; reflexivity.
Qed.

Lemma finalizar_compra_empty_cart_witness :
  let req := mkRequest POST formulario_completo in
  let out := serve (finalizar_compra entrega false req) mundo in
  cart_of mundo = [] /\
  snd out = Served (RenderObrigado "ana") /\
  tb_pedido (w_db (fst out)) = [mkPedido 1 1 1700000000] /\
  tb_item_pedido (w_db (fst out)) = [].
Proof.
  pose proof (finalizar_compra_empty_cart entrega false mundo
                (mkRequest POST formulario_completo) "ana" ana
                eq_refl eq_refl eq_refl eq_refl eq_refl) as H.
  cbv zeta in H. destruct H as (Hr & Hp & _ & Hi & _).
  split; [reflexivity|]. split; [exact Hr|]. split; [exact Hp | exact Hi].
Defined.

Lemma Produto_row_aberto (w : World) (req : Request) (usuario : Usuario) (k : pykey) :
  Produto_row (w_tx (pedido_aberto w req usuario)) k = Produto_row (w_db w) k.
Proof. apply Produto_row_same. reflexivity. Qed.

Lemma Produto_row_iter pid v n tx k :
  Produto_row (Nat.iter n (fun tx => insert_item_pedido tx pid v) tx) k = Produto_row tx k.
Proof. apply Produto_row_same. exact (proj1 (itens_acrescidos_iter pid v n tx)). Qed.

Lemma for_each_item_found pedido_id pid quantidade r total itens w prod f :
  chave_aceita pid ->
  Produto_row (w_tx w) pid = Some prod ->
  float_of_int quantidade = Some f ->
  for_each ((pid, quantidade) :: r) (finalizar_compra_item pedido_id) (total, itens) w =
  for_each r (finalizar_compra_item pedido_id)
    (PrimFloat.add total (PrimFloat.mul (Produto_preco prod) f),
     (itens ++ [(Produto_nome prod, quantidade, Produto_preco prod)])%list)
    (set_tx w (Nat.iter (Z.to_nat quantidade)
                 (fun tx => insert_item_pedido tx pedido_id (integer_affinity pid))
                 (w_tx w))).
Proof.
  intros Hk Hp Hf.
  change (for_each ((pid, quantidade) :: r) (finalizar_compra_item pedido_id) (total, itens) w)
    with (bind (finalizar_compra_item pedido_id (total, itens) (pid, quantidade))
            (fun acc' => for_each r (finalizar_compra_item pedido_id) acc') w).
  unfold bind at 1.
  now rewrite (finalizar_compra_item_found pedido_id total itens pid quantidade w prod f
                 Hk Hp Hf).
Qed.

Lemma float_of_int_1 : float_of_int 1 = Some 1%float.
Proof. vm_compute. reflexivity. Qed.

Lemma float_of_int_2 : float_of_int 2 = Some 2%float.
Proof. vm_compute. reflexivity. Qed.

(** The rows and the total of a checkout of two units of [a] and one of [b],
    in either order of the cart. *)
Lemma finalizar_compra_itens_2a_1b pedido_id (c : dict Z) (w : World) (a b : Z)
  (pa pb : Produto) :
  c = [(KStr (str a), 2); (KStr (str b), 1)] \/
  c = [(KStr (str b), 1); (KStr (str a), 2)] ->
  Produto_by_id (w_tx w) a = Some pa -> Produto_preco pa = 10%float ->
  Produto_by_id (w_tx w) b = Some pb -> Produto_preco pb = 5%float ->
  exists itens w',
    finalizar_compra_itens pedido_id c w = Val (25%float, itens) w'.
Proof.
  intros Hc Ha Hpa Hb Hpb. unfold finalizar_compra_itens.
  destruct Hc as [-> | ->].
  - rewrite (for_each_item_found pedido_id (KStr (str a)) 2 _ _ _ w pa 2%float);
      [|exact I | now rewrite Produto_row_str | exact float_of_int_2].
    rewrite (for_each_item_found pedido_id (KStr (str b)) 1 _ _ _ _ pb 1%float);
      [|exact I | cbn [w_tx set_tx]; now rewrite Produto_row_iter, Produto_row_str
       | exact float_of_int_1].
    rewrite Hpa, Hpb. eexists _, _. reflexivity.
  - rewrite (for_each_item_found pedido_id (KStr (str b)) 1 _ _ _ w pb 1%float);
      [|exact I | now rewrite Produto_row_str | exact float_of_int_1].
    rewrite (for_each_item_found pedido_id (KStr (str a)) 2 _ _ _ _ pa 2%float);
      [|exact I | cbn [w_tx set_tx]; now rewrite Produto_row_iter, Produto_row_str
       | exact float_of_int_2].
    rewrite Hpa, Hpb. eexists _, _. reflexivity.
Qed.

(** C1: a logged-in checkout with a complete form and the cart
    [{A: 2, B: 1}], A priced 10.00 and B priced 5.00, is served the thank-you
    page; it adds one order and exactly three order lines, all of the new
    order, two referring to A and one to B; the total handed to the
    notification is 25.00; the cart is empty afterwards. *)
Theorem finalizar_compra_two_A_one_B
  (mail_send : Message -> option exn) (script_mode : bool)
  (w : World) (req : Request) (nome : string) (usuario : Usuario)
  (a b : Z) (pa pb : Produto) :
  req_method req = POST ->
  formulario_valido (req_form req) = true ->
  s_usuario (w_session w) = Some nome ->
  Usuario_by_nome (w_db w) nome = Some usuario ->
  a <> b ->
  cart_of w = [(KStr (str a), 2); (KStr (str b), 1)] \/
  cart_of w = [(KStr (str b), 1); (KStr (str a), 2)] ->
  Produto_by_id (w_db w) a = Some pa -> Produto_preco pa = 10%float ->
  Produto_by_id (w_db w) b = Some pb -> Produto_preco pb = 5%float ->
  let out := serve (finalizar_compra mail_send script_mode req) w in
  let db' := w_db (fst out) in
  let pid := next_id (map Pedido_id (tb_pedido (w_db w))) in
  snd out = Served (RenderObrigado nome) /\
  tb_pedido db' =
    (tb_pedido (w_db w) ++ [mkPedido pid (Usuario_id usuario) (w_now w)])%list /\
  (exists extra,
      tb_item_pedido db' = (tb_item_pedido (w_db w) ++ extra)%list /\
      List.length extra = 3%nat /\
      Forall (fun i => ItemPedido_pedido_id i = pid) extra /\
      List.length (filter (refere a) extra) = 2%nat /\
      List.length (filter (refere b) extra) = 1%nat) /\
  (exists itens,
      w_chamadas (fst out) =
        (w_chamadas w ++
           [mkChamada nome (form_get (req_form req) "email") itens 25%float])%list) /\
  cart_of (fst out) = [].
Proof.
  intros Hpost Hform Hnome Huser Hab Hcart Ha Hpa Hb Hpb out db' pid.
  assert (Hconv : quantidades_convertiveis (cart_of w)).
  { destruct Hcart as [-> | ->]; repeat constructor; simpl;
      rewrite ?float_of_int_1, ?float_of_int_2; discriminate. }
  assert (Hkeys : chaves_aceitas (cart_of w)).
  { destruct Hcart as [-> | ->]; repeat constructor. }
  destruct (finalizar_compra_commits mail_send script_mode w req nome usuario
              Hpost Hform Hnome Huser Hkeys Hconv)
    as (total & itens & tx' & lines & Hrun & Hext & Hserve & _).
  destruct (finalizar_compra_itens_2a_1b pid (cart_of w) (pedido_aberto w req usuario)
              a b pa pb Hcart Ha Hpa Hb Hpb) as (itens0 & w0 & Hrun0).
  subst pid. rewrite Hrun in Hrun0. injection Hrun0 as Ht _ _. subst total.
  subst out db'. rewrite Hserve. cbn [fst snd w_db w_chamadas w_session].
  destruct (pedido_aberto_tables w req usuario) as (Hp & Ho & Hi & He).
  destruct Hext as (P & U & O & A & E & extra & I & F & R).
  split; [reflexivity|]. split; [now rewrite O, Ho|].
  split; [|split; [now exists itens | reflexivity]].
  exists extra. split; [now rewrite I, Hi|].
  rewrite (referencias_same _ _ _ Hp) in R. unfold referencias in R.
  assert (Hba : (b =? a) = false) by (apply Z.eqb_neq; congruence).
  assert (Hab' : (a =? b) = false) by (now apply Z.eqb_neq).
  destruct Hcart as [Hc | Hc]; rewrite Hc in R; cbn [flat_map fst snd] in R;
    rewrite !Produto_row_str, Ha, Hb, !integer_affinity_str in R; simpl in R;
    destruct extra as [|i1 [|i2 [|i3 [|i4 rest]]]]; try discriminate R;
    injection R as R1 R2 R3;
    (split; [reflexivity|]); (split; [exact F|]);
    unfold refere; simpl; rewrite R1, R2, R3, ?Z.eqb_refl, ?Hba, ?Hab'; simpl;
    split; reflexivity.
Qed.

Lemma finalizar_compra_two_A_one_B_witness :
  let w := mundo_com_carrinho in
  let req := mkRequest POST formulario_completo in
  let out := serve (finalizar_compra entrega false req) w in
  cart_of w = [(KStr (str 1), 2); (KStr (str 2), 1)] /\
  snd out = Served (RenderObrigado "ana") /\
  (exists extra,
      tb_item_pedido (w_db (fst out)) = (tb_item_pedido (w_db w) ++ extra)%list /\
      List.length extra = 3%nat /\
      Forall (fun i => ItemPedido_pedido_id i = 1) extra /\
      List.length (filter (refere 1) extra) = 2%nat /\
      List.length (filter (refere 2) extra) = 1%nat) /\
  cart_of (fst out) = [].
Proof.
  assert (Hne : 1 <> 2) by discriminate.
  pose proof (finalizar_compra_two_A_one_B entrega false mundo_com_carrinho
                (mkRequest POST formulario_completo) "ana" ana 1 2 whey creatina
                eq_refl eq_refl eq_refl eq_refl Hne (or_introl eq_refl)
                eq_refl eq_refl eq_refl eq_refl) as H.
  cbv zeta in H. destruct H as (Hr & _ & Hi & _ & Hc).
  split; [reflexivity|]. split; [exact Hr|]. split; [exact Hi | exact Hc].
Defined.

(** ** Reading a key back *)

(** A decimal digit is not white space. *)
Lemma isdigit_not_space c : isdigit c = true -> isspace_int c = false.
Proof.
  destruct c as [[] [] [] [] [] [] [] []]; vm_compute; intros H;
    try reflexivity; discriminate H.
Qed.

Lemma string_of_uint_digits d : all_chars isdigit (NilEmpty.string_of_uint d) = true.
Proof. induction d; simpl; auto. Qed.

Lemma string_rev_rev s :
  forall a b, string_rev a (string_rev b s) = string_rev (s ++ a) b.
Proof.
  induction s as [|c r IH]; intros a b; simpl; [reflexivity|]. now rewrite IH.
Qed.

Lemma append_empty s : s ++ "" = s.
Proof. induction s; simpl; congruence. Qed.

Lemma all_chars_rev p s :
  forall acc, all_chars p acc = true -> all_chars p s = true ->
              all_chars p (string_rev acc s) = true.
Proof.
  induction s as [|c r IH]; intros acc Ha Hs; simpl in *; [assumption|].
  apply andb_prop in Hs. destruct Hs as [Hc Hr].
  apply IH; [simpl; now rewrite Hc | assumption].
Qed.

Lemma lstrip_int_no_space s :
  all_chars (fun c => negb (isspace_int c)) s = true -> lstrip_int s = s.
Proof.
  destruct s as [|c r]; simpl; [reflexivity|]. intros H. apply andb_prop in H.
  destruct H as [Hc _]. apply negb_true_iff in Hc. now rewrite Hc.
Qed.

(** A string without white space is read as it is. *)
Lemma strip_int_no_space s :
  all_chars (fun c => negb (isspace_int c)) s = true -> strip_int s = s.
Proof.
  intros H. unfold strip_int. rewrite (lstrip_int_no_space _ H).
  rewrite lstrip_int_no_space by (apply all_chars_rev; [reflexivity | assumption]).
  now rewrite string_rev_rev, append_empty.
Qed.

Lemma digit_groups_digits s :
  s <> "" -> all_chars isdigit s = true -> digit_groups s = Some s.
Proof.
  induction s as [|c r IH]; intros Hne H; [now elim Hne|].
  simpl in H. apply andb_prop in H. destruct H as [Hc Hr].
  cbn [digit_groups]. rewrite Hc.
  destruct r as [|c' r']; [reflexivity|].
  assert (Hr' := Hr). simpl in Hr'. apply andb_prop in Hr'. destruct Hr' as [Hc' _].
  rewrite IH in * by (assumption || discriminate).
  destruct c' as [[] [] [] [] [] [] [] []]; try discriminate Hc'; reflexivity.
Qed.

Lemma digits_no_space s :
  all_chars isdigit s = true -> all_chars (fun c => negb (isspace_int c)) s = true.
Proof.
  induction s as [|c r IH]; simpl; [reflexivity|]. intros H. apply andb_prop in H.
  destruct H as [Hc Hr]. rewrite (isdigit_not_space _ Hc). simpl. auto.
Qed.

Lemma string_of_uint_nonempty d : d <> Decimal.Nil -> NilEmpty.string_of_uint d <> "".
Proof. destruct d; simpl; congruence. Qed.

Lemma digits_value_uint d :
  d <> Decimal.Nil -> digits_value (NilEmpty.string_of_uint d) = Some (Z.of_uint d).
Proof.
  intros Hd. unfold digits_value.
  rewrite digit_groups_digits
    by (apply string_of_uint_nonempty; assumption) || apply string_of_uint_digits.
  replace (NilEmpty.string_of_uint d) with (NilZero.string_of_uint d) by now destruct d.
  now rewrite NilZero.usu.
Qed.

Lemma int_of_str_digits s :
  s <> "" -> all_chars isdigit s = true -> int_of_str s = digits_value s.
Proof.
  intros Hne H. unfold int_of_str. rewrite strip_int_no_space by now apply digits_no_space.
  destruct s as [|c r]; [now elim Hne|].
  simpl in H. apply andb_prop in H. destruct H as [Hc _].
  destruct c as [[] [] [] [] [] [] [] []]; try discriminate Hc; reflexivity.
Qed.

(** [int(str(n)) == n] *)
Lemma int_of_str_str (n : Z) : int_of_str (str n) = Some n.
Proof.
  unfold str. destruct n as [|p|p]; [reflexivity| |].
  - simpl. pose proof (DecimalPos.Unsigned.to_uint_nonnil p) as Hp.
    replace (NilZero.string_of_uint (Pos.to_uint p))
      with (NilEmpty.string_of_uint (Pos.to_uint p))
      by now destruct (Pos.to_uint p).
    rewrite int_of_str_digits
      by (apply string_of_uint_nonempty; assumption) || apply string_of_uint_digits.
    rewrite digits_value_uint by assumption.
    unfold Z.of_uint. now rewrite DecimalPos.Unsigned.of_to.
  - simpl. pose proof (DecimalPos.Unsigned.to_uint_nonnil p) as Hp.
    replace (NilZero.string_of_uint (Pos.to_uint p))
      with (NilEmpty.string_of_uint (Pos.to_uint p))
      by now destruct (Pos.to_uint p).
    unfold int_of_str. rewrite strip_int_no_space
      by (simpl; apply digits_no_space, string_of_uint_digits).
    rewrite digits_value_uint by assumption.
    unfold Z.of_uint. now rewrite DecimalPos.Unsigned.of_to.
Qed.

(** On a cart whose keys are those of rows and whose quantities have a
    float, the loop of the quote raises nothing. *)
Lemma calcular_frete_total_defined (tx : Database) (c : dict Z) :
  keys_fit_int64 c -> quantidades_convertiveis c ->
  forall total w, exists S, for_each c (calcular_frete_item tx) total w = Val S w.
Proof.
  intros Hk. induction Hk as [|[k q] r (n & Hn & Hin) Hr IH]; intros Hq total w.
  - exists total. reflexivity.
  - inversion Hq as [|e r' Hf Hq']; subst. simpl in Hn, Hf. subst k.
    cbn [for_each]. unfold bind at 1.
    unfold calcular_frete_item, int_of_key, bind at 1. rewrite int_of_str_str.
    unfold ret at 1. unfold bind at 1.
    rewrite (Produto_get_aceita tx (KInt n) w Hin).
    destruct (Produto_row tx (KInt n)) as [p|]; [|apply IH; assumption].
    unfold float_mul_int, bind. destruct (float_of_int q) as [f|]; [|now elim Hf].
    unfold ret. apply IH; assumption.
Qed.

(** Every cart with the keys of rows and quantities that have a float gets
    a quote. *)
Lemma calcular_frete_total_exists (w : World) :
  keys_fit_int64 (cart_of w) -> quantidades_convertiveis (cart_of w) ->
  exists S, calcular_frete_total (w_db w) (cart_of w) w = Val S w.
Proof.
  intros Hk Hq. exact (calcular_frete_total_defined (w_db w) _ Hk Hq 0%float w).
Qed.

(** ** The shipping quote *)

(** One turn of the loop of the quote either raises, in every world alike,
    or yields a subtotal, in every world alike, and then the loop of the
    cart page yields the same. *)
Lemma calcular_frete_item_cases (tx : Database) (total : float) (entry : pykey * Z) :
  (exists x,
      (forall w0, calcular_frete_item tx total entry w0 = Val x w0) /\
      (forall itens w0, exists itens',
          carrinho_item tx (itens, total) entry w0 = Val (itens', x) w0)) \/
  (exists e, forall w0, calcular_frete_item tx total entry w0 = Exc e w0).
Proof.
  destruct entry as [k q].
  unfold calcular_frete_item, carrinho_item, int_of_key, float_mul_int, Produto_get,
    bind_int, bind, ret, raise.
  destruct k as [n|s]; [|destruct (int_of_str s) as [n|]];
    try (right; eexists; intros; reflexivity);
    (destruct (in_int64 n); [|right; eexists; intros; reflexivity]);
    (destruct (Produto_row tx (KInt n)) as [p|];
     [destruct (float_of_int q) as [f|];
      [|right; eexists; intros; reflexivity]|]);
    left; eexists; (split; [intros; reflexivity | intros; eexists; reflexivity]).
Qed.

(** The loop of the quote reads the store it is given and nothing else, and
    the loop of the cart page adds up the same subtotal. *)
Lemma calcular_frete_total_val (tx : Database) (c : dict Z) :
  forall total w S w1,
    for_each c (calcular_frete_item tx) total w = Val S w1 ->
    (forall w0, for_each c (calcular_frete_item tx) total w0 = Val S w0) /\
    (forall itens w0, exists itens',
        for_each c (carrinho_item tx) (itens, total) w0 = Val (itens', S) w0).
Proof.
  induction c as [|entry r IH]; intros total w S w1 H.
  - injection H as <- _. split; [reflexivity|]. intros itens w0. now exists itens.
  - cbn [for_each] in *. unfold bind in *.
    destruct (calcular_frete_item_cases tx total entry) as [(x & Hx & Hc)|(e & He)].
    + rewrite Hx in H. apply IH in H. destruct H as [H1 H2]. split.
      * intros w0. rewrite Hx. apply H1.
      * intros itens w0. destruct (Hc itens w0) as (itens1 & ->). apply H2.
    + rewrite He in H. discriminate H.
Qed.

Lemma calcular_frete_total_eq tx c :
  calcular_frete_total tx c = for_each c (calcular_frete_item tx) 0%float.
Proof. reflexivity. Qed.

Lemma carrinho_itens_eq tx c :
  carrinho_itens tx c = for_each c (carrinho_item tx) ([], 0%float).
Proof. reflexivity. Qed.

Opaque calcular_frete_total carrinho_itens.

(** The quote for a postal code of eight characters or more. *)
Lemma calcular_frete_accepts (w : World) (req : Request) (cep : string) (S : float) :
  form_get (req_form req) "cep" = Some cep ->
  (8 <= String.length cep)%nat ->
  calcular_frete_total (w_db w) (cart_of w) w = Val S w ->
  let frete := if PrimFloat.leb 250 S then 0%float else 19.90%float in
  serve (calcular_frete req) w =
  (mkWorld (w_db w) (w_db w)
     (mkSession (s_usuario (w_session w)) (s_carrinho (w_session w)) (Some cep)
        (Some frete)
        (s_flashes (w_session w) ++
           [("success", "Frete calculado! Valor do frete: R$ " ++ frete_2f frete)]))
     (w_stdout w) (w_charts w) (w_chamadas w) (w_now w),
   Served (Redirect "carrinho")).
Proof.
  intros Hcep Hlen Htotal frete.
  destruct w as [db tx s so chs cs now]. destruct req as [m form].
  simpl in Hcep. unfold cart_of in Htotal. cbn [w_session w_db] in Htotal.
  rewrite calcular_frete_total_eq in Htotal.
  destruct (calcular_frete_total_val _ _ _ _ _ _ Htotal) as [Hpure _].
  assert (Hshort : (String.length cep <? 8)%nat = false) by now apply Nat.ltb_ge.
  assert (Htruthy : truthy (Some cep) = true).
  { destruct cep; [simpl in Hlen; lia | reflexivity]. }
  unfold serve, calcular_frete. cbn [req_form].
  rewrite Hcep, Htruthy, Hshort. cbn [negb orb].
  unfold bind at 1. unfold get_session at 1. cbn [w_session].
  unfold bind at 1. unfold get_tx at 1. cbn [w_tx].
  unfold bind at 1. rewrite calcular_frete_total_eq, Hpure.
  reflexivity.
Qed.

(** The cart page of a logged-in session whose cart adds up to [S]. *)
Lemma carrinho_page (w : World) (nome : string) (S : float) :
  s_usuario (w_session w) = Some nome ->
  (forall itens w0, exists itens',
      for_each (cart_of w) (carrinho_item (w_db w)) (itens, 0%float) w0
      = Val (itens', S) w0) ->
  exists view,
    snd (serve carrinho w) = Served (RenderCarrinho view) /\
    cv_total view = S /\
    cv_tem_frete_gratis view = PrimFloat.leb 250 S.
Proof.
  intros Hnome Hpage.
  destruct w as [db tx [u c cp fr fl] so chs cs now]. simpl in Hnome. subst u.
  unfold cart_of in Hpage. cbn [w_session w_db] in Hpage.
  unfold serve, carrinho.
  unfold bind at 1. unfold get_session at 1. cbn [w_session s_usuario].
  unfold bind at 1. unfold get_tx at 1. cbn [w_tx].
  unfold bind at 1. rewrite carrinho_itens_eq.
  match goal with |- context [for_each ?c0 (carrinho_item ?t) ?a ?w0] =>
    destruct (Hpage [] w0) as (itens' & Hrun);
    match type of Hrun with ?lhs = _ =>
      change (for_each c0 (carrinho_item t) a w0) with lhs end end.
  rewrite Hrun. eexists. split; [reflexivity|]. split; reflexivity.
Qed.

(** A cart that is in the order of its keys is read back from the cookie
    as it is. *)
Lemma next_request_sorted (w : World) :
  sorted_items (cart_of w) = cart_of w -> next_request w = w.
Proof.
  destruct w as [db tx [u [c|] cp fr fl] so chs cs now]; [|reflexivity].
  intros H. change (sorted_items c = c) in H.
  unfold next_request, from_cookie.
  cbn [w_db w_tx w_session w_stdout w_charts w_chamadas w_now s_usuario s_carrinho
       s_cep_usuario s_frete s_flashes option_map].
  now rewrite H.
Qed.

(** C4: for a postal code that passes the length test and a cart whose
    subtotal is [S], [calcular_frete] stores the fee 0 when [S >= 250] and
    19.90 otherwise, so the fee is 0 exactly when [S >= 250]; for a
    logged-in session the cart page shown next computes the same subtotal
    and raises its free-shipping flag in exactly the same case, also when
    the cart, with the keys the routes file and in the order of its keys, is
    read back from the cookie. *)
Theorem calcular_frete_rule (w : World) (req : Request) (cep : string) (S : float) :
  form_get (req_form req) "cep" = Some cep ->
  (8 <= String.length cep)%nat ->
  calcular_frete_total (w_db w) (cart_of w) w = Val S w ->
  let out := serve (calcular_frete req) w in
  let w' := fst out in
  snd out = Served (Redirect "carrinho") /\
  s_cep_usuario (w_session w') = Some cep /\
  (PrimFloat.leb 250 S = true -> s_frete (w_session w') = Some 0%float) /\
  (PrimFloat.leb 250 S = false -> s_frete (w_session w') = Some 19.90%float) /\
  (s_frete (w_session w') = Some 0%float <-> PrimFloat.leb 250 S = true) /\
  (s_usuario (w_session w) <> None ->
   exists view,
     snd (serve carrinho w') = Served (RenderCarrinho view) /\
     cv_total view = S /\
     (cv_tem_frete_gratis view = true <-> PrimFloat.leb 250 S = true) /\
     (s_frete (w_session w') = Some 0%float /\ cv_tem_frete_gratis view = true
      <-> PrimFloat.leb 250 S = true)) /\
  (s_usuario (w_session w) <> None -> keys_are_str (cart_of w) ->
   sorted_items (cart_of w) = cart_of w ->
   exists view,
     snd (serve carrinho (next_request w')) = Served (RenderCarrinho view) /\
     cv_total view = S /\
     (s_frete (w_session w') = Some 0%float /\ cv_tem_frete_gratis view = true
      <-> PrimFloat.leb 250 S = true)).
Proof.
  intros Hcep Hlen Htotal out w'.
  pose proof (calcular_frete_accepts w req cep S Hcep Hlen Htotal) as Hserve.
  cbv zeta in Hserve.
  pose proof Htotal as Hpage. rewrite calcular_frete_total_eq in Hpage.
  apply calcular_frete_total_val in Hpage. destruct Hpage as [_ Hpage].
  subst w' out. rewrite Hserve. cbn [fst snd w_session s_frete s_cep_usuario].
  split; [reflexivity|]. split; [reflexivity|].
  assert (Hfee : Some (if PrimFloat.leb 250 S then 0%float else 19.90%float) = Some 0%float
                 <-> PrimFloat.leb 250 S = true).
  { destruct (PrimFloat.leb 250 S); split; intros H; try reflexivity; discriminate H. }
  split; [now intros ->|]. split; [now intros ->|]. split; [exact Hfee|].
  match goal with |- (_ -> exists view, snd (serve carrinho ?w0) = _ /\ _) /\ _ =>
    assert (Hpg : s_usuario (w_session w) <> None ->
                  exists view,
                    snd (serve carrinho w0) = Served (RenderCarrinho view) /\
                    cv_total view = S /\
                    cv_tem_frete_gratis view = PrimFloat.leb 250 S);
    [|assert (Hsame : sorted_items (cart_of w) = cart_of w -> next_request w0 = w0)
        by (intros Hs; apply next_request_sorted; exact Hs)]
  end.
  { intros Hlogged.
    destruct (s_usuario (w_session w)) as [nome|] eqn:Hnome;
      [clear Hlogged | now elim Hlogged].
    match goal with |- context [serve carrinho ?w0] =>
      destruct (carrinho_page w0 nome S eq_refl Hpage) as (view & Hview & Htot & Hflag) end.
    exists view. split; [exact Hview|]. split; [exact Htot | exact Hflag]. }
  split.
  - intros Hlogged. destruct (Hpg Hlogged) as (view & Hview & Htot & Hflag).
    exists view. split; [exact Hview|]. split; [exact Htot|].
    rewrite Hflag. split; [reflexivity|].
    split; [now intros [_ H] | intros H; split; [now apply Hfee | exact H]].
  - intros Hlogged _ Hsorted. rewrite (Hsame Hsorted).
    destruct (Hpg Hlogged) as (view & Hview & Htot & Hflag).
    exists view. split; [exact Hview|]. split; [exact Htot|].
    rewrite Hflag.
    split; [now intros [_ H] | intros H; split; [now apply Hfee | exact H]].
Qed.

Lemma calcular_frete_rule_witness :
  let w := mundo_com_carrinho in
  let req := mkRequest POST [("cep", "01310-100")] in
  let w' := fst (serve (calcular_frete req) w) in
  calcular_frete_total (w_db w) (cart_of w) w = Val 25%float w /\
  PrimFloat.leb 250 25 = false /\
  s_frete (w_session w') = Some 19.90%float /\
  (exists view,
     snd (serve carrinho w') = Served (RenderCarrinho view) /\
     (cv_tem_frete_gratis view = true <-> PrimFloat.leb 250 25 = true)) /\
  exists view,
    snd (serve carrinho (next_request w')) = Served (RenderCarrinho view) /\
    cv_total view = 25%float.
Proof.
  assert (Hlen : (8 <= String.length "01310-100")%nat) by (simpl; lia).
  assert (Hlogged : s_usuario (w_session mundo_com_carrinho) <> None) by discriminate.
  pose proof (calcular_frete_rule mundo_com_carrinho
                (mkRequest POST [("cep", "01310-100")]) "01310-100" 25%float
                eq_refl Hlen eq_refl) as H.
  cbv zeta in H. destruct H as (_ & _ & _ & Hpaid & _ & Hpage & Hnext).
  destruct (Hpage Hlogged) as (view & Hview & _ & Hflag & _).
  assert (Hk : keys_are_str (cart_of mundo_com_carrinho)).
  { repeat constructor; [now exists 1 | now exists 2]. }
  destruct (Hnext Hlogged Hk eq_refl) as (view' & Hview' & Htot' & _).
  split; [reflexivity|]. split; [reflexivity|]. split; [exact (Hpaid eq_refl)|].
  split; [exists view; split; [exact Hview | exact Hflag]|].
  exists view'. split; [exact Hview' | exact Htot'].
Defined.

(** A key beyond 64 bits, which [adicionar_ao_carrinho] files as any other,
    ends the quote and the cart page in HTTP 500 with the [OverflowError]
    of the driver: the loop returns no subtotal there, and no fee is
    stored. *)
Example calcular_frete_key_beyond_64_bits :
  let w := fst (serve (adicionar_ao_carrinho 9223372036854775808) mundo) in
  let out := serve (calcular_frete (mkRequest POST [("cep", "01310-100")])) w in
  cart_of w = [(KStr "9223372036854775808", 1)] /\
  (exists e, exn_cls e = OverflowError /\ snd out = Failed 500 e) /\
  s_frete (w_session (fst out)) = s_frete (w_session w) /\
  (exists e, exn_cls e = OverflowError /\ snd (serve carrinho w) = Failed 500 e).
Proof.
  cbv zeta. split; [vm_compute; reflexivity|].
  split; [eexists; split; [|vm_compute; reflexivity]; reflexivity|].
  split; [vm_compute; reflexivity|].
  eexists; split; [|vm_compute; reflexivity]; reflexivity.
Qed.

Transparent calcular_frete_total carrinho_itens.

(** ** The sales report *)

(** With no order in the store the estimated revenue is 0 and nothing is
    raised. *)
Lemma total_vendas_no_orders (tx : Database) (w : World) :
  tb_pedido tx = [] -> total_vendas tx w = Val 0%float w.
Proof.
  intros H. unfold total_vendas. now rewrite H.
Qed.

(** With no order line in the store the table of sales is empty and no
    chart is drawn. *)
Lemma relatorios_admin_no_sales (w : World) :
  tb_item_pedido (w_db w) = [] ->
  serve relatorios_admin w =
  (mkWorld (w_db w) (w_db w) (w_session w) (w_stdout w) (w_charts w) (w_chamadas w)
     (w_now w),
   Served (RenderRelatorios None)).
Proof.
  intros H. unfold serve, relatorios_admin, bind, get_tx, nomes_vendidos. cbn [w_tx].
  now rewrite H.
Qed.

(** An order line whose product is gone stops the revenue loop. *)
Lemma total_vendas_item_dangling (tx : Database) (total : float) (item : ItemPedido)
  (w : World) :
  ItemPedido_produto tx item = None ->
  total_vendas_item tx total item w =
  Exc (mkExn AttributeError "'NoneType' object has no attribute 'preco'") w.
Proof.
  intros H. unfold total_vendas_item. now rewrite H.
Qed.

(** C8: Ana buys two Whey and one Creatina, then the Whey is deleted
    through [/excluir/1]; its two order lines stay.  On that store
    [/enviar-relatorio] ends in an [AttributeError] (HTTP 500) inside the
    revenue loop, before any report is built, while [/admin/relatorios],
    which tests [item.produto] first, is served. *)
Theorem enviar_relatorio_dangling_product_raises :
  let w1 := fst (serve (finalizar_compra entrega false
                          (mkRequest POST formulario_completo)) mundo_com_carrinho) in
  let w2 := fst (serve (excluir 1) w1) in
  map ItemPedido_produto_id (tb_item_pedido (w_db w2)) = [SqlInt 1; SqlInt 1; SqlInt 2] /\
  Produto_by_id (w_db w2) 1 = None /\
  snd (serve (enviar_relatorio entrega (Some "admin@example.com")) w2) =
    Failed 500 (mkExn AttributeError "'NoneType' object has no attribute 'preco'") /\
  snd (serve relatorios_admin w2) =
    Served (RenderRelatorios (Some "graficos/vendas_barra_horizontal.png")) /\
  w_charts (fst (serve relatorios_admin w2)) =
    [("graficos/vendas_barra_horizontal.png", [("Creatina", 1)])].
Proof.
  vm_compute. repeat split.
Qed.

(* ================================================================== *)
(** * Further properties *)
(* ================================================================== *)

(** ** The cart as a dictionary *)

Lemma pykey_eqb_refl k : pykey_eqb k k = true.
Proof. destruct k; simpl; [apply Z.eqb_refl | apply String.eqb_refl]. Qed.

Lemma pykey_eqb_neq a b : a <> b -> pykey_eqb a b = false.
Proof.
  intros H. destruct (pykey_eqb a b) eqn:E; [|reflexivity].
  apply pykey_eqb_eq in E. now elim H.
Qed.

Lemma str_inj (a b : Z) : str a = str b -> a = b.
Proof.
  intros H. apply (f_equal int_of_str) in H. rewrite !int_of_str_str in H.
  now injection H.
Qed.

Lemma dict_get_set_same {V} (d : dict V) k v : dict_get (dict_set d k v) k = Some v.
Proof.
  induction d as [|[k' v'] r IH]; simpl.
  - now rewrite pykey_eqb_refl.
  - destruct (pykey_eqb k' k) eqn:E; simpl; now rewrite E.
Qed.

Lemma dict_get_set_other {V} (d : dict V) k k' v :
  k <> k' -> dict_get (dict_set d k v) k' = dict_get d k'.
Proof.
  intros Hne. induction d as [|[k0 v0] r IH]; simpl.
  - now rewrite pykey_eqb_neq.
  - destruct (pykey_eqb k0 k) eqn:E; simpl.
    + apply pykey_eqb_eq in E. subst k0. now rewrite pykey_eqb_neq.
    + destruct (pykey_eqb k0 k'); [reflexivity | exact IH].
Qed.

Lemma dict_get_del_other {V} (d : dict V) k k' :
  k <> k' -> dict_get (dict_del d k) k' = dict_get d k'.
Proof.
  intros Hne. induction d as [|[k0 v0] r IH]; simpl; [reflexivity|].
  destruct (pykey_eqb k0 k) eqn:E; simpl.
  - apply pykey_eqb_eq in E. subst k0. now rewrite pykey_eqb_neq.
  - destruct (pykey_eqb k0 k'); [reflexivity | exact IH].
Qed.

Lemma dict_set_absent {V} (d : dict V) k v :
  dict_get d k = None -> dict_set d k v = (d ++ [(k, v)])%list.
Proof.
  induction d as [|[k' v'] r IH]; simpl; [reflexivity|].
  destruct (pykey_eqb k' k); [discriminate|]. intros H. now rewrite IH.
Qed.

Lemma dict_del_absent_id {V} (d : dict V) k : dict_get d k = None -> dict_del d k = d.
Proof.
  induction d as [|[k' v'] r IH]; simpl; [reflexivity|].
  destruct (pykey_eqb k' k); [discriminate|]. intros H. now rewrite IH.
Qed.

Lemma dict_del_app {V} (d e : dict V) k :
  dict_del (d ++ e)%list k = (dict_del d k ++ dict_del e k)%list.
Proof.
  induction d as [|[k' v'] r IH]; simpl; [reflexivity|].
  destruct (pykey_eqb k' k); simpl; now rewrite IH.
Qed.

Lemma dict_set_set {V} (d : dict V) k v v' :
  dict_get d k <> None -> dict_set (dict_set d k v) k v' = dict_set d k v'.
Proof.
  induction d as [|[k0 v0] r IH]; simpl; [now intros H; elim H|].
  destruct (pykey_eqb k0 k) eqn:E; simpl; rewrite E; [reflexivity|].
  intros H. now rewrite IH.
Qed.

Lemma dict_set_get {V} (d : dict V) k v : dict_get d k = Some v -> dict_set d k v = d.
Proof.
  induction d as [|[k0 v0] r IH]; simpl; [discriminate|].
  destruct (pykey_eqb k0 k) eqn:E.
  - now intros [= ->].
  - intros H. now rewrite IH.
Qed.

Lemma dict_keys_set {V} (d : dict V) k v :
  map fst (dict_set d k v) =
  match dict_get d k with
  | Some _ => map fst d
  | None => (map fst d ++ [k])%list
  end.
Proof.
  induction d as [|[k0 v0] r IH]; simpl; [reflexivity|].
  destruct (pykey_eqb k0 k) eqn:E; simpl; [reflexivity|].
  rewrite IH. now destruct (dict_get r k).
Qed.

Lemma dict_get_None_keys {V} (d : dict V) k : dict_get d k = None -> ~ In k (map fst d).
Proof.
  induction d as [|[k0 v0] r IH]; simpl; [tauto|].
  destruct (pykey_eqb k0 k) eqn:E; [discriminate|].
  intros H [Heq | Hin]; [|exact (IH H Hin)].
  subst k0. now rewrite pykey_eqb_refl in E.
Qed.

Lemma dict_keys_del {V} (d : dict V) k :
  map fst (dict_del d k) = filter (fun k' => negb (pykey_eqb k' k)) (map fst d).
Proof.
  induction d as [|[k0 v0] r IH]; simpl; [reflexivity|].
  destruct (pykey_eqb k0 k); simpl; now rewrite IH.
Qed.

Lemma insert_sorted_perm {V} (e : pykey * V) (d : dict V) :
  Permutation (insert_sorted e d) (e :: d).
Proof.
  induction d as [|x r IH]; simpl; [reflexivity|].
  destruct (pykey_leb (fst e) (fst x)); [reflexivity|].
  rewrite IH. apply perm_swap.
Qed.

(** The cookie changes the order of the entries and nothing else. *)
Lemma sorted_items_perm {V} (d : dict V) : Permutation (sorted_items d) d.
Proof.
  unfold sorted_items. induction d as [|x r IH]; simpl; [reflexivity|].
  rewrite insert_sorted_perm. now constructor.
Qed.

(** X1: a reachable cart never holds two entries under the same key. *)
Theorem reachable_cart_keys_unique (c : dict Z) :
  reachable_cart c -> NoDup (map fst c).
Proof.
  intros Hr.
  enough (H : quantities_positive c /\ NoDup (map fst c)) by apply H.
  induction Hr as [|w op Hr IH|c Hr IH].
  3:{ destruct IH as [Hq Hc]. split; [now apply sorted_items_Forall|].
      eapply Permutation_NoDup; [|exact Hc].
      apply Permutation_map. symmetry. apply sorted_items_perm. }
  - split; constructor.
  - revert IH.
    apply (cart_step (fun c => quantities_positive c /\ NoDup (map fst c))).
    + split; constructor.
    + intros c k v [Hq Hc] _ _ Hv. split; [apply dict_set_Forall; auto|].
      rewrite dict_keys_set.
      destruct (dict_get c k) eqn:E; [exact Hc|].
      apply NoDup_app; [exact Hc | repeat constructor; intros [] |].
      intros x Hx [<-|[]]. exact (dict_get_None_keys _ _ E Hx).
    + intros c k [Hq Hc]. split; [now apply dict_del_Forall|].
      rewrite dict_keys_del. now apply NoDup_filter.
    + intros c [Hq _] k q. now apply dict_get_positive.
Qed.

Lemma reachable_cart_keys_unique_witness :
  reachable_cart [(KStr "7", 1)] /\ NoDup (map fst [(KStr "7", 1)]).
Proof.
  assert (H : reachable_cart [(KStr "7", 1)]).
  { change [(KStr "7", 1)]
      with (cart_of (fst (serve (cart_handler (OpAdd 7)) mundo))).
    apply reach_step. exact reach_empty. }
  split; [exact H | exact (reachable_cart_keys_unique _ H)].
Defined.

(** ** How the cart requests compose *)

(** The cart after [adicionar_ao_carrinho] in a logged-in session. *)
Lemma adicionar_ao_carrinho_cart (w : World) (id : Z) :
  s_usuario (w_session w) <> None ->
  cart_of (fst (serve (adicionar_ao_carrinho id) w)) =
  dict_set (cart_of w) (KStr (str id)) (quantidade_de (cart_of w) id + 1).
Proof.
  intros Hu. destruct w as [db tx [u c cep fr fl] so chs cs now]. simpl in Hu.
  destruct u; [reflexivity | now elim Hu].
Qed.

(** The cart after [alterar_quantidade]. *)
Lemma alterar_quantidade_cart (w : World) (id : Z) (req : Request) :
  cart_of (fst (serve (alterar_quantidade id req) w)) =
  match dict_get (cart_of w) (KStr (str id)) with
  | Some q =>
      if option_str_eqb (form_get (req_form req) "acao") "mais"
      then dict_set (cart_of w) (KStr (str id)) (q + 1)
      else if option_str_eqb (form_get (req_form req) "acao") "menos"
      then if q - 1 <=? 0 then dict_del (cart_of w) (KStr (str id))
           else dict_set (cart_of w) (KStr (str id)) (q - 1)
      else cart_of w
  | None => cart_of w
  end.
Proof.
  destruct w as [db tx [u c cep fr fl] so chs cs now]. reflexivity.
Qed.

(** X2: in a logged-in session, adding a product raises its quantity by
    exactly one (from 0 when it had no entry) and leaves the quantity of
    every other product as it was. *)
Theorem adicionar_ao_carrinho_increments (w : World) (id : Z) :
  s_usuario (w_session w) <> None ->
  let c' := cart_of (fst (serve (adicionar_ao_carrinho id) w)) in
  quantidade_de c' id = quantidade_de (cart_of w) id + 1 /\
  forall other, other <> id -> quantidade_de c' other = quantidade_de (cart_of w) other.
Proof.
  intros Hu c'. subst c'. rewrite (adicionar_ao_carrinho_cart w id Hu).
  unfold quantidade_de, dict_get_default. split.
  - now rewrite dict_get_set_same.
  - intros other Hne. rewrite dict_get_set_other; [reflexivity|].
    intros [= H]. apply str_inj in H. now elim Hne.
Qed.

Lemma adicionar_ao_carrinho_increments_witness :
  let c' := cart_of (fst (serve (adicionar_ao_carrinho 1) mundo_com_carrinho)) in
  s_usuario (w_session mundo_com_carrinho) <> None /\
  quantidade_de c' 1 = 3 /\ quantidade_de c' 2 = 1.
Proof.
  assert (Hu : s_usuario (w_session mundo_com_carrinho) <> None) by discriminate.
  pose proof (adicionar_ao_carrinho_increments mundo_com_carrinho 1 Hu) as H.
  cbv zeta in H. destruct H as [H1 H2].
  split; [exact Hu|]. split; [exact H1|]. apply (H2 2). discriminate.
Defined.

(** X3: in a logged-in session whose cart holds only positive quantities,
    adding a product and then pressing minus on it gives back the cart as it
    was, entry for entry and in the same order. *)
Theorem adicionar_then_menos_restores (w : World) (id : Z) :
  s_usuario (w_session w) <> None ->
  quantities_positive (cart_of w) ->
  cart_of (fst (serve (alterar_quantidade id (req_acao "menos"))
                  (fst (serve (adicionar_ao_carrinho id) w)))) = cart_of w.
Proof.
  intros Hu Hq. rewrite alterar_quantidade_cart, (adicionar_ao_carrinho_cart w id Hu).
  rewrite dict_get_set_same. cbn [req_acao req_form form_get String.eqb option_str_eqb].
  simpl option_str_eqb. unfold quantidade_de, dict_get_default.
  destruct (dict_get (cart_of w) (KStr (str id))) as [q|] eqn:E.
  - pose proof (dict_get_positive _ _ _ Hq E) as Hpos.
    replace (q + 1 - 1) with q by lia.
    destruct (q <=? 0) eqn:Eq; [apply Z.leb_le in Eq; lia|].
    rewrite dict_set_set by congruence. now apply dict_set_get.
  - simpl. rewrite dict_set_absent by exact E. rewrite dict_del_app.
    rewrite dict_del_absent_id by exact E. cbn [dict_del].
    rewrite pykey_eqb_refl. apply app_nil_r.
Qed.

Lemma adicionar_then_menos_restores_witness :
  s_usuario (w_session mundo_com_carrinho) <> None /\
  cart_of (fst (serve (alterar_quantidade 2 (req_acao "menos"))
                  (fst (serve (adicionar_ao_carrinho 2) mundo_com_carrinho))))
  = [(KStr "1", 2); (KStr "2", 1)].
Proof.
  assert (Hu : s_usuario (w_session mundo_com_carrinho) <> None) by discriminate.
  assert (Hq : quantities_positive (cart_of mundo_com_carrinho)).
  { repeat constructor; simpl; lia. }
  split; [exact Hu|].
  exact (adicionar_then_menos_restores mundo_com_carrinho 2 Hu Hq).
Defined.

(** X4: pressing plus and then minus on a product gives back the cart as it
    was, when its quantities are positive; this needs no login. *)
Theorem mais_then_menos_restores (w : World) (id : Z) :
  quantities_positive (cart_of w) ->
  cart_of (fst (serve (alterar_quantidade id (req_acao "menos"))
                  (fst (serve (alterar_quantidade id (req_acao "mais")) w)))) = cart_of w.
Proof.
  intros Hq. rewrite !alterar_quantidade_cart.
  simpl option_str_eqb.
  destruct (dict_get (cart_of w) (KStr (str id))) as [q|] eqn:E.
  - rewrite dict_get_set_same.
    pose proof (dict_get_positive _ _ _ Hq E) as Hpos.
    replace (q + 1 - 1) with q by lia.
    destruct (q <=? 0) eqn:Eq; [apply Z.leb_le in Eq; lia|].
    rewrite dict_set_set by congruence. now apply dict_set_get.
  - now rewrite E.
Qed.

Lemma mais_then_menos_restores_witness :
  quantities_positive (cart_of mundo_com_carrinho) /\
  cart_of (fst (serve (alterar_quantidade 1 (req_acao "menos"))
                  (fst (serve (alterar_quantidade 1 (req_acao "mais"))
                          mundo_com_carrinho))))
  = [(KStr "1", 2); (KStr "2", 1)].
Proof.
  assert (Hq : quantities_positive (cart_of mundo_com_carrinho)).
  { repeat constructor; simpl; lia. }
  split; [exact Hq|].
  exact (mais_then_menos_restores mundo_com_carrinho 1 Hq).
Defined.

(** ** Who may do what *)

(** X5: the cart page, adding to the cart, checkout, reviewing, the order
    history, adding and deleting products all send an anonymous client to
    the login page and change neither the store nor the cart. *)
Theorem anonymous_is_sent_to_login
  (mail_send : Message -> option exn) (script_mode : bool)
  (float_of_str : string -> option float)
  (w : World) (req : Request) (id : Z) (uuid_hex : string)
  (files : list (string * string)) :
  s_usuario (w_session w) = None ->
  let to_login (out : World * HttpResult) :=
    snd out = Served (Redirect "login") /\ turned_away w (fst out) in
  let to_login' (out : World * HttpReply) :=
    snd out = Replied (Plain (Redirect "login")) /\ turned_away w (fst out) in
  to_login (serve carrinho w) /\
  to_login (serve (adicionar_ao_carrinho id) w) /\
  to_login (serve (finalizar_compra mail_send script_mode req) w) /\
  to_login (serve (avaliar id req) w) /\
  to_login (serve (excluir id) w) /\
  to_login' (serve_reply meus_pedidos w) /\
  to_login' (serve_reply (adicionar float_of_str uuid_hex req files) w).
Proof.
  intros Hu. destruct w as [db tx [u c cep fr fl] so chs cs now].
  simpl in Hu. subst u. cbv zeta. unfold turned_away. repeat split.
Qed.

Lemma anonymous_is_sent_to_login_witness :
  let w := mkWorld loja loja (mkSession None (Some [(KStr "1", 1)]) None None [])
             [] [] [] 0 in
  s_usuario (w_session w) = None /\
  snd (serve (excluir 1) w) = Served (Redirect "login") /\
  w_db (fst (serve (excluir 1) w)) = loja.
Proof.
  pose proof (anonymous_is_sent_to_login entrega false (fun _ => None)
                (mkWorld loja loja (mkSession None (Some [(KStr "1", 1)]) None None [])
                   [] [] [] 0)
                (mkRequest POST []) 1 "" [] eq_refl) as H.
  cbv zeta in H. destruct H as (_ & _ & _ & _ & (Hr & Hdb & _) & _).
  split; [reflexivity|]. split; [exact Hr | exact Hdb].
Defined.

(** ** Accounts *)

Lemma find_app_none {A} (f : A -> bool) (l l' : list A) :
  find f l = None -> find f (l ++ l') = find f l'.
Proof.
  induction l as [|x r IH]; simpl; [reflexivity|].
  destruct (f x); [discriminate | exact IH].
Qed.

Lemma find_app_some {A} (f : A -> bool) (l l' : list A) (x : A) :
  find f l = Some x -> find f (l ++ l') = Some x.
Proof.
  induction l as [|y r IH]; simpl; [discriminate|].
  destruct (f y); [auto | exact IH].
Qed.

Lemma find_weaker_none {A} (f g : A -> bool) (l : list A) :
  (forall x, g x = true -> f x = true) -> find f l = None -> find g l = None.
Proof.
  intros Hfg. induction l as [|x r IH]; simpl; [reflexivity|].
  destruct (f x) eqn:Ef; [discriminate|].
  destruct (g x) eqn:Eg; [|exact IH].
  apply Hfg in Eg. congruence.
Qed.

(** X6: a registration under a name that is taken changes nothing in the
    store and sends the client back to the form. *)
Theorem cadastro_name_taken
  (send_text : Email -> option exn) (admin_email : option string)
  (w : World) (req : Request) (nome senha : string) (existing : Usuario) :
  req_method req = POST ->
  form_get (req_form req) "usuario" = Some nome ->
  form_get (req_form req) "senha" = Some senha ->
  Usuario_by_nome (w_db w) nome = Some existing ->
  let out := serve_reply (cadastro send_text admin_email req) w in
  snd out = Replied (Plain (Redirect "cadastro")) /\
  w_db (fst out) = w_db w /\
  w_stdout (fst out) = w_stdout w.
Proof.
  intros Hm Hn Hs Hu. destruct w as [db tx s so chs cs now]. destruct req as [m form].
  simpl in *. subst m.
  unfold serve_reply, cadastro, bind, form_item. cbn [req_method req_form].
  rewrite Hn, Hs. cbn. rewrite Hu. cbn. repeat split.
Qed.

Lemma cadastro_name_taken_witness :
  let req := req_credenciais "ana" "outra" in
  let out := serve_reply (cadastro entrega_texto None req) mundo in
  Usuario_by_nome (w_db mundo) "ana" = Some ana /\
  snd out = Replied (Plain (Redirect "cadastro")) /\
  w_db (fst out) = loja.
Proof.
  pose proof (cadastro_name_taken entrega_texto None mundo
                (req_credenciais "ana" "outra") "ana" "outra" ana
                eq_refl eq_refl eq_refl eq_refl) as H.
  cbv zeta in H. destruct H as (Hr & Hdb & _).
  split; [reflexivity|]. split; [exact Hr | exact Hdb].
Defined.

(** The store after a registration under a free name, whatever becomes of
    the confirmation e-mail. *)
Lemma cadastro_new_name
  (send_text : Email -> option exn) (admin_email : option string)
  (w : World) (req : Request) (nome senha : string) :
  req_method req = POST ->
  form_get (req_form req) "usuario" = Some nome ->
  form_get (req_form req) "senha" = Some senha ->
  Usuario_by_nome (w_db w) nome = None ->
  let out := serve_reply (cadastro send_text admin_email req) w in
  snd out = Replied (Plain (Redirect "login")) /\
  w_db (fst out) = insert_usuario (w_db w) nome senha /\
  s_usuario (w_session (fst out)) = s_usuario (w_session w) /\
  cart_of (fst out) = cart_of w.
Proof.
  intros Hm Hn Hs Hu. destruct w as [db tx s so chs cs now]. destruct req as [m form].
  simpl in *. subst m.
  unfold serve_reply, cadastro, bind, form_item. cbn [req_method req_form].
  rewrite Hn, Hs. cbn. rewrite Hu. cbn.
  unfold try_except, enviar_confirmacao_cadastro, enviar_contato_para_admin, send_email.
  destruct (truthy (form_get form "email"));
    match goal with |- context [send_text ?m] => destruct (send_text m) end;
    cbn; repeat split.
Qed.

(** X7: registering under a free name and then logging in with the same
    name and password logs that user in, even when the confirmation e-mail
    could not be sent. *)
Theorem cadastro_then_login
  (send_text : Email -> option exn) (admin_email : option string)
  (w : World) (nome senha : string) :
  Usuario_by_nome (w_db w) nome = None ->
  let w1 := fst (serve_reply (cadastro send_text admin_email (req_credenciais nome senha)) w) in
  let out := serve_reply (login (req_credenciais nome senha)) w1 in
  snd out = Replied (Plain (Redirect "index")) /\
  s_usuario (w_session (fst out)) = Some nome /\
  exists u, Usuario_by_nome (w_db (fst out)) nome = Some u /\ Usuario_senha u = senha.
Proof.
  intros Hfree w1 out.
  assert (Hn : form_get (req_form (req_credenciais nome senha)) "usuario" = Some nome)
    by reflexivity.
  assert (Hs : form_get (req_form (req_credenciais nome senha)) "senha" = Some senha)
    by reflexivity.
  destruct (cadastro_new_name send_text admin_email w (req_credenciais nome senha)
              nome senha eq_refl Hn Hs Hfree) as (_ & Hdb & _ & _).
  fold w1 in Hdb.
  assert (Hcred : Usuario_by_credentials (w_db w1) nome senha
                  = Some (mkUsuario (next_id (map Usuario_id (tb_usuario (w_db w)))) nome senha)).
  { rewrite Hdb. unfold Usuario_by_credentials, insert_usuario. cbn [tb_usuario].
    rewrite find_app_none.
    - simpl. now rewrite !String.eqb_refl.
    - apply (find_weaker_none (fun u => String.eqb (Usuario_nome u) nome)); [|exact Hfree].
      intros x Hx. now apply andb_prop in Hx. }
  assert (Hnome : Usuario_by_nome (w_db w1) nome
                  = Some (mkUsuario (next_id (map Usuario_id (tb_usuario (w_db w)))) nome senha)).
  { rewrite Hdb. unfold Usuario_by_nome, insert_usuario. cbn [tb_usuario].
    rewrite find_app_none by exact Hfree. simpl. now rewrite String.eqb_refl. }
  subst out. destruct w1 as [db1 tx1 s1 so1 chs1 cs1 now1]. simpl in Hcred, Hnome.
  unfold serve_reply, login, bind, form_item. cbn.
  rewrite Hcred. cbn. split; [reflexivity|]. split; [reflexivity|].
  eexists. split; [exact Hnome | reflexivity].
Qed.

Lemma cadastro_then_login_witness :
  let w1 := fst (serve_reply (cadastro smtp_fora_texto None (req_credenciais "bia" "s3nha"))
                   mundo) in
  let out := serve_reply (login (req_credenciais "bia" "s3nha")) w1 in
  Usuario_by_nome (w_db mundo) "bia" = None /\
  snd out = Replied (Plain (Redirect "index")) /\
  s_usuario (w_session (fst out)) = Some "bia".
Proof.
  pose proof (cadastro_then_login smtp_fora_texto None mundo "bia" "s3nha" eq_refl) as H.
  cbv zeta in H. destruct H as (Hr & Hu & _).
  split; [reflexivity|]. split; [exact Hr | exact Hu].
Defined.

Lemma Usuario_by_nome_none_names (db : Database) (nome : string) :
  Usuario_by_nome db nome = None -> ~ In nome (map Usuario_nome (tb_usuario db)).
Proof.
  unfold Usuario_by_nome. induction (tb_usuario db) as [|u r IH]; simpl; [tauto|].
  destruct (String.eqb (Usuario_nome u) nome) eqn:E; [discriminate|].
  intros H [Heq | Hin]; [|exact (IH H Hin)].
  rewrite Heq, String.eqb_refl in E. discriminate.
Qed.

(** X8: [login] changes the logged-in user only on a name and password that
    a stored user has: after any login request the session names either
    whom it named before or the submitted name, and in the latter case a
    user of that name and the submitted password is in the store.  The
    store and the cart are as before. *)
Theorem login_needs_matching_user (w : World) (req : Request) :
  let w' := fst (serve_reply (login req) w) in
  w_db w' = w_db w /\
  cart_of w' = cart_of w /\
  (s_usuario (w_session w') = s_usuario (w_session w) \/
   exists nome senha u,
     form_get (req_form req) "usuario" = Some nome /\
     form_get (req_form req) "senha" = Some senha /\
     s_usuario (w_session w') = Some nome /\
     In u (tb_usuario (w_db w)) /\ Usuario_nome u = nome /\ Usuario_senha u = senha).
Proof.
  destruct w as [db tx [u c cep fr fl] so chs cs now]. destruct req as [m form].
  unfold serve_reply, login, bind, form_item. cbn.
  destruct m; [cbn; auto|].
  destruct (form_get form "usuario") as [nome|]; [|cbn; auto].
  destruct (form_get form "senha") as [senha|]; [|cbn; auto]. cbn.
  destruct (Usuario_by_credentials db nome senha) as [x|] eqn:E; cbn; [|auto].
  split; [reflexivity|]. split; [reflexivity|]. right.
  exists nome, senha, x. unfold Usuario_by_credentials in E.
  apply find_some in E. destruct E as [Hin Hx]. apply andb_prop in Hx.
  destruct Hx as [H1 H2]. apply String.eqb_eq in H1, H2. auto 10.
Qed.

(** X9: the cart belongs to the browser session, not to the account: it, the
    cached fee and the postal code survive a logout and the login of
    whoever comes next. *)
Theorem cart_survives_logout_and_login (w : World) (req : Request) :
  let w' := fst (serve_reply (login req) (fst (serve_reply logout w))) in
  cart_of w' = cart_of w /\
  s_frete (w_session w') = s_frete (w_session w) /\
  s_cep_usuario (w_session w') = s_cep_usuario (w_session w) /\
  s_usuario (w_session (fst (serve_reply logout w))) = None.
Proof.
  destruct w as [db tx [u c cep fr fl] so chs cs now]. destruct req as [m form].
  unfold serve_reply, login, logout, bind, form_item. cbn.
  destruct m; [cbn; auto|].
  destruct (form_get form "usuario") as [nome|]; [|cbn; auto].
  destruct (form_get form "senha") as [senha|]; [|cbn; auto]. cbn.
  destruct (Usuario_by_credentials db nome senha); cbn; auto.
Qed.

(** ** Contact and password recovery *)

(** X10: a contact request is never answered with an error page and never
    touches the store: the transport is handed one message for the
    administrator, made of the submitted fields, and the client is sent back
    to the contact page, with the success message when the transport took
    that message and, when the transport raised on it, with a message that
    carries the text of the exception it raised. *)
Theorem contato_reports_outcome
  (send_text : Email -> option exn) (admin_email : option string)
  (w : World) (req : Request) :
  req_method req = POST ->
  let out := serve_reply (contato send_text admin_email req) w in
  let msg := mensagem_contato admin_email (req_form req) in
  snd out = Replied (Plain (Redirect "contato")) /\
  w_db (fst out) = w_db w /\
  w_stdout (fst out) = w_stdout w /\
  (send_text msg = None ->
   w_session (fst out) =
     com_flash (w_session w) "success" "Mensagem enviada! Em breve entraremos em contato.") /\
  (forall e, send_text msg = Some e ->
   w_session (fst out) =
     com_flash (w_session w) "danger" ("Erro ao enviar mensagem: " ++ exn_msg e)).
Proof.
  intros Hm. destruct w as [db tx s so chs cs now]. destruct req as [m form].
  simpl in Hm. subst m.
  unfold serve_reply, contato, bind, try_except, enviar_contato_para_admin, send_email.
  cbn [req_method req_form].
  match goal with |- context [match send_text ?m with _ => _ end] =>
    change m with (mensagem_contato admin_email form) end.
  destruct (send_text (mensagem_contato admin_email form)) as [e|] eqn:E; cbn.
  - split; [reflexivity|]. split; [reflexivity|]. split; [reflexivity|].
    split; [intros H; discriminate H|]. now intros e' [= <-].
  - split; [reflexivity|]. split; [reflexivity|]. split; [reflexivity|].
    split; [reflexivity|]. intros e' H. discriminate H.
Qed.

Lemma contato_reports_outcome_witness :
  let out := serve_reply (contato smtp_fora_texto None (mkRequest POST [("nome", "Bia")]))
               mundo in
  snd out = Replied (Plain (Redirect "contato")) /\ w_db (fst out) = loja /\
  w_session (fst out) =
    com_flash sessao_ana "danger" "Erro ao enviar mensagem: Connection refused".
Proof.
  pose proof (contato_reports_outcome smtp_fora_texto None mundo
                (mkRequest POST [("nome", "Bia")]) eq_refl) as H.
  cbv zeta in H. destruct H as (Hr & Hdb & _ & _ & He).
  split; [exact Hr|]. split; [exact Hdb|].
  exact (He (mkExn MailError "Connection refused") eq_refl).
Defined.

(** X11: password recovery looks nothing up and changes nothing: whatever
    address is submitted, and whether or not any user exists, the transport
    is handed the same text with the same link for that address, the store
    and the logged-in user stay as they were, and the client is sent back
    with the confirmation, or with the transport's error text. *)
Theorem recover_changes_nothing
  (send_text : Email -> option exn) (login_url : string)
  (w : World) (req : Request) :
  req_method req = POST ->
  let out := serve_reply (recover send_text login_url req) w in
  let msg := mensagem_recuperacao login_url (form_get (req_form req) "email") in
  snd out = Replied (Plain (Redirect "recover")) /\
  w_db (fst out) = w_db w /\
  (send_text msg = None ->
   w_session (fst out) = com_flash (w_session w) "info" "E-mail de recuperação enviado.") /\
  (forall e, send_text msg = Some e ->
   w_session (fst out) = com_flash (w_session w) "danger" ("Erro: " ++ exn_msg e)).
Proof.
  intros Hm. destruct w as [db tx s so chs cs now]. destruct req as [m form].
  simpl in Hm. subst m.
  unfold serve_reply, recover, bind, try_except, enviar_recuperacao, send_email.
  cbn [req_method req_form].
  match goal with |- context [match send_text ?m with _ => _ end] =>
    change m with (mensagem_recuperacao login_url (form_get form "email")) end.
  destruct (send_text (mensagem_recuperacao login_url (form_get form "email")))
    as [e|] eqn:E; cbn.
  - split; [reflexivity|]. split; [reflexivity|].
    split; [intros H; discriminate H|]. now intros e' [= <-].
  - split; [reflexivity|]. split; [reflexivity|].
    split; [reflexivity|]. intros e' H. discriminate H.
Qed.

Lemma recover_changes_nothing_witness :
  let req := mkRequest POST [("email", "ninguem@example.com")] in
  let out := serve_reply (recover entrega_texto "http://loja/login" req) mundo in
  snd out = Replied (Plain (Redirect "recover")) /\
  w_db (fst out) = loja /\
  w_session (fst out) = com_flash sessao_ana "info" "E-mail de recuperação enviado.".
Proof.
  pose proof (recover_changes_nothing entrega_texto "http://loja/login" mundo
                (mkRequest POST [("email", "ninguem@example.com")]) eq_refl) as H.
  cbv zeta in H. destruct H as (Hr & Hdb & Hok & _).
  split; [exact Hr|]. split; [exact Hdb | exact (Hok eq_refl)].
Defined.

(** ** Uploads *)

Lemma rsplit1_some (sep : ascii) (s a b : string) :
  rsplit1 sep s = Some (a, b) ->
  s = a ++ String sep b /\ contains_char sep b = false.
Proof.
  revert a. induction s as [|c r IH]; intros a; simpl; [discriminate|].
  destruct (rsplit1 sep r) as [[a' b']|] eqn:E.
  - intros [= <- <-]. destruct (IH a' eq_refl) as [-> Hb]. split; [reflexivity | exact Hb].
  - destruct (Ascii.eqb c sep) eqn:Ec; [|discriminate].
    intros [= <- <-]. apply Ascii.eqb_eq in Ec. subst c. split; [reflexivity|].
    clear IH. induction r as [|c' r' IH']; simpl in *; [reflexivity|].
    destruct (rsplit1 sep r') as [[? ?]|]; [discriminate|].
    destruct (Ascii.eqb c' sep); [discriminate|]. simpl. now apply IH'.
Qed.

Lemma rsplit1_none (sep : ascii) (s : string) :
  contains_char sep s = false -> rsplit1 sep s = None.
Proof.
  induction s as [|c r IH]; simpl; [reflexivity|].
  intros H. apply orb_false_iff in H. destruct H as [Hc Hr].
  now rewrite (IH Hr), Hc.
Qed.

Lemma rsplit1_app (sep : ascii) (a b : string) :
  contains_char sep b = false -> rsplit1 sep (a ++ String sep b) = Some (a, b).
Proof.
  intros Hb. induction a as [|c r IH]; simpl.
  - now rewrite (rsplit1_none _ _ Hb), Ascii.eqb_refl.
  - now rewrite IH.
Qed.

Lemma contains_char_app (sep : ascii) (a b : string) :
  contains_char sep (a ++ String sep b) = true.
Proof.
  induction a as [|c r IH]; simpl; [now rewrite Ascii.eqb_refl|].
  rewrite IH. apply orb_true_r.
Qed.

(** A name that ends in a dot and an accepted extension is accepted. *)
Lemma allowed_file_suffix (stem ext : string) :
  contains_char "." ext = false ->
  In (lower ext) ALLOWED_EXTENSIONS ->
  allowed_file (stem ++ "." ++ ext) = true.
Proof.
  intros Hext Hin. unfold allowed_file.
  change (stem ++ "." ++ ext) with (stem ++ String "." ext).
  rewrite contains_char_app, (rsplit1_app _ stem ext Hext). cbn [andb].
  apply existsb_exists. exists (lower ext). split; [exact Hin | apply String.eqb_eq; reflexivity].
Qed.

(** X12: a file name is accepted exactly when what follows its last dot is,
    in lower case, one of png, jpg, jpeg, gif: a name without a dot is
    refused, letter case does not matter, and earlier extensions are not
    looked at. *)
Theorem allowed_file_iff (filename : string) :
  allowed_file filename = true <->
  exists stem ext,
    filename = stem ++ "." ++ ext /\
    contains_char "." ext = false /\
    In (lower ext) ALLOWED_EXTENSIONS.
Proof.
  unfold allowed_file. split.
  - intros H. apply andb_prop in H. destruct H as [_ H].
    destruct (rsplit1 "." filename) as [[stem ext]|] eqn:E; [|discriminate].
    apply rsplit1_some in E. destruct E as [-> Hext].
    exists stem, ext. split; [reflexivity|]. split; [exact Hext|].
    apply existsb_exists in H. destruct H as (x & Hin & Hx).
    apply String.eqb_eq in Hx. now subst x.
  - intros (stem & ext & -> & Hext & Hin). fold (allowed_file (stem ++ "." ++ ext)).
    now apply allowed_file_suffix.
Qed.

Lemma next_id_above (ids : list Z) : Forall (fun x => x < next_id ids) ids.
Proof.
  unfold next_id. induction ids as [|x r IH]; constructor; cbn [fold_right].
  - lia.
  - eapply Forall_impl; [|exact IH]. cbv beta. intros a Ha. lia.
Qed.

Lemma Produto_by_id_in_range (db : Database) (n : Z) (p : Produto) :
  Produto_by_id db n = Some p -> in_int64 n = true.
Proof. unfold Produto_by_id. now destruct (in_int64 n). Qed.

Lemma Produto_by_id_find (db : Database) (n : Z) :
  in_int64 n = true ->
  Produto_by_id db n = find (fun p => Produto_id p =? n) (tb_produto db).
Proof. unfold Produto_by_id. now intros ->. Qed.

(** A row that is found is still found when a product is added. *)
Lemma Produto_by_id_insert (db : Database) nome imagem preco (n : Z) (p : Produto) :
  Produto_by_id db n = Some p ->
  Produto_by_id (insert_produto db nome imagem preco) n = Some p.
Proof.
  intros H. pose proof (Produto_by_id_in_range _ _ _ H) as Hr.
  rewrite Produto_by_id_find in * by assumption.
  unfold insert_produto. cbn [tb_produto]. now apply find_app_some.
Qed.

Lemma Produto_by_id_fresh (db : Database) :
  Produto_by_id db (next_id (map Produto_id (tb_produto db))) = None.
Proof.
  unfold Produto_by_id. destruct (in_int64 _); [|reflexivity].
  pose proof (next_id_above (map Produto_id (tb_produto db))) as H.
  set (n := next_id (map Produto_id (tb_produto db))) in *. clearbody n.
  induction (tb_produto db) as [|p r IH]; simpl; [reflexivity|].
  inversion H as [|x l Hx Hr]; subst.
  destruct (Produto_id p =? n) eqn:E; [apply Z.eqb_eq in E; lia | now apply IH].
Qed.

(** X13: an upload whose file name is not accepted creates no product: the
    store is as before and the client is sent back to the form. *)
Theorem adicionar_rejects_upload
  (float_of_str : string -> option float) (uuid_hex : string)
  (w : World) (req : Request) (files : list (string * string))
  (nome preco_str imagem : string) (preco : float) :
  s_usuario (w_session w) <> None ->
  req_method req = POST ->
  form_get (req_form req) "nome" = Some nome ->
  form_get (req_form req) "preco" = Some preco_str ->
  float_of_str preco_str = Some preco ->
  form_get files "imagem" = Some imagem ->
  allowed_file imagem = false ->
  let out := serve_reply (adicionar float_of_str uuid_hex req files) w in
  snd out = Replied (Plain (Redirect "adicionar")) /\
  w_db (fst out) = w_db w.
Proof.
  intros Hu Hm Hn Hp Hf Hi Ha.
  destruct w as [db tx [u c cep fr fl] so chs cs now]. destruct req as [m form].
  simpl in *. subst m. destruct u; [|now elim Hu].
  unfold serve_reply, adicionar, bind, form_item. cbn.
  rewrite Hn, Hp. cbn. rewrite Hf. cbn. rewrite Hi. cbn. rewrite Ha, andb_false_r.
  split; reflexivity.
Qed.

Lemma adicionar_rejects_upload_witness :
  let req := mkRequest POST [("nome", "Shaker"); ("preco", "19.9")] in
  let out := serve_reply (adicionar (fun _ => Some 19.9%float) "0f3a" req
                            [("imagem", "shaker.png.exe")]) mundo in
  allowed_file "shaker.png.exe" = false /\
  snd out = Replied (Plain (Redirect "adicionar")) /\
  w_db (fst out) = loja.
Proof.
  assert (Hu : s_usuario (w_session mundo) <> None) by discriminate.
  pose proof (adicionar_rejects_upload (fun _ => Some 19.9%float) "0f3a" mundo
                (mkRequest POST [("nome", "Shaker"); ("preco", "19.9")])
                [("imagem", "shaker.png.exe")] "Shaker" "19.9" "shaker.png.exe"
                19.9%float Hu eq_refl eq_refl eq_refl eq_refl eq_refl eq_refl) as H.
  cbv zeta in H. destruct H as (Hr & Hdb).
  split; [reflexivity|]. split; [exact Hr | exact Hdb].
Defined.

(** X14: an accepted upload with a price that is a number adds exactly one
    product, under a key no product had, with the submitted name and price;
    the image is filed under the drawn identifier and the lower-cased
    extension, so nothing of the client's file name but its extension
    reaches the store; the product is found under the key the cart will use
    for it, and no other product's lookup changes.  With a price that is
    not a number (NaN, which [float] returns for ["nan"]) the commit is
    refused, the request ends in HTTP 500 and no product is added. *)
Theorem adicionar_accepts_upload
  (float_of_str : string -> option float) (uuid_hex : string)
  (w : World) (req : Request) (files : list (string * string))
  (nome preco_str stem ext : string) (preco : float) :
  s_usuario (w_session w) <> None ->
  req_method req = POST ->
  form_get (req_form req) "nome" = Some nome ->
  form_get (req_form req) "preco" = Some preco_str ->
  float_of_str preco_str = Some preco ->
  form_get files "imagem" = Some (stem ++ "." ++ ext) ->
  contains_char "." ext = false ->
  In (lower ext) ALLOWED_EXTENSIONS ->
  let out := serve_reply (adicionar float_of_str uuid_hex req files) w in
  let db' := w_db (fst out) in
  let id := next_id (map Produto_id (tb_produto (w_db w))) in
  let novo := mkProduto id nome (uuid_hex ++ "." ++ lower ext) preco in
  (PrimFloat.is_nan preco = false ->
   snd out = Replied (Plain (Redirect "index")) /\
   db' = insert_produto (w_db w) nome (uuid_hex ++ "." ++ lower ext) preco /\
   tb_produto db' = (tb_produto (w_db w) ++ [novo])%list /\
   Produto_by_id (w_db w) id = None /\
   (in_int64 id = true -> Produto_row db' (KStr (str id)) = Some novo) /\
   (forall n p, Produto_by_id (w_db w) n = Some p -> Produto_by_id db' n = Some p)) /\
  (PrimFloat.is_nan preco = true ->
   exists e, exn_cls e = IntegrityError /\ out = (repouso w, Refused 500 e)).
Proof.
  intros Hu Hm Hn Hp Hf Hi Hext Hin.
  assert (Ha : allowed_file (stem ++ "." ++ ext) = true).
  { now apply allowed_file_suffix. }
  assert (Hne : String.eqb (stem ++ "." ++ ext) "" = false).
  { destruct stem; reflexivity. }
  assert (Hsplit : rsplit1 "." (stem ++ "." ++ ext) = Some (stem, ext))
    by (apply rsplit1_app; exact Hext).
  destruct w as [db tx [u c cep fr fl] so chs cs now]. destruct req as [m form].
  simpl in Hu, Hm, Hn, Hp. subst m. destruct u; [|now elim Hu].
  cbv zeta. cbn [w_db]. split.
  - intros Hnan.
    assert (Hserve :
      serve_reply (adicionar float_of_str uuid_hex (mkRequest POST form) files)
        (mkWorld db tx (mkSession (Some s) c cep fr fl) so chs cs now) =
      (mkWorld (insert_produto db nome (uuid_hex ++ "." ++ lower ext) preco)
         (insert_produto db nome (uuid_hex ++ "." ++ lower ext) preco)
         (mkSession (Some s) c cep fr
            (fl ++ [("message", "Produto adicionado com sucesso!")]))
         so chs cs now,
       Replied (Plain (Redirect "index")))).
    { unfold serve_reply, adicionar, bind, form_item. cbn [w_session s_usuario get_session
        req_method req_form].
      rewrite Hn, Hp. cbn [ret]. rewrite Hf. cbn [ret]. rewrite Hi. cbn [ret].
      rewrite Hne, Ha, Hsplit. cbn [negb andb get_tx put_tx w_tx set_tx].
      rewrite Hnan. reflexivity. }
    rewrite Hserve. cbn [fst snd w_db].
    split; [reflexivity|]. split; [reflexivity|]. split; [reflexivity|].
    split; [apply Produto_by_id_fresh|]. split.
    + intros Hr. rewrite Produto_row_str, (Produto_by_id_find _ _ Hr).
      unfold insert_produto. cbn [tb_produto].
      rewrite find_app_none.
      * simpl. now rewrite Z.eqb_refl.
      * rewrite <- (Produto_by_id_find db _ Hr). apply Produto_by_id_fresh.
    + intros n p H. now apply Produto_by_id_insert.
  - intros Hnan. eexists. split; [|].
    2:{ unfold serve_reply, adicionar, bind, form_item. cbn [w_session s_usuario get_session
          req_method req_form].
        rewrite Hn, Hp. cbn [ret]. rewrite Hf. cbn [ret]. rewrite Hi. cbn [ret].
        rewrite Hne, Ha, Hsplit. cbn [negb andb get_tx put_tx w_tx set_tx].
        rewrite Hnan. reflexivity. }
    reflexivity.
Qed.

Lemma adicionar_accepts_upload_witness :
  let req := mkRequest POST [("nome", "Shaker"); ("preco", "19.9")] in
  let out := serve_reply (adicionar (fun _ => Some 19.9%float) "0f3a" req
                            [("imagem", "Minha Foto.v2.PNG")]) mundo in
  PrimFloat.is_nan 19.9%float = false /\
  snd out = Replied (Plain (Redirect "index")) /\
  tb_produto (w_db (fst out)) =
    [whey; creatina; mkProduto 3 "Shaker" "0f3a.png" 19.9%float].
Proof.
  assert (Hu : s_usuario (w_session mundo) <> None) by discriminate.
  assert (Hin : In (lower "PNG") ALLOWED_EXTENSIONS) by (left; reflexivity).
  pose proof (adicionar_accepts_upload (fun _ => Some 19.9%float) "0f3a" mundo
                (mkRequest POST [("nome", "Shaker"); ("preco", "19.9")])
                [("imagem", "Minha Foto.v2.PNG")] "Shaker" "19.9" "Minha Foto.v2" "PNG"
                19.9%float Hu eq_refl eq_refl eq_refl eq_refl eq_refl eq_refl Hin) as H.
  cbv zeta in H. destruct H as [H _]. destruct (H eq_refl) as (Hr & _ & Ht & _).
  split; [reflexivity|]. split; [exact Hr | exact Ht].
Defined.

(** ** Deleting a product *)

Lemma Produto_by_id_delete_same (db : Database) (id : Z) :
  Produto_by_id (delete_produto db id) id = None.
Proof.
  unfold Produto_by_id, delete_produto. cbn [tb_produto].
  destruct (in_int64 id); [|reflexivity].
  induction (tb_produto db) as [|p r IH]; simpl; [reflexivity|].
  destruct (Produto_id p =? id) eqn:E; simpl; [exact IH | now rewrite E].
Qed.

Lemma Produto_by_id_delete_other (db : Database) (id n : Z) :
  n <> id -> Produto_by_id (delete_produto db id) n = Produto_by_id db n.
Proof.
  intros Hne. unfold Produto_by_id, delete_produto. cbn [tb_produto].
  destruct (in_int64 n); [|reflexivity].
  induction (tb_produto db) as [|p r IH]; simpl; [reflexivity|].
  destruct (Produto_id p =? id) eqn:E; simpl.
  - apply Z.eqb_eq in E. rewrite E.
    destruct (id =? n) eqn:E'; [apply Z.eqb_eq in E'; congruence | exact IH].
  - destruct (Produto_id p =? n); [reflexivity | exact IH].
Qed.

(** X15: deleting a product from a logged-in session whose cart has the keys
    the routes file takes the product out of the catalogue and nothing else:
    every other product is found as before, the orders and their lines
    stay, so the lines of the deleted product now point at nothing, and the
    cart keeps its entry for it. *)
Theorem excluir_removes_only_the_product (w : World) (id : Z) (p : Produto) :
  s_usuario (w_session w) <> None ->
  Produto_by_id (w_db w) id = Some p ->
  keys_are_str (cart_of w) ->
  let out := serve (excluir id) w in
  let db' := w_db (fst out) in
  snd out = Served (Redirect "index") /\
  Produto_by_id db' id = None /\
  (forall n, n <> id -> Produto_by_id db' n = Produto_by_id (w_db w) n) /\
  tb_pedido db' = tb_pedido (w_db w) /\
  tb_item_pedido db' = tb_item_pedido (w_db w) /\
  (forall item, In item (tb_item_pedido db') -> ItemPedido_produto_id item = SqlInt id ->
                ItemPedido_produto db' item = None) /\
  cart_of (fst out) = cart_of w.
Proof.
  intros Hu Hp Hk.
  destruct w as [db tx [u c cep fr fl] so chs cs now]. simpl in Hu, Hp.
  destruct u; [|now elim Hu]. unfold cart_of in Hk. cbn [w_session] in Hk.
  assert (Hserve :
    serve (excluir id) (mkWorld db tx (mkSession (Some s) c cep fr fl) so chs cs now) =
    (mkWorld (delete_produto db id) (delete_produto db id)
       (mkSession (Some s) c cep fr (fl ++ [("message", "Produto excluído com sucesso!")]))
       so chs cs now, Served (Redirect "index"))).
  { unfold serve, excluir, bind, get_session, get_tx. cbn [w_session s_usuario w_tx w_db].
    unfold Produto_get, bind_int, bind. rewrite (Produto_by_id_in_range _ _ _ Hp).
    unfold ret at 1 2. cbv beta iota.
    unfold Produto_row. cbn [integer_affinity]. rewrite Hp.
    unfold put_tx, set_tx, db_session_commit. cbn [w_session w_tx w_db].
    rewrite (dict_contains_int _ id Hk). reflexivity. }
  cbv zeta. rewrite Hserve. cbn [fst snd w_db].
  split; [reflexivity|]. split; [apply Produto_by_id_delete_same|].
  split; [intros n Hn; now apply Produto_by_id_delete_other|].
  split; [reflexivity|]. split; [reflexivity|]. split; [|reflexivity].
  intros item _ Hid. unfold ItemPedido_produto. rewrite Hid.
  apply Produto_by_id_delete_same.
Qed.

Lemma excluir_removes_only_the_product_witness :
  let w := fst (serve (finalizar_compra entrega false (mkRequest POST formulario_completo))
                  mundo_com_carrinho) in
  let out := serve (excluir 1) w in
  snd out = Served (Redirect "index") /\
  Produto_by_id (w_db (fst out)) 1 = None /\
  Produto_by_id (w_db (fst out)) 2 = Some creatina /\
  map ItemPedido_produto_id (tb_item_pedido (w_db (fst out))) =
    [SqlInt 1; SqlInt 1; SqlInt 2].
Proof.
  set (w := fst (serve (finalizar_compra entrega false (mkRequest POST formulario_completo))
                   mundo_com_carrinho)).
  assert (Hu : s_usuario (w_session w) <> None) by discriminate.
  assert (Hk : keys_are_str (cart_of w)) by constructor.
  pose proof (excluir_removes_only_the_product w 1 whey Hu eq_refl Hk) as H.
  cbv zeta in H. destruct H as (Hr & Hgone & Hother & _ & Hitens & _).
  split; [exact Hr|]. split; [exact Hgone|].
  split; [rewrite (Hother 2) by discriminate; reflexivity|].
  rewrite Hitens. reflexivity.
Defined.

(** X16: deleting, from a logged-in session, a product that does not exist
    answers 404 when the identifier fits 64 bits and 500, with the
    [OverflowError] of the driver, when it does not; either way nothing
    changes. *)
Theorem excluir_missing_product (w : World) (id : Z) :
  s_usuario (w_session w) <> None ->
  Produto_by_id (w_db w) id = None ->
  let out := serve (excluir id) w in
  (in_int64 id = true -> snd out = Failed 404 (mkExn NotFound "404 Not Found")) /\
  (in_int64 id = false ->
   exists e, exn_cls e = OverflowError /\ snd out = Failed 500 e) /\
  w_db (fst out) = w_db w /\
  w_session (fst out) = w_session w.
Proof.
  intros Hu Hp. destruct w as [db tx [u c cep fr fl] so chs cs now]. simpl in Hu, Hp.
  destruct u; [|now elim Hu].
  cbv zeta. unfold serve, excluir, bind, get_session, get_tx.
  cbn [w_session s_usuario w_tx w_db].
  unfold Produto_get, bind_int, bind.
  destruct (in_int64 id) eqn:Hr.
  - unfold ret at 1 2. cbv beta iota. unfold Produto_row. cbn [integer_affinity].
    rewrite Hp. split; [reflexivity|]. split; [discriminate|]. split; reflexivity.
  - split; [discriminate|]. split; [|split; reflexivity].
    intros _. eexists. split; [|reflexivity]. reflexivity.
Qed.

Lemma excluir_missing_product_witness :
  Produto_by_id (w_db mundo) 9 = None /\
  snd (serve (excluir 9) mundo) = Failed 404 (mkExn NotFound "404 Not Found") /\
  (exists e, exn_cls e = OverflowError /\
             snd (serve (excluir 9223372036854775808) mundo) = Failed 500 e) /\
  w_db (fst (serve (excluir 9) mundo)) = loja.
Proof.
  assert (Hu : s_usuario (w_session mundo) <> None) by discriminate.
  pose proof (excluir_missing_product mundo 9 Hu eq_refl) as H.
  pose proof (excluir_missing_product mundo 9223372036854775808 Hu eq_refl) as H'.
  cbv zeta in H, H'. destruct H as (Hr & _ & Hdb & _). destruct H' as (_ & Hbig & _).
  split; [reflexivity|]. split; [exact (Hr eq_refl)|].
  split; [exact (Hbig eq_refl) | exact Hdb].
Defined.

(** ** Order lines *)

Lemma referencias_length (tx : Database) (c : dict Z) :
  List.length (referencias tx c) = unidades tx c.
Proof.
  unfold referencias. induction c as [|[k q] r IH]; simpl; [reflexivity|].
  rewrite length_app, IH.
  destruct (Produto_row tx k); [now rewrite repeat_length | reflexivity].
Qed.

Lemma referencias_found (tx : Database) (c : dict Z) :
  Forall (fun v => exists n, v = SqlInt n /\ Produto_by_id tx n <> None)
    (referencias tx c).
Proof.
  unfold referencias. induction c as [|[k q] r IH]; simpl; [constructor|].
  apply Forall_app. split; [|exact IH].
  unfold Produto_row. destruct (integer_affinity k) as [|n|s] eqn:E; try constructor.
  destruct (Produto_by_id tx n) eqn:Hn; [|constructor].
  apply Forall_forall. intros v Hv. apply repeat_spec in Hv. subst v.
  exists n. split; [reflexivity | congruence].
Qed.

Lemma ItemPedido_produto_same (db db' : Database) (item : ItemPedido) :
  tb_produto db' = tb_produto db -> ItemPedido_produto db' item = ItemPedido_produto db item.
Proof.
  intros H. unfold ItemPedido_produto, Produto_by_id. now rewrite H.
Qed.

(** X17: a checkout of a cart with the keys the routes file writes one
    order line per unit of every cart entry whose product is in the store,
    and none for the entries whose product is gone; every line it writes
    refers to a product that exists, so a store without orphaned lines stays
    without. *)
Theorem finalizar_compra_one_line_per_unit
  (mail_send : Message -> option exn) (script_mode : bool)
  (w : World) (req : Request) (nome : string) (usuario : Usuario) :
  req_method req = POST ->
  formulario_valido (req_form req) = true ->
  s_usuario (w_session w) = Some nome ->
  Usuario_by_nome (w_db w) nome = Some usuario ->
  keys_are_str (cart_of w) ->
  quantidades_convertiveis (cart_of w) ->
  let db' := w_db (fst (serve (finalizar_compra mail_send script_mode req) w)) in
  tb_produto db' = tb_produto (w_db w) /\
  (exists extra,
      tb_item_pedido db' = (tb_item_pedido (w_db w) ++ extra)%list /\
      List.length extra = unidades (w_db w) (cart_of w) /\
      Forall (fun item => ItemPedido_produto db' item <> None) extra) /\
  (sem_orfaos (w_db w) -> sem_orfaos db').
Proof.
  intros Hpost Hform Hnome Huser Hstr Hconv db'.
  destruct (finalizar_compra_commits mail_send script_mode w req nome usuario
              Hpost Hform Hnome Huser (keys_are_str_aceitas _ Hstr) Hconv)
    as (total & itens & tx' & lines & _ & Hext & Hserve & _).
  subst db'. rewrite Hserve. cbn [fst w_db].
  destruct (pedido_aberto_tables w req usuario) as (Hp & _ & Hi & _).
  destruct Hext as (P & _ & _ & _ & _ & extra & I & _ & R).
  assert (Hprod : tb_produto tx' = tb_produto (w_db w)) by now rewrite P.
  rewrite (referencias_same _ _ _ Hp) in R.
  assert (Hnew : Forall (fun item => ItemPedido_produto tx' item <> None) extra).
  { pose proof (referencias_found (w_db w) (cart_of w)) as Hf. rewrite <- R in Hf.
    clear - Hf Hprod. induction extra as [|i r IH]; [constructor|].
    inversion Hf as [|x l (n & Hn & Hfound) Hr]; subst.
    constructor; [|now apply IH].
    rewrite (ItemPedido_produto_same _ _ i Hprod). unfold ItemPedido_produto.
    now rewrite Hn. }
  split; [exact Hprod|]. split.
  - exists extra. split; [now rewrite I, Hi|]. split; [|exact Hnew].
    now rewrite <- (referencias_length (w_db w)), <- R, length_map.
  - intros Hold. unfold sem_orfaos. rewrite I, Hi. apply Forall_app. split; [|exact Hnew].
    eapply Forall_impl; [|exact Hold]. cbv beta. intros i Hi'.
    now rewrite (ItemPedido_produto_same _ _ i Hprod).
Qed.

Lemma finalizar_compra_one_line_per_unit_witness :
  let w := fst (serve (excluir 2) mundo_com_carrinho) in
  let db' := w_db (fst (serve (finalizar_compra entrega false
                                 (mkRequest POST formulario_completo)) w)) in
  cart_of w = [(KStr "1", 2); (KStr "2", 1)] /\
  Produto_by_id (w_db w) 2 = None /\
  unidades (w_db w) (cart_of w) = 2%nat /\
  exists extra, tb_item_pedido db' = (tb_item_pedido (w_db w) ++ extra)%list /\
                List.length extra = 2%nat.
Proof.
  set (w := fst (serve (excluir 2) mundo_com_carrinho)).
  assert (Hq : quantidades_convertiveis (cart_of w)).
  { repeat constructor; vm_compute; discriminate. }
  assert (Hk : keys_are_str (cart_of w)).
  { repeat constructor; [now exists 1 | now exists 2]. }
  pose proof (finalizar_compra_one_line_per_unit entrega false w
                (mkRequest POST formulario_completo) "ana" ana
                eq_refl eq_refl eq_refl eq_refl Hk Hq) as H.
  cbv zeta in H. destruct H as (_ & (extra & Hi & Hl & _) & _).
  split; [reflexivity|]. split; [reflexivity|]. split; [reflexivity|].
  exists extra. split; [exact Hi | exact Hl].
Defined.

(** ** Loops that only compute *)

Lemma puro_carrinho_itens tx c : puro (carrinho_itens tx c).
Proof.
  apply puro_for_each. intros [itens total] [k q]. unfold carrinho_item.
  apply puro_bind; [apply puro_int_of_key|]. intros n.
  apply puro_bind; [apply puro_Produto_get|]. intros [p|]; [|apply puro_ret].
  apply puro_bind; [apply puro_float_mul_int | intros; apply puro_ret].
Qed.

Lemma puro_calcular_frete_total tx c : puro (calcular_frete_total tx c).
Proof.
  apply puro_for_each. intros total [k q]. unfold calcular_frete_item.
  apply puro_bind; [apply puro_int_of_key|]. intros n.
  apply puro_bind; [apply puro_Produto_get|]. intros [p|]; [|apply puro_ret].
  apply puro_bind; [apply puro_float_mul_int | intros; apply puro_ret].
Qed.

Lemma puro_total_vendas tx : puro (total_vendas tx).
Proof.
  apply puro_for_each. intros total pedido. apply puro_for_each.
  intros t item. unfold total_vendas_item.
  destruct (ItemPedido_produto tx item); [apply puro_ret | apply puro_raise].
Qed.

Lemma for_each_app {A S} (l l' : list A) (body : S -> A -> M S) (acc : S) (w : World) :
  for_each (l ++ l') body acc w = bind (for_each l body acc) (for_each l' body) w.
Proof.
  revert acc w. induction l as [|x r IH]; intros acc w; simpl; [reflexivity|].
  unfold bind. destruct (body acc x w) as [acc' w'|e w']; [|reflexivity].
  rewrite IH. reflexivity.
Qed.

(** ** The cart page *)

Opaque carrinho_itens.

(** The cart page of a logged-in session, from what its loop yields. *)
Lemma carrinho_outcome (w : World) (nome : string) :
  s_usuario (w_session w) = Some nome ->
  (exists itens total,
      (forall w0, carrinho_itens (w_db w) (cart_of w) w0 = Val (itens, total) w0) /\
      let gratis := PrimFloat.leb 250 total in
      let frete := if gratis then Some 0%float else s_frete (w_session w) in
      snd (serve carrinho w) =
      Served (RenderCarrinho
                (mkCarrinhoView itens total gratis
                   (if PrimFloat.ltb 0 (PrimFloat.sub 250 total)
                    then PrimFloat.sub 250 total else 0%float)
                   frete (s_cep_usuario (w_session w))
                   (PrimFloat.add total
                      match frete with
                      | Some f => if PrimFloat.eqb f 0 then 0%float else f
                      | None => 0%float
                      end)))) \/
  (exists e,
      (forall w0, carrinho_itens (w_db w) (cart_of w) w0 = Exc e w0) /\
      snd (serve carrinho w) = Failed (status_of e) e).
Proof.
  intros Hnome.
  destruct (puro_carrinho_itens (w_db w) (cart_of w)) as [[[itens total]|e] Hr];
    [left; exists itens, total | right; exists e]; (split; [exact Hr|]);
    destruct w as [db tx [u c cp fr fl] so chs cs now]; simpl in Hnome; subst u;
    unfold cart_of in Hr; cbn [w_session w_db] in Hr;
    unfold serve, carrinho; unfold bind at 1; unfold get_session at 1;
    cbn [w_session s_usuario]; unfold bind at 1; unfold get_tx at 1; cbn [w_tx];
    unfold bind at 1; cbn [w_db]; rewrite Hr; reflexivity.
Qed.

Transparent carrinho_itens.

(** X18: the cart page never recomputes the shipping fee.  When the page of a
    logged-in session is served, it shows fee 0 if the subtotal reaches 250
    and otherwise the fee the session holds from the last quote, whatever
    cart that quote was made for, together with the postal code of that
    quote; the grand total is the subtotal plus the fee shown. *)
Theorem carrinho_shows_cached_fee (w : World) (v : CarrinhoView) :
  s_usuario (w_session w) <> None ->
  snd (serve carrinho w) = Served (RenderCarrinho v) ->
  cv_tem_frete_gratis v = PrimFloat.leb 250 (cv_total v) /\
  (cv_tem_frete_gratis v = true -> cv_frete v = Some 0%float) /\
  (cv_tem_frete_gratis v = false -> cv_frete v = s_frete (w_session w)) /\
  cv_cep_usuario v = s_cep_usuario (w_session w) /\
  cv_total_geral v =
    PrimFloat.add (cv_total v)
      match cv_frete v with
      | Some f => if PrimFloat.eqb f 0 then 0%float else f
      | None => 0%float
      end.
Proof.
  intros Hu Hv.
  destruct (s_usuario (w_session w)) as [nome|] eqn:Hnome; [clear Hu | now elim Hu].
  destruct (carrinho_outcome w nome Hnome) as [(itens & total & _ & H)|(e & _ & H)];
    cbv zeta in H; rewrite H in Hv; [|discriminate Hv].
  injection Hv as <-.
  cbn [cv_tem_frete_gratis cv_total cv_frete cv_total_geral cv_cep_usuario].
  split; [reflexivity|]. split; [now intros ->|]. split; [now intros ->|].
  split; reflexivity.
Qed.

Lemma carrinho_shows_cached_fee_witness :
  let w := mkWorld loja loja
             (mkSession (Some "ana") (Some [(KStr "1", 2)]) (Some "01310-100")
                (Some 0%float) []) [] [] [] 0 in
  exists v,
    snd (serve carrinho w) = Served (RenderCarrinho v) /\
    cv_total v = 20%float /\
    cv_tem_frete_gratis v = false /\
    cv_frete v = Some 0%float /\
    cv_cep_usuario v = Some "01310-100" /\
    cv_total_geral v = 20%float.
Proof.
  set (w := mkWorld loja loja
              (mkSession (Some "ana") (Some [(KStr "1", 2)]) (Some "01310-100")
                 (Some 0%float) []) [] [] [] 0).
  assert (Hu : s_usuario (w_session w) <> None) by discriminate.
  eexists. split; [reflexivity|].
  match goal with |- cv_total ?v = _ /\ _ =>
    pose proof (carrinho_shows_cached_fee w v Hu eq_refl) as H end.
  destruct H as (Hflag & _ & Hfee & Hcep & Htot).
  split; [reflexivity|]. split; [reflexivity|].
  split; [exact (Hfee eq_refl)|]. split; [exact Hcep | reflexivity].
Defined.

(** One turn of the loop of the cart page. *)
Lemma carrinho_item_linha (tx : Database) itens total (entry : pykey * Z) (w : World) :
  carrinho_item tx (itens, total) entry w =
  match linha_carrinho tx entry with
  | inl (Some r) => Val ((itens ++ [r])%list, PrimFloat.add total (snd r)) w
  | inl None => Val (itens, total) w
  | inr e => Exc e w
  end.
Proof.
  destruct entry as [k q].
  unfold carrinho_item, linha_carrinho, int_of_key, Produto_get, bind_int, float_mul_int,
    bind, ret, raise.
  destruct k as [n|s]; [|destruct (int_of_str s) as [n|]; [|reflexivity]];
    (destruct (in_int64 n); [|reflexivity]);
    (destruct (Produto_row tx (KInt n)) as [p|]; [|reflexivity]);
    destruct (float_of_int q); reflexivity.
Qed.

(** A loop of the cart page that runs to its end met no entry that raises,
    and its rows are those of the entries, in their order. *)
Lemma carrinho_loop_rows (tx : Database) (c : dict Z) :
  forall itens total itens' total' w w',
    for_each c (carrinho_item tx) (itens, total) w = Val (itens', total') w' ->
    Forall (fun entry => exists o, linha_carrinho tx entry = inl o) c /\
    itens' = (itens ++ linhas_carrinho tx c)%list.
Proof.
  induction c as [|entry r IH]; intros itens total itens' total' w w' H.
  - injection H as <- _ _. split; [constructor | now rewrite app_nil_r].
  - cbn [for_each] in H. unfold bind in H. rewrite carrinho_item_linha in H.
    unfold linhas_carrinho. cbn [flat_map]. fold (linhas_carrinho tx r).
    destruct (linha_carrinho tx entry) as [[row|]|e] eqn:E; [| |discriminate H];
      apply IH in H; destruct H as [Hall ->];
      (split; [constructor; [eauto | exact Hall]|]).
    + now rewrite <- app_assoc.
    + reflexivity.
Qed.

(** A loop of the cart page over entries that do not raise runs to its end. *)
Lemma carrinho_loop_runs (tx : Database) (c : dict Z) :
  Forall (fun entry => exists o, linha_carrinho tx entry = inl o) c ->
  forall itens total w, exists total',
    for_each c (carrinho_item tx) (itens, total) w
    = Val ((itens ++ linhas_carrinho tx c)%list, total') w.
Proof.
  induction 1 as [|entry r [o Ho] Hr IH]; intros itens total w.
  - exists total. simpl. unfold ret. now rewrite app_nil_r.
  - cbn [for_each]. unfold bind. rewrite carrinho_item_linha.
    unfold linhas_carrinho. cbn [flat_map]. fold (linhas_carrinho tx r). rewrite Ho.
    destruct o as [row|].
    + destruct (IH (itens ++ [row])%list (PrimFloat.add total (snd row)) w) as [t Ht].
      exists t. now rewrite Ht, <- app_assoc.
    + apply IH.
Qed.

Lemma cart_of_next_request (w : World) : cart_of (next_request w) = sorted_items (cart_of w).
Proof.
  destruct w as [db tx [u [c|] cp fr fl] so chs cs now]; reflexivity.
Qed.

(** X19: what is added shows on the cart page.  When the page of a logged-in
    session, whose cart has the keys the routes file, is served and a
    product of the store that is not yet in the cart is added, the page
    served to the next request, which reads the cart back from the cookie
    in the order of its keys, lists the rows of the cart's entries in that
    order: the same rows as before and one more row for that product, with
    quantity 1 and its price as subtotal. *)
Theorem carrinho_lists_added_product (w : World) (id : Z) (p : Produto)
  (v : CarrinhoView) :
  s_usuario (w_session w) <> None ->
  keys_are_str (cart_of w) ->
  dict_get (cart_of w) (KStr (str id)) = None ->
  Produto_by_id (w_db w) id = Some p ->
  snd (serve carrinho w) = Served (RenderCarrinho v) ->
  exists v',
    snd (serve carrinho (next_request (fst (serve (adicionar_ao_carrinho id) w))))
    = Served (RenderCarrinho v') /\
    cv_itens v' =
      linhas_carrinho (w_db w) (sorted_items (cart_of w ++ [(KStr (str id), 1)])%list) /\
    Permutation (cv_itens v')
      (cv_itens v ++ [(p, 1, PrimFloat.mul (Produto_preco p) 1)])%list.
Proof.
  intros Hu _ Habs Hp Hv.
  destruct (s_usuario (w_session w)) as [nome|] eqn:Hnome; [clear Hu | now elim Hu].
  destruct (carrinho_outcome w nome Hnome) as [(itens & total & Hloop & H)|(e & _ & H)];
    cbv zeta in H; rewrite H in Hv; [|discriminate Hv].
  injection Hv as <-. cbn [cv_itens]. clear H.
  set (w1 := next_request (fst (serve (adicionar_ao_carrinho id) w))).
  assert (Hlogged : s_usuario (w_session w) <> None) by congruence.
  assert (Hcart : cart_of w1 = sorted_items (cart_of w ++ [(KStr (str id), 1)])%list).
  { unfold w1. rewrite cart_of_next_request, (adicionar_ao_carrinho_cart w id Hlogged).
    unfold quantidade_de, dict_get_default. rewrite Habs.
    now rewrite dict_set_absent. }
  assert (Hdb : w_db w1 = w_db w).
  { unfold w1. destruct w as [db tx [u c cp fr fl] so chs cs now].
    simpl in Hnome. subst u. reflexivity. }
  assert (Hn1 : s_usuario (w_session w1) = Some nome).
  { unfold w1. destruct w as [db tx [u c cp fr fl] so chs cs now].
    simpl in Hnome. subst u. reflexivity. }
  specialize (Hloop w). unfold carrinho_itens in Hloop.
  apply carrinho_loop_rows in Hloop. destruct Hloop as [Hok Hrows]. simpl in Hrows.
  assert (Hnew : linha_carrinho (w_db w) (KStr (str id), 1)
                 = inl (Some (p, 1, PrimFloat.mul (Produto_preco p) 1))).
  { unfold linha_carrinho. rewrite int_of_str_str, (Produto_by_id_in_range _ _ _ Hp).
    unfold Produto_row. cbn [integer_affinity]. now rewrite Hp, float_of_int_1. }
  assert (Hperm : Permutation (sorted_items (cart_of w ++ [(KStr (str id), 1)])%list)
                    (cart_of w ++ [(KStr (str id), 1)])%list)
    by apply sorted_items_perm.
  assert (Hok1 : Forall (fun entry => exists o, linha_carrinho (w_db w) entry = inl o)
                   (sorted_items (cart_of w ++ [(KStr (str id), 1)])%list)).
  { eapply Permutation_Forall; [symmetry; exact Hperm|].
    apply Forall_app. split; [exact Hok|]. constructor; [eauto | constructor]. }
  destruct (carrinho_outcome w1 nome Hn1) as [(itens1 & total1 & Hloop1 & H1)|(e & He & _)].
  - cbv zeta in H1. eexists. split; [exact H1|]. cbn [cv_itens].
    specialize (Hloop1 w). rewrite Hdb, Hcart in Hloop1. unfold carrinho_itens in Hloop1.
    apply carrinho_loop_rows in Hloop1. destruct Hloop1 as [_ ->]. simpl.
    split; [reflexivity|].
    subst itens. unfold linhas_carrinho.
    rewrite (Permutation_flat_map _ Hperm), flat_map_app. cbn [flat_map].
    now rewrite Hnew, app_nil_r.
  - exfalso. specialize (He w). rewrite Hdb, Hcart in He. unfold carrinho_itens in He.
    destruct (carrinho_loop_runs _ _ Hok1 [] 0%float w) as [t Ht].
    rewrite Ht in He. discriminate He.
Qed.

Lemma carrinho_lists_added_product_witness :
  let w := next_request (fst (serve (adicionar_ao_carrinho 2) mundo)) in
  exists v',
    snd (serve carrinho (next_request (fst (serve (adicionar_ao_carrinho 1) w))))
    = Served (RenderCarrinho v') /\
    cv_itens v' = [(whey, 1, 10%float); (creatina, 1, 5%float)].
Proof.
  set (w := next_request (fst (serve (adicionar_ao_carrinho 2) mundo))).
  assert (Hu : s_usuario (w_session w) <> None) by discriminate.
  assert (Hk : keys_are_str (cart_of w)).
  { repeat constructor. now exists 2. }
  destruct (carrinho_lists_added_product w 1 whey
              (mkCarrinhoView [(creatina, 1, 5%float)] 5%float false 245%float None None
                 5%float)
              Hu Hk eq_refl eq_refl eq_refl) as (v' & Hv & Hi & _).
  exists v'. split; [exact Hv|]. rewrite Hi. vm_compute. reflexivity.
Defined.

(** ** The order history *)

Lemma insert_desc_perm (p : Pedido) (l : list Pedido) :
  Permutation (insert_desc p l) (p :: l).
Proof.
  induction l as [|q r IH]; simpl; [reflexivity|].
  destruct (Pedido_data q <=? Pedido_data p); [reflexivity|].
  rewrite IH. apply perm_swap.
Qed.

Lemma order_by_data_desc_perm (l : list Pedido) : Permutation (order_by_data_desc l) l.
Proof.
  induction l as [|p r IH]; simpl; [reflexivity|].
  rewrite insert_desc_perm. now constructor.
Qed.

Lemma insert_desc_sorted (p : Pedido) (l : list Pedido) :
  StronglySorted mais_recente_primeiro l ->
  StronglySorted mais_recente_primeiro (insert_desc p l).
Proof.
  induction 1 as [|q r Hr IH Hq]; simpl.
  - constructor; constructor.
  - destruct (Pedido_data q <=? Pedido_data p) eqn:E.
    + apply Z.leb_le in E. constructor; [constructor; assumption|].
      constructor; [exact E|].
      eapply Forall_impl; [|exact Hq]. unfold mais_recente_primeiro. intros a Ha. lia.
    + apply Z.leb_gt in E. constructor; [exact IH|].
      eapply Permutation_Forall; [symmetry; apply insert_desc_perm|].
      constructor; [unfold mais_recente_primeiro; lia | exact Hq].
Qed.

Lemma order_by_data_desc_sorted (l : list Pedido) :
  StronglySorted mais_recente_primeiro (order_by_data_desc l).
Proof.
  induction l as [|p r IH]; simpl; [constructor | now apply insert_desc_sorted].
Qed.

(** X20: the order history of a logged-in user lists that user's orders, all
    of them and no one else's, newest first, and changes nothing. *)
Theorem meus_pedidos_lists_own_orders (w : World) (nome : string) (usuario : Usuario) :
  s_usuario (w_session w) = Some nome ->
  Usuario_by_nome (w_db w) nome = Some usuario ->
  let out := serve_reply meus_pedidos w in
  exists pedidos,
    snd out = Replied (RenderMeusPedidos pedidos) /\
    (forall p, In p pedidos <->
               In p (tb_pedido (w_db w)) /\ Pedido_usuario_id p = Usuario_id usuario) /\
    List.length pedidos =
      List.length (filter (fun p => Pedido_usuario_id p =? Usuario_id usuario)
                     (tb_pedido (w_db w))) /\
    StronglySorted mais_recente_primeiro pedidos /\
    w_db (fst out) = w_db w.
Proof.
  intros Hnome Huser.
  destruct w as [db tx [u c cep fr fl] so chs cs now]. simpl in Hnome, Huser. subst u.
  cbv zeta. unfold serve_reply, meus_pedidos, bind, get_session, get_tx.
  cbn [w_session s_usuario w_tx w_db]. rewrite Huser. cbn [ret fst snd w_db].
  eexists. split; [reflexivity|].
  pose proof (order_by_data_desc_perm
                (filter (fun p => Pedido_usuario_id p =? Usuario_id usuario) (tb_pedido db)))
    as Hperm.
  split; [|split; [|split]].
  - intros p. split.
    + intros Hin. apply (Permutation_in _ Hperm) in Hin. apply filter_In in Hin.
      destruct Hin as [Hin Hid]. apply Z.eqb_eq in Hid. now split.
    + intros [Hin Hid]. apply (Permutation_in _ (Permutation_sym Hperm)).
      apply filter_In. split; [exact Hin | now apply Z.eqb_eq].
  - now apply Permutation_length.
  - apply order_by_data_desc_sorted.
  - reflexivity.
Qed.

Lemma meus_pedidos_lists_own_orders_witness :
  let w := fst (serve (finalizar_compra entrega false (mkRequest POST formulario_completo))
                  mundo_com_carrinho) in
  exists pedidos,
    snd (serve_reply meus_pedidos w) = Replied (RenderMeusPedidos pedidos) /\
    List.length pedidos = 1%nat.
Proof.
  set (w := fst (serve (finalizar_compra entrega false (mkRequest POST formulario_completo))
                   mundo_com_carrinho)).
  destruct (meus_pedidos_lists_own_orders w "ana" ana eq_refl eq_refl)
    as (pedidos & Hr & _ & Hl & _).
  exists pedidos. split; [exact Hr | exact Hl].
Defined.

(** ** The sales report *)

Lemma total_vendas_itens (tx : Database) (itens : list ItemPedido) :
  forall total w,
    (Forall (fun item => ItemPedido_produto tx item <> None) itens /\
     exists t, for_each itens (total_vendas_item tx) total w = Val t w) \/
    (Exists (fun item => ItemPedido_produto tx item = None) itens /\
     for_each itens (total_vendas_item tx) total w =
     Exc (mkExn AttributeError "'NoneType' object has no attribute 'preco'") w).
Proof.
  induction itens as [|item r IH]; intros total w.
  - left. split; [constructor | now exists total].
  - cbn [for_each]. unfold bind.
    destruct (ItemPedido_produto tx item) as [p|] eqn:E.
    + assert (Hs : total_vendas_item tx total item w
                   = Val (PrimFloat.add total (Produto_preco p)) w)
        by (unfold total_vendas_item; now rewrite E).
      rewrite Hs.
      destruct (IH (PrimFloat.add total (Produto_preco p)) w) as [[Hall Ht]|[Hex He]].
      * left. split; [constructor; [congruence | exact Hall] | exact Ht].
      * right. split; [now apply Exists_cons_tl | exact He].
    + rewrite (total_vendas_item_dangling tx total item w E).
      right. split; [now apply Exists_cons_hd | reflexivity].
Qed.

Lemma total_vendas_outcome (tx : Database) (w : World) :
  (pedidos_integros tx /\ exists t, total_vendas tx w = Val t w) \/
  ((exists pedido item,
       In pedido (tb_pedido tx) /\ In item (Pedido_itens tx pedido) /\
       ItemPedido_produto tx item = None) /\
   total_vendas tx w =
   Exc (mkExn AttributeError "'NoneType' object has no attribute 'preco'") w).
Proof.
  unfold total_vendas, pedidos_integros.
  generalize 0%float as total. induction (tb_pedido tx) as [|pedido r IH]; intros total.
  - left. split; [intros p [] | now exists total].
  - cbn [for_each]. unfold bind.
    destruct (total_vendas_itens tx (Pedido_itens tx pedido) total w)
      as [[Hall [t Ht]]|[Hex He]].
    + rewrite Ht. destruct (IH t) as [[Hr Hv]|[(p & i & Hp & Hi & Hn) He]].
      * left. split; [|exact Hv]. intros p [<-|Hin]; [exact Hall | now apply Hr].
      * right. split; [|exact He]. exists p, i. split; [now right | now split].
    + rewrite He. right. split; [|reflexivity].
      apply Exists_exists in Hex. destruct Hex as (i & Hi & Hn).
      exists pedido, i. split; [now left | now split].
Qed.

Opaque total_vendas nomes_vendidos value_counts.

(** X21: the report request is served exactly when every line of every
    stored order still has its product: the revenue is then summed, the
    transport is handed one message with the counts, that revenue and, when
    something was sold, the chart, and the client gets the report page when
    the transport took that message and, when it raised on it, the text of
    the exception it raised.  When some line of a stored order has lost its
    product the request ends in an [AttributeError], HTTP 500, whatever the
    transport.  The store is never changed. *)
Theorem enviar_relatorio_needs_integrity
  (mail_send : Message -> option exn) (admin_email : option string) (w : World) :
  let out := serve (enviar_relatorio mail_send admin_email) w in
  w_db (fst out) = w_db w /\
  (pedidos_integros (w_db w) ->
   exists vendas,
     (forall w0, total_vendas (w_db w) w0 = Val vendas w0) /\
     let msg := mensagem_relatorio admin_email (w_db w) vendas in
     (mail_send msg = None -> snd out = Served RenderEnviarRelatorio) /\
     (forall e, mail_send msg = Some e ->
      snd out = Served (Text ("Erro ao enviar relatório: " ++ exn_msg e)))) /\
  ((exists pedido item,
       In pedido (tb_pedido (w_db w)) /\ In item (Pedido_itens (w_db w) pedido) /\
       ItemPedido_produto (w_db w) item = None) ->
   snd out =
   Failed 500 (mkExn AttributeError "'NoneType' object has no attribute 'preco'")).
Proof.
  destruct w as [db tx s so chs cs now]. cbv zeta. cbn [w_db].
  unfold serve, enviar_relatorio. cbn. unfold bind, try_except, mail_send_m.
  match goal with |- context [total_vendas ?t ?w1] =>
    destruct (total_vendas_outcome t w1) as [[Hok [t' Ht]]|[Hbad He]] end.
  - rewrite Ht.
    assert (Hall : forall w0, total_vendas db w0 = Val t' w0).
    { destruct (puro_total_vendas db) as [[a|e] Hr]; rewrite Hr in Ht.
      - injection Ht as ->. exact Hr.
      - discriminate Ht. }
    unfold mensagem_relatorio. cbn.
    destruct (nomes_vendidos db) as [|n r]; cbn;
      match goal with |- context [mail_send ?m] =>
        destruct (mail_send m) as [e|] eqn:E end;
      cbn;
      (split; [reflexivity|]);
      (split; [intros _; exists t'; split; [exact Hall|];
               split; [intros H | intros e' H]; congruence
              | intros (p & i & Hp & Hi & Hn); exfalso;
                specialize (Hok p Hp); rewrite Forall_forall in Hok;
                exact (Hok i Hi Hn)]).
  - rewrite He. cbn.
    split; [reflexivity|]. split; [|reflexivity].
    intros Hok. exfalso. destruct Hbad as (p & i & Hp & Hi & Hn).
    specialize (Hok p Hp). rewrite Forall_forall in Hok. exact (Hok i Hi Hn).
Qed.

Transparent total_vendas nomes_vendidos value_counts.

(* ================================================================== *)
(** * The application as a whole *)
(* ================================================================== *)

(** ** What each route leaves alone *)

Lemma index_inerte w : inerte w (fst (serve_reply index w)).
Proof. destruct w. split; reflexivity. Qed.

Lemma frete_gratis_inerte w : inerte w (fst (serve_reply frete_gratis w)).
Proof. destruct w. split; reflexivity. Qed.

Lemma faq_inerte w : inerte w (fst (serve_reply faq w)).
Proof. destruct w. split; reflexivity. Qed.

Lemma carrinho_inerte w : inerte w (fst (serve carrinho w)).
Proof.
  destruct w as [db tx [u c cep fr fl] so chs cs now].
  unfold serve, carrinho, bind, get_session, get_tx. cbn.
  destruct u as [nome|]; [|split; reflexivity].
  match goal with |- context [carrinho_itens ?t ?c0] =>
    destruct (puro_carrinho_itens t c0) as [[[itens total]|e] Hr] end;
    rewrite Hr; split; reflexivity.
Qed.

Lemma adicionar_ao_carrinho_inerte id w :
  inerte w (fst (serve (adicionar_ao_carrinho id) w)).
Proof.
  destruct w as [db tx [u c cep fr fl] so chs cs now].
  unfold serve. cbn. destruct u; split; reflexivity.
Qed.

Lemma alterar_quantidade_inerte id req w :
  inerte w (fst (serve (alterar_quantidade id req) w)).
Proof.
  destruct w as [db tx [u c cep fr fl] so chs cs now].
  unfold serve. cbn.
  repeat match goal with
         | |- context [match ?x with _ => _ end] => destruct x; cbn
         | |- context [if ?x then _ else _] => destruct x; cbn
         end; split; reflexivity.
Qed.

Lemma remover_do_carrinho_inerte id w :
  inerte w (fst (serve (remover_do_carrinho id) w)).
Proof.
  destruct w as [db tx [u c cep fr fl] so chs cs now].
  unfold serve. cbn.
  repeat match goal with
         | |- context [if ?x then _ else _] => destruct x; cbn
         end; split; reflexivity.
Qed.

Lemma limpar_carrinho_inerte w : inerte w (fst (serve limpar_carrinho w)).
Proof. destruct w as [db tx [u c cep fr fl] so chs cs now]. split; reflexivity. Qed.

Lemma calcular_frete_inerte req w : inerte w (fst (serve (calcular_frete req) w)).
Proof.
  destruct w as [db tx [u c cep fr fl] so chs cs now].
  unfold serve, calcular_frete.
  match goal with |- context [if ?x then _ else _] => destruct x end;
    [split; reflexivity|].
  unfold bind, get_session, get_tx. cbn.
  match goal with |- context [calcular_frete_total ?t ?c0] =>
    destruct (puro_calcular_frete_total t c0) as [[total|e] Hr] end;
    rewrite Hr; split; reflexivity.
Qed.

Lemma meus_pedidos_inerte w : inerte w (fst (serve_reply meus_pedidos w)).
Proof.
  destruct w as [db tx [u c cep fr fl] so chs cs now].
  unfold serve_reply. cbn. destruct u as [nome|]; [|split; reflexivity].
  cbn. destruct (Usuario_by_nome db nome); split; reflexivity.
Qed.

Lemma contato_inerte send_text admin_email req w :
  inerte w (fst (serve_reply (contato send_text admin_email req) w)).
Proof.
  destruct w as [db tx [u c cep fr fl] so chs cs now]. destruct req as [[|] form].
  - split; reflexivity.
  - unfold serve_reply, contato, try_except, bind, enviar_contato_para_admin, send_email.
    cbn [req_method req_form].
    match goal with |- context [send_text ?m] => destruct (send_text m) end;
      split; reflexivity.
Qed.

Lemma recover_inerte send_text login_url req w :
  inerte w (fst (serve_reply (recover send_text login_url req) w)).
Proof.
  destruct w as [db tx [u c cep fr fl] so chs cs now]. destruct req as [[|] form].
  - split; reflexivity.
  - unfold serve_reply, recover, try_except, bind, enviar_recuperacao, send_email.
    cbn [req_method req_form].
    match goal with |- context [send_text ?m] => destruct (send_text m) end;
      split; reflexivity.
Qed.

Lemma teste_email_inerte send_text admin_email w :
  inerte w (fst (serve_reply (teste_email send_text admin_email) w)).
Proof.
  destruct w as [db tx [u c cep fr fl] so chs cs now].
  unfold serve_reply, teste_email, try_except, bind, send_email.
  match goal with |- context [send_text ?m] => destruct (send_text m) end;
    split; reflexivity.
Qed.

Lemma relatorios_admin_inerte w : inerte w (fst (serve relatorios_admin w)).
Proof.
  destruct w as [db tx [u c cep fr fl] so chs cs now].
  unfold serve, relatorios_admin, bind, get_tx. cbn [w_tx w_db].
  destruct (nomes_vendidos db); split; reflexivity.
Qed.

Lemma enviar_relatorio_inerte mail_send admin_email w :
  inerte w (fst (serve (enviar_relatorio mail_send admin_email) w)).
Proof.
  destruct w as [db tx [u c cep fr fl] so chs cs now].
  unfold serve, enviar_relatorio, bind, get_tx, try_except, mail_send_m. cbn [w_tx w_db].
  match goal with |- context [total_vendas ?t] =>
    destruct (puro_total_vendas t) as [[total|e] Hr] end;
    rewrite Hr; [|split; reflexivity].
  destruct (nomes_vendidos db); cbn;
    match goal with |- context [mail_send ?m] => destruct (mail_send m) end;
    split; reflexivity.
Qed.

(** ** The routes that write *)

Lemma Produto_by_id_same tx tx' n :
  tb_produto tx' = tb_produto tx -> Produto_by_id tx' n = Produto_by_id tx n.
Proof. unfold Produto_by_id. now intros ->. Qed.

Lemma chave_aceita_ou_nao (k : pykey) :
  chave_aceita k \/ exists n, k = KInt n /\ in_int64 n = false.
Proof.
  destruct k as [n|s]; [|now left]. unfold chave_aceita.
  destruct (in_int64 n) eqn:E; [now left | right; now exists n].
Qed.

(** One turn of the checkout loop on a key the driver refuses. *)
Lemma finalizar_compra_item_recusada pedido_id acc n quantidade w :
  in_int64 n = false ->
  finalizar_compra_item pedido_id acc (KInt n, quantidade) w =
  Exc (mkExn OverflowError "Python int too large to convert to SQLite INTEGER") w.
Proof.
  intros Hn. destruct acc as [total itens].
  unfold finalizar_compra_item, Produto_get, bind_int, bind, get_tx. now rewrite Hn.
Qed.

(** The loop of the checkout on any cart: it adds lines of products it
    found, and whatever it has added when a key is refused or a quantity
    has no [float] stays in the unit of work. *)
Lemma finalizar_compra_loop_qualquer pedido_id (c : dict Z) :
  forall acc w, exists tx' refs,
    itens_acrescidos pedido_id (w_tx w) tx' refs /\
    Forall (fun v => exists n, v = SqlInt n /\ Produto_by_id (w_tx w) n <> None) refs /\
    ((exists r, for_each c (finalizar_compra_item pedido_id) acc w = Val r (set_tx w tx')) \/
     (exists e, for_each c (finalizar_compra_item pedido_id) acc w = Exc e (set_tx w tx'))).
Proof.
  induction c as [|[pid q] r IH]; intros [total itens] w.
  - exists (w_tx w), []. split; [apply itens_acrescidos_refl|]. split; [constructor|].
    left. exists (total, itens). simpl. unfold ret. now rewrite set_tx_same.
  - set (run := for_each ((pid, q) :: r) (finalizar_compra_item pedido_id) (total, itens) w).
    assert (Hs : run =
                 match finalizar_compra_item pedido_id (total, itens) (pid, q) w with
                 | Val a w' => for_each r (finalizar_compra_item pedido_id) a w'
                 | Exc e w' => Exc e w'
                 end) by reflexivity.
    clearbody run.
    destruct (chave_aceita_ou_nao pid) as [Hk|(n & -> & Hn)];
      [|exists (w_tx w), []; split; [apply itens_acrescidos_refl|]; split; [constructor|];
        right; rewrite Hs, (finalizar_compra_item_recusada _ _ _ _ _ Hn), set_tx_same;
        eauto].
    destruct (Produto_row (w_tx w) pid) as [prod|] eqn:Hp.
    + destruct (float_of_int q) as [f|] eqn:Hf.
      * rewrite (finalizar_compra_item_found pedido_id total itens pid q w prod f Hk Hp Hf)
          in Hs.
        pose proof (itens_acrescidos_iter pedido_id (integer_affinity pid)
                      (Z.to_nat q) (w_tx w)) as Hit.
        match type of Hs with context [for_each r _ ?a ?w1] =>
          destruct (IH a w1) as (tx' & refs & Hext & Hall & Hrun) end.
        simpl w_tx in Hext, Hall.
        exists tx', (repeat (integer_affinity pid) (Z.to_nat q) ++ refs)%list.
        split; [eapply itens_acrescidos_trans; eassumption|].
        split;
          [|destruct Hrun as [[x Hx]|[e He]]; [left; exists x | right; exists e];
            rewrite Hs; rewrite set_tx_set_tx in *; assumption].
        apply Forall_app. split.
        -- apply Forall_forall. intros v Hv. apply repeat_spec in Hv. subst v.
           unfold Produto_row in Hp. destruct (integer_affinity pid) as [|n|s];
             try discriminate.
           exists n. split; [reflexivity | congruence].
        -- eapply Forall_impl; [|exact Hall]. cbv beta. intros v (n & -> & Hn).
           exists n. split; [reflexivity|].
           rewrite <- (Produto_by_id_same (w_tx w) _ n (proj1 Hit)). exact Hn.
      * exists (w_tx w), []. split; [apply itens_acrescidos_refl|]. split; [constructor|].
        right. rewrite Hs. unfold finalizar_compra_item, bind, get_tx.
        rewrite (Produto_get_aceita _ _ _ Hk), Hp.
        unfold float_mul_int. rewrite Hf. unfold raise. rewrite set_tx_same. eauto.
    + rewrite (finalizar_compra_item_missing pedido_id (total, itens) pid q w Hk Hp) in Hs.
      rewrite Hs. apply IH.
Qed.

Opaque finalizar_compra_itens try_except next_id insert_endereco.

Lemma so_acrescenta_nada db tx s s' so so' chs chs' cs cs' now now' :
  s_usuario s' = s_usuario s ->
  so_acrescenta (mkWorld db tx s so chs cs now) (mkWorld db db s' so' chs' cs' now').
Proof. intros H. split; [apply acrescenta_nada | exact H]. Qed.

Lemma finalizar_compra_quadro mail_send script_mode req w :
  so_acrescenta w (fst (serve (finalizar_compra mail_send script_mode req) w)).
Proof.
  destruct w as [db tx [u c cep fr fl] so chs cs now]. destruct req as [m form].
  unfold serve. cbn.
  destruct u as [nome|]; [|now apply so_acrescenta_nada].
  destruct m; cbn; [now apply so_acrescenta_nada|].
  match goal with |- context [if ?b then _ else _] => destruct b end; cbn;
    [now apply so_acrescenta_nada|].
  destruct (Usuario_by_nome db nome) as [usuario|]; cbn;
    [|now apply so_acrescenta_nada].
  unfold bind at 1.
  match goal with |- context [finalizar_compra_itens ?p ?c0 ?w0] =>
    destruct (finalizar_compra_loop_qualquer p c0 (0%float, []) w0)
      as (tx' & refs & Hext & Hall & [[[total itens] Hrun]|[e Hrun]]);
    change (finalizar_compra_itens p c0 w0)
      with (for_each c0 (finalizar_compra_item p) (0%float, []) w0)
  end; rewrite Hrun; cbn; [|now apply so_acrescenta_nada].
  unfold bind at 1.
  destruct (notificacao_engolida mail_send script_mode nome (form_get form "email")
              itens total) as (out & Hmail & _).
  match goal with |- context [try_except ?a ?h ?w0] =>
    pose proof (Hmail w0) as Hm;
    match type of Hm with ?lhs = _ => change (try_except a h w0) with lhs end
  end.
  rewrite Hm. cbn. split; [|reflexivity].
  cbn [w_tx w_db] in *.
  eapply acrescenta_compra; [exact Hext|].
  eapply Forall_impl; [|exact Hall]. cbv beta. intros v (n & -> & Hn).
  exists n. split; [reflexivity|]. exact Hn.
Qed.

Transparent finalizar_compra_itens try_except next_id insert_endereco.

Lemma avaliar_quadro id req w : so_acrescenta w (fst (serve (avaliar id req) w)).
Proof.
  destruct w as [db tx [u c cep fr fl] so chs cs now]. destruct req as [m form].
  unfold serve, avaliar, bind, get_session, form_item, get_tx. cbn.
  destruct u as [nome|]; cbn; [|now apply so_acrescenta_nada].
  destruct (form_get form "nota") as [nota|]; cbn; [|now apply so_acrescenta_nada].
  destruct (int_of_str nota) as [n|]; cbn; [|now apply so_acrescenta_nada].
  destruct (form_get form "comentario") as [comentario|]; cbn; [|now apply so_acrescenta_nada].
  cbn. destruct (Usuario_by_nome db nome) as [usuario|]; cbn; [|now apply so_acrescenta_nada].
  unfold bind_int.
  destruct (in_int64 id); cbn; [|now apply so_acrescenta_nada].
  destruct (in_int64 n); cbn; [|now apply so_acrescenta_nada].
  split; [apply acrescenta_avaliacao | reflexivity].
Qed.

Lemma adicionar_quadro float_of_str uuid_hex req files w :
  so_acrescenta w (fst (serve_reply (adicionar float_of_str uuid_hex req files) w)).
Proof.
  destruct w as [db tx [u c cep fr fl] so chs cs now]. destruct req as [m form].
  unfold serve_reply, adicionar, bind, get_session, form_item, get_tx. cbn.
  destruct u as [nome|]; cbn; [|now apply so_acrescenta_nada].
  destruct m; cbn; [now apply so_acrescenta_nada|].
  destruct (form_get form "nome") as [n|]; cbn; [|now apply so_acrescenta_nada].
  destruct (form_get form "preco") as [p|]; cbn; [|now apply so_acrescenta_nada].
  destruct (float_of_str p) as [x|]; cbn; [|now apply so_acrescenta_nada].
  cbn. destruct (form_get files "imagem") as [imagem|]; cbn; [|now apply so_acrescenta_nada].
  destruct (negb (String.eqb imagem "") && allowed_file imagem); cbn;
    [|now apply so_acrescenta_nada].
  destruct (PrimFloat.is_nan x); cbn; [now apply so_acrescenta_nada|].
  split; [apply acrescenta_produto | reflexivity].
Qed.

Lemma cadastro_quadro send_text admin_email req w :
  so_acrescenta w (fst (serve_reply (cadastro send_text admin_email req) w)).
Proof.
  destruct w as [db tx [u c cep fr fl] so chs cs now]. destruct req as [m form].
  unfold serve_reply, cadastro, bind, form_item, get_tx. cbn.
  destruct m; cbn; [now apply so_acrescenta_nada|].
  destruct (form_get form "usuario") as [nome|]; cbn; [|now apply so_acrescenta_nada].
  destruct (form_get form "senha") as [senha|]; cbn; [|now apply so_acrescenta_nada].
  cbn. destruct (Usuario_by_nome db nome) as [usuario|] eqn:Hu; cbn;
    [now apply so_acrescenta_nada|].
  cbn. unfold try_except, enviar_confirmacao_cadastro, enviar_contato_para_admin,
    send_email.
  destruct (truthy (form_get form "email"));
    match goal with |- context [send_text ?m] => destruct (send_text m) end;
    (split; [now apply acrescenta_usuario | reflexivity]).
Qed.

Lemma login_quadro req w :
  let w' := fst (serve_reply (login req) w) in
  w_db w' = w_db w /\
  (s_usuario (w_session w') = s_usuario (w_session w) \/
   exists nome, s_usuario (w_session w') = Some nome /\
                Usuario_by_nome (w_db w) nome <> None).
Proof.
  destruct w as [db tx [u c cep fr fl] so chs cs now]. destruct req as [m form].
  cbv zeta. unfold serve_reply, login, bind, form_item, get_tx. cbn.
  destruct m; cbn; [now split; [|left]|].
  destruct (form_get form "usuario") as [nome|]; cbn; [|now split; [|left]].
  destruct (form_get form "senha") as [senha|]; cbn; [|now split; [|left]].
  cbn. destruct (Usuario_by_credentials db nome senha) as [usuario|] eqn:Hu; cbn;
    [|now split; [|left]].
  split; [reflexivity|]. right. exists nome. split; [reflexivity|].
  intros Hn. unfold Usuario_by_credentials in Hu. unfold Usuario_by_nome in Hn.
  rewrite (find_weaker_none _ _ _ (fun x H => proj1 (andb_prop _ _ H)) Hn) in Hu.
  discriminate.
Qed.

Lemma logout_quadro w :
  let w' := fst (serve_reply logout w) in
  w_db w' = w_db w /\ s_usuario (w_session w') = None.
Proof. destruct w. split; reflexivity. Qed.

Lemma excluir_quadro id w :
  let w' := fst (serve (excluir id) w) in
  (w_db w' = w_db w \/
   exists p, Produto_by_id (w_db w) id = Some p /\ w_db w' = delete_produto (w_db w) id) /\
  s_usuario (w_session w') = s_usuario (w_session w).
Proof.
  destruct w as [db tx [u c cep fr fl] so chs cs now].
  cbv zeta. unfold serve, excluir, bind, get_session, get_tx. cbn.
  destruct u as [nome|]; cbn; [|now split; [left|]].
  unfold bind_int. destruct (in_int64 id) eqn:Hid; cbn; [|now split; [left|]].
  unfold Produto_row. cbn [integer_affinity].
  destruct (Produto_by_id db id) as [p|] eqn:Hp; cbn; [|now split; [left|]].
  cbn. destruct (dict_contains _ _); (split; [right; now exists p | reflexivity]).
Qed.

(** ** Every route at once *)

(** What a request makes of the store: it adds to it, or it is the
    deletion of a product that was there. *)
Lemma atender_db amb r w :
  acrescenta (w_db w) (w_db (atender amb r w)) \/
  exists id p, r = RotaExcluir id /\ Produto_by_id (w_db w) id = Some p /\
               w_db (atender amb r w) = delete_produto (w_db w) id.
Proof.
  assert (Hi : forall w', inerte w w' -> acrescenta (w_db w) (w_db w')).
  { intros w' [-> _]. constructor. }
  destruct r; cbn [atender];
    try (left; apply Hi;
         first [ apply index_inerte | apply carrinho_inerte
               | apply adicionar_ao_carrinho_inerte | apply alterar_quantidade_inerte
               | apply remover_do_carrinho_inerte | apply limpar_carrinho_inerte
               | apply calcular_frete_inerte | apply frete_gratis_inerte
               | apply meus_pedidos_inerte | apply contato_inerte | apply recover_inerte
               | apply faq_inerte | apply teste_email_inerte
               | apply relatorios_admin_inerte | apply enviar_relatorio_inerte ]).
  - left. rewrite (proj1 (login_quadro req w)). constructor.
  - left. rewrite (proj1 (logout_quadro w)). constructor.
  - left. apply cadastro_quadro.
  - left. apply finalizar_compra_quadro.
  - left. apply avaliar_quadro.
  - left. apply adicionar_quadro.
  - destruct (excluir_quadro id w) as [[->|(p & Hp & ->)] _].
    + left. constructor.
    + right. now exists id, p.
Qed.

(** What a request makes of who is logged in: nothing, nobody, or somebody
    with a row in the store, which the request then leaves as it is. *)
Lemma atender_usuario amb r w :
  let w' := atender amb r w in
  s_usuario (w_session w') = s_usuario (w_session w) \/
  s_usuario (w_session w') = None \/
  exists nome, s_usuario (w_session w') = Some nome /\
               Usuario_by_nome (w_db w) nome <> None.
Proof.
  assert (Hi : forall w', inerte w w' ->
                          s_usuario (w_session w') = s_usuario (w_session w)).
  { now intros w' [_ H]. }
  cbv zeta. destruct r; cbn [atender];
    try (left; apply Hi;
         first [ apply index_inerte | apply carrinho_inerte
               | apply adicionar_ao_carrinho_inerte | apply alterar_quantidade_inerte
               | apply remover_do_carrinho_inerte | apply limpar_carrinho_inerte
               | apply calcular_frete_inerte | apply frete_gratis_inerte
               | apply meus_pedidos_inerte | apply contato_inerte | apply recover_inerte
               | apply faq_inerte | apply teste_email_inerte
               | apply relatorios_admin_inerte | apply enviar_relatorio_inerte ]).
  - destruct (login_quadro req w) as [_ [H|H]]; [now left | now right; right].
  - right. left. apply logout_quadro.
  - left. apply cadastro_quadro.
  - left. apply finalizar_compra_quadro.
  - left. apply avaliar_quadro.
  - left. apply adicionar_quadro.
  - left. apply excluir_quadro.
Qed.

(** The table of users after an addition to the store. *)
Lemma acrescenta_tb_usuario db db' :
  acrescenta db db' ->
  tb_usuario db' = tb_usuario db \/
  exists nome senha,
    Usuario_by_nome db nome = None /\
    tb_usuario db' =
    (tb_usuario db ++ [mkUsuario (next_id (map Usuario_id (tb_usuario db))) nome senha])%list.
Proof.
  intros H. destruct H as [|nome senha Hn| | |? ? ? ? ? ? ? ? ? db' refs aberto Hext _];
    try (left; reflexivity).
  - right. now exists nome, senha.
  - left. destruct Hext as (_ & Hu & _). exact Hu.
Qed.

Lemma atender_tb_usuario amb r w :
  let db := w_db w in
  let db' := w_db (atender amb r w) in
  tb_usuario db' = tb_usuario db \/
  exists nome senha,
    Usuario_by_nome db nome = None /\
    tb_usuario db' =
    (tb_usuario db ++ [mkUsuario (next_id (map Usuario_id (tb_usuario db))) nome senha])%list.
Proof.
  cbv zeta. destruct (atender_db amb r w) as [H|(id & p & _ & _ & ->)].
  - now apply acrescenta_tb_usuario.
  - left. reflexivity.
Qed.

Lemma Usuario_by_nome_stays amb r w nome :
  Usuario_by_nome (w_db w) nome <> None ->
  Usuario_by_nome (w_db (atender amb r w)) nome <> None.
Proof.
  intros H. unfold Usuario_by_nome in *.
  destruct (atender_tb_usuario amb r w) as [->|(n & s & _ & ->)]; [exact H|].
  destruct (find _ (tb_usuario (w_db w))) as [u|] eqn:E; [|now elim H].
  now rewrite (find_app_some _ _ _ _ E).
Qed.

Lemma acrescenta_sem_orfaos db db' :
  acrescenta db db' -> sem_orfaos db -> sem_orfaos db'.
Proof.
  intros H Hold.
  destruct H as [|nome senha Hn|nome imagem preco| |? ? ? ? ? ? ? ? ? db' refs aberto Hext Hall];
    try exact Hold.
  - unfold sem_orfaos, insert_produto. cbn [tb_item_pedido].
    eapply Forall_impl; [|exact Hold]. cbv beta. intros i Hi.
    unfold ItemPedido_produto in *.
    destruct (ItemPedido_produto_id i) as [|n|s]; try exact Hi.
    destruct (Produto_by_id db n) as [p|] eqn:E; [|now elim Hi].
    fold (insert_produto db nome imagem preco).
    now rewrite (Produto_by_id_insert _ _ _ _ _ _ E).
  - destruct Hext as (P & _ & _ & _ & _ & extra & I & _ & R).
    assert (Hprod : tb_produto db' = tb_produto db) by exact P.
    unfold sem_orfaos. rewrite I. apply Forall_app. split.
    + eapply Forall_impl; [|exact Hold]. cbv beta. intros i Hi.
      now rewrite (ItemPedido_produto_same _ _ i Hprod).
    + subst refs. clear I. induction extra as [|i r IH]; constructor.
      * inversion Hall as [|v l (n & Hv & Hn) Hr]; subst.
        unfold ItemPedido_produto. rewrite Hv.
        now rewrite (Produto_by_id_same _ _ n Hprod).
      * apply IH. now inversion Hall.
Qed.

Lemma sem_orfaos_integros db : sem_orfaos db -> pedidos_integros db.
Proof.
  intros H pedido _. unfold Pedido_itens. apply Forall_forall. intros i Hi.
  apply filter_In in Hi. unfold sem_orfaos in H. rewrite Forall_forall in H.
  now apply H.
Qed.

Opaque total_vendas nomes_vendidos value_counts.

Lemma enviar_relatorio_integro mail_send admin_email w :
  pedidos_integros (w_db w) ->
  exists r, snd (serve (enviar_relatorio mail_send admin_email) w) = Served r.
Proof.
  intros Hok. destruct w as [db tx s so chs cs now]. cbn [w_db] in Hok.
  unfold serve, enviar_relatorio. cbn. unfold bind, try_except, mail_send_m.
  match goal with |- context [total_vendas ?t ?w1] =>
    destruct (total_vendas_outcome t w1) as [[_ [t' Ht]]|[Hbad _]] end.
  - rewrite Ht. cbn.
    destruct (nomes_vendidos db) as [|n r]; cbn;
      match goal with |- context [mail_send ?m] => destruct (mail_send m) as [e|] end;
      cbn; eauto.
  - exfalso. destruct Hbad as (p & i & Hp & Hi & Hn).
    specialize (Hok p Hp). rewrite Forall_forall in Hok. exact (Hok i Hi Hn).
Qed.

Transparent total_vendas nomes_vendidos value_counts.

(** ** What holds in every world the application gets to *)

Lemma com_sessao_db w s : w_db (com_sessao w s) = w_db w.
Proof. reflexivity. Qed.

(** X22: whoever is logged in has an account.  If the session names a stored
    user, or nobody, it still does after any sequence of requests from this
    browser and from others, to any route and in any environment; so the
    order history of a logged-in user is never an error page. *)
Theorem logged_in_user_is_stored (permitida : Rota -> bool) (w0 w : World) :
  sessao_conhecida w0 -> alcancavel permitida w0 w ->
  sessao_conhecida w /\
  exists r, snd (serve_reply meus_pedidos w) = Replied r.
Proof.
  intros H0 Hr.
  assert (H : sessao_conhecida w).
  { induction Hr as [|amb r w _ _ IH|amb r s w _ _ IH|t w _ IH|w _ IH].
    - exact H0.
    - intros nome Hn.
      destruct (atender_usuario amb r w) as [Hs|[Hs|(n & Hs & Hu)]].
      + apply Usuario_by_nome_stays. apply IH. congruence.
      + congruence.
      + apply Usuario_by_nome_stays. congruence.
    - intros nome Hn. unfold atender_alheio in *. cbn [com_sessao w_db w_session] in *.
      pose proof (Usuario_by_nome_stays amb r (com_sessao w s) nome) as Hst.
      rewrite com_sessao_db in Hst. apply Hst. now apply IH.
    - exact IH.
    - exact IH. }
  split; [exact H|].
  destruct w as [db tx [u c cep fr fl] so chs cs now].
  unfold serve_reply. cbn. destruct u as [nome|]; cbn; [|eauto].
  specialize (H nome eq_refl). cbn in H.
  destruct (Usuario_by_nome db nome); [cbn; eauto | now elim H].
Qed.

Lemma logged_in_user_is_stored_witness :
  let w := atender ambiente (RotaLogin (req_credenciais "bia" "s3nha"))
             (atender ambiente (RotaCadastro (req_credenciais "bia" "s3nha")) mundo) in
  sessao_conhecida mundo /\ alcancavel todas mundo w /\
  s_usuario (w_session w) = Some "bia" /\
  sessao_conhecida w /\
  exists r, snd (serve_reply meus_pedidos w) = Replied r.
Proof.
  cbv zeta.
  assert (H0 : sessao_conhecida mundo).
  { intros nome Hn. injection Hn as <-. discriminate. }
  assert (Hr : alcancavel todas mundo
                 (atender ambiente (RotaLogin (req_credenciais "bia" "s3nha"))
                    (atender ambiente (RotaCadastro (req_credenciais "bia" "s3nha"))
                       mundo))).
  { apply alcancavel_pedido; [reflexivity|].
    apply alcancavel_pedido; [reflexivity|]. apply alcancavel_inicio. }
  split; [exact H0|]. split; [exact Hr|]. split; [reflexivity|].
  exact (logged_in_user_is_stored todas mundo _ H0 Hr).
Defined.

(** X23: user names stay unique.  No sequence of requests, to any route, from
    any browser, leaves two users of one name in a store that had none. *)
Theorem user_names_stay_unique (permitida : Rota -> bool) (w0 w : World) :
  nomes_unicos (w_db w0) -> alcancavel permitida w0 w -> nomes_unicos (w_db w).
Proof.
  intros H0 Hr.
  assert (Hstep : forall amb r w1, nomes_unicos (w_db w1) ->
                                   nomes_unicos (w_db (atender amb r w1))).
  { intros amb r w1 Hnd. unfold nomes_unicos in *.
    destruct (atender_tb_usuario amb r w1) as [->|(nome & senha & Hfree & ->)];
      [exact Hnd|].
    rewrite map_app. simpl.
    apply NoDup_app; [exact Hnd | repeat constructor; intros [] |].
    intros x Hx [<-|[]]. exact (Usuario_by_nome_none_names _ _ Hfree Hx). }
  induction Hr as [|amb r w _ _ IH|amb r s w _ _ IH|t w _ IH|w _ IH].
  - exact H0.
  - now apply Hstep.
  - unfold atender_alheio. rewrite com_sessao_db.
    apply Hstep. now rewrite com_sessao_db.
  - exact IH.
  - exact IH.
Qed.

Lemma user_names_stay_unique_witness :
  let w := atender ambiente (RotaCadastro (req_credenciais "bia" "s3nha")) mundo in
  nomes_unicos (w_db mundo) /\ alcancavel todas mundo w /\
  map Usuario_nome (tb_usuario (w_db w)) = ["ana"; "bia"] /\
  nomes_unicos (w_db w).
Proof.
  cbv zeta.
  assert (H0 : nomes_unicos (w_db mundo)).
  { repeat constructor. intros []. }
  assert (Hr : alcancavel todas mundo
                 (atender ambiente (RotaCadastro (req_credenciais "bia" "s3nha")) mundo)).
  { apply alcancavel_pedido; [reflexivity|]. apply alcancavel_inicio. }
  split; [exact H0|]. split; [exact Hr|]. split; [reflexivity|].
  exact (user_names_stay_unique todas mundo _ H0 Hr).
Defined.

(** X24: only the deletion of a product leaves an order line without its
    product.  If every order line of the store has its product, then after
    any sequence of requests to the routes other than [excluir], from any
    browser, every line still has, and the sales report is served whatever
    the mail transport does. *)
Theorem only_excluir_orphans_order_lines (w0 w : World) :
  sem_orfaos (w_db w0) -> alcancavel sem_excluir w0 w ->
  sem_orfaos (w_db w) /\
  forall mail_send admin_email,
    exists r, snd (serve (enviar_relatorio mail_send admin_email) w) = Served r.
Proof.
  intros H0 Hr.
  assert (Hstep : forall amb r w1, sem_excluir r = true -> sem_orfaos (w_db w1) ->
                                   sem_orfaos (w_db (atender amb r w1))).
  { intros amb r w1 Hperm Hok.
    destruct (atender_db amb r w1) as [H|(id & p & -> & _)]; [|discriminate].
    exact (acrescenta_sem_orfaos _ _ H Hok). }
  assert (H : sem_orfaos (w_db w)).
  { induction Hr as [|amb r w Hp _ IH|amb r s w Hp _ IH|t w _ IH|w _ IH].
    - exact H0.
    - now apply Hstep.
    - unfold atender_alheio. rewrite com_sessao_db.
      apply Hstep; [exact Hp|]. now rewrite com_sessao_db.
    - exact IH.
    - exact IH. }
  split; [exact H|]. intros mail_send admin_email.
  apply enviar_relatorio_integro. now apply sem_orfaos_integros.
Qed.

Lemma only_excluir_orphans_order_lines_witness :
  let w := atender ambiente (RotaFinalizarCompra (mkRequest POST formulario_completo))
             mundo_com_carrinho in
  sem_orfaos (w_db mundo_com_carrinho) /\ alcancavel sem_excluir mundo_com_carrinho w /\
  sem_orfaos (w_db w) /\
  forall mail_send admin_email,
    exists r, snd (serve (enviar_relatorio mail_send admin_email) w) = Served r.
Proof.
  cbv zeta.
  assert (H0 : sem_orfaos (w_db mundo_com_carrinho)) by constructor.
  assert (Hr : alcancavel sem_excluir mundo_com_carrinho
                 (atender ambiente
                    (RotaFinalizarCompra (mkRequest POST formulario_completo))
                    mundo_com_carrinho)).
  { apply alcancavel_pedido; [reflexivity|]. apply alcancavel_inicio. }
  split; [exact H0|]. split; [exact Hr|].
  exact (only_excluir_orphans_order_lines mundo_com_carrinho _ H0 Hr).
Defined.

(** ** Forms that lack a field *)







(** ** The sales page *)

Lemma contagem_count_up table nome n :
  contagem (count_up table nome) n =
  contagem table n + (if String.eqb nome n then 1 else 0).
Proof.
  unfold contagem. induction table as [|[m c] r IH]; simpl.
  - destruct (String.eqb nome n); reflexivity.
  - destruct (String.eqb m nome) eqn:E; simpl.
    + apply String.eqb_eq in E. subst m.
      destruct (String.eqb nome n); simpl; lia.
    + destruct (String.eqb m n) eqn:E'; simpl.
      * apply String.eqb_eq in E'. subst m. rewrite String.eqb_sym in E. rewrite E. lia.
      * exact IH.
Qed.

Lemma keys_count_up table nome :
  map fst (count_up table nome) =
  if existsb (fun row => String.eqb (fst row) nome) table
  then map fst table else (map fst table ++ [nome])%list.
Proof.
  induction table as [|[m c] r IH]; simpl; [reflexivity|].
  destruct (String.eqb m nome); simpl; [reflexivity|].
  rewrite IH. destruct (existsb _ r); reflexivity.
Qed.

Lemma NoDup_count_up table nome :
  NoDup (map fst table) -> NoDup (map fst (count_up table nome)).
Proof.
  intros H. rewrite keys_count_up.
  destruct (existsb _ table) eqn:E; [exact H|].
  apply NoDup_app; [exact H | repeat constructor; intros [] |].
  intros x Hx [<-|[]].
  apply in_map_iff in Hx. destruct Hx as (row & Hrow & Hin).
  assert (Ht : existsb (fun row => String.eqb (fst row) nome) table = true).
  { apply existsb_exists. exists row. split; [exact Hin|].
    rewrite Hrow. apply String.eqb_refl. }
  congruence.
Qed.

Lemma positive_count_up table nome :
  Forall (fun row => 0 < snd row) table ->
  Forall (fun row => 0 < snd row) (count_up table nome).
Proof.
  induction 1 as [|[m c] r Hc Hr IH]; simpl; [repeat constructor; simpl; lia|].
  destruct (String.eqb m nome); constructor; auto. simpl in *. lia.
Qed.

(** The table of [value_counts]: one row per name, with the number of
    times the name occurs. *)
Lemma value_counts_table (dados : list string) :
  let t := value_counts dados in
  NoDup (map fst t) /\
  Forall (fun row => 0 < snd row) t /\
  forall nome, contagem t nome = Z.of_nat (count_occ string_dec dados nome).
Proof.
  unfold value_counts. induction dados as [|x l IH] using rev_ind.
  - simpl. split; [constructor|]. split; [constructor | reflexivity].
  - rewrite fold_left_app. simpl. destruct IH as (Hnd & Hpos & Hc).
    split; [now apply NoDup_count_up|]. split; [now apply positive_count_up|].
    intros nome. rewrite contagem_count_up, Hc, count_occ_app. simpl.
    destruct (string_dec x nome) as [->|Hne].
    + rewrite String.eqb_refl. lia.
    + apply String.eqb_neq in Hne. rewrite Hne. lia.
Qed.

Lemma contagem_In table nome c :
  NoDup (map fst table) -> In (nome, c) table -> contagem table nome = c.
Proof.
  unfold contagem. induction table as [|[m k] r IH]; simpl; [tauto|].
  intros Hnd [Heq|Hin].
  - injection Heq as -> ->. now rewrite String.eqb_refl.
  - inversion Hnd as [|? ? Hm Hr]; subst.
    destruct (String.eqb m nome) eqn:E; [|now apply IH].
    apply String.eqb_eq in E. subst m. elim Hm.
    apply in_map_iff. now exists (nome, c).
Qed.

Lemma contagem_positive_In table nome :
  0 < contagem table nome -> In (nome, contagem table nome) table.
Proof.
  unfold contagem. induction table as [|[m k] r IH]; simpl; [lia|].
  destruct (String.eqb m nome) eqn:E; simpl.
  - apply String.eqb_eq in E. subst m. now left.
  - intros H. right. now apply IH.
Qed.

Lemma count_occ_nomes_vendidos db nome :
  count_occ string_dec (nomes_vendidos db) nome = List.length (linhas_de db nome).
Proof.
  unfold nomes_vendidos, linhas_de.
  induction (tb_item_pedido db) as [|i r IH]; simpl; [reflexivity|].
  rewrite count_occ_app, IH.
  destruct (ItemPedido_produto db i) as [p|]; simpl; [|reflexivity].
  destruct (string_dec (Produto_nome p) nome) as [->|Hne].
  - rewrite String.eqb_refl. reflexivity.
  - apply String.eqb_neq in Hne. rewrite Hne. reflexivity.
Qed.

Lemma nomes_vendidos_nil db :
  nomes_vendidos db = [] <->
  forall item, In item (tb_item_pedido db) -> ItemPedido_produto db item = None.
Proof.
  unfold nomes_vendidos. induction (tb_item_pedido db) as [|i r IH]; simpl.
  - split; [intros _ item [] | reflexivity].
  - destruct (ItemPedido_produto db i) as [p|] eqn:E; simpl.
    + split; [discriminate|]. intros H. specialize (H i (or_introl eq_refl)). congruence.
    + rewrite IH. split.
      * intros H item [<-|Hin]; [exact E | now apply H].
      * intros H item Hin. apply H. now right.
Qed.

(** X28: the sales page is served whatever the store holds, order lines
    without a product included, and changes neither the store nor the
    session.  It draws no chart when no order line has a product; otherwise
    it writes one chart whose table has one row per product name, with the
    number of order lines of products of that name. *)
Theorem relatorios_admin_chart (w : World) :
  let out := serve relatorios_admin w in
  let w' := fst out in
  let arquivo := "graficos/vendas_barra_horizontal.png" in
  w_db w' = w_db w /\ w_session w' = w_session w /\
  ((forall item, In item (tb_item_pedido (w_db w)) ->
                 ItemPedido_produto (w_db w) item = None) ->
   out = (repouso w, Served (RenderRelatorios None))) /\
  ((exists item, In item (tb_item_pedido (w_db w)) /\
                 ItemPedido_produto (w_db w) item <> None) ->
   exists table,
     snd out = Served (RenderRelatorios (Some arquivo)) /\
     w_charts w' = (arquivo, table) :: w_charts w /\
     NoDup (map fst table) /\
     forall nome c,
       In (nome, c) table <->
       c = Z.of_nat (List.length (linhas_de (w_db w) nome)) /\ 0 < c).
Proof.
  destruct w as [db tx s so chs cs now]. cbv zeta.
  unfold serve, relatorios_admin, bind, get_tx. cbn [w_tx w_db].
  pose proof (nomes_vendidos_nil db) as Hnil.
  pose proof (value_counts_table (nomes_vendidos db)) as Ht. cbv zeta in Ht.
  destruct (nomes_vendidos db) as [|n r] eqn:E.
  - split; [reflexivity|]. split; [reflexivity|]. split; [reflexivity|].
    intros (item & Hin & Hp). elim Hp. now apply (proj1 Hnil).
  - split; [reflexivity|]. split; [reflexivity|]. split.
    + intros H. apply (proj2 Hnil) in H. discriminate.
    + intros _. destruct Ht as (Hnd & Hpos & Hc).
      eexists. split; [reflexivity|]. split; [reflexivity|]. split; [exact Hnd|].
      intros nome c. rewrite <- count_occ_nomes_vendidos, E, <- Hc. split.
      * intros Hin. split; [symmetry; now apply contagem_In|].
        rewrite Forall_forall in Hpos. exact (Hpos _ Hin).
      * intros [-> H]. now apply contagem_positive_In.
Qed.

(** ** The checkout and the shipping quote *)

(** The loop of the checkout reads the unit of work and nothing else:
    whether it runs to its end or raises, and what it leaves in the unit of
    work, are the same in every world with that unit of work. *)
Lemma finalizar_compra_loop_tx pedido_id (c : dict Z) :
  forall acc tx, exists (r : (float * list ItemEmail) + exn) tx',
    forall w, w_tx w = tx ->
      for_each c (finalizar_compra_item pedido_id) acc w =
      match r with
      | inl a => Val a (set_tx w tx')
      | inr e => Exc e (set_tx w tx')
      end.
Proof.
  induction c as [|[pid q] r IH]; intros [total itens] tx.
  - exists (inl (total, itens)), tx. intros w <-. simpl. unfold ret.
    now rewrite set_tx_same.
  - destruct (chave_aceita_ou_nao pid) as [Hk|(n & -> & Hn)].
    + destruct (Produto_row tx pid) as [prod|] eqn:Hp.
      * destruct (float_of_int q) as [f|] eqn:Hf.
        -- destruct (IH (PrimFloat.add total (PrimFloat.mul (Produto_preco prod) f),
                         (itens ++ [(Produto_nome prod, q, Produto_preco prod)])%list)
                       (Nat.iter (Z.to_nat q)
                          (fun tx => insert_item_pedido tx pedido_id (integer_affinity pid))
                          tx))
             as (res & tx' & Hrun).
           exists res, tx'. intros w Hw. subst tx.
           cbn [for_each]. unfold bind.
           rewrite (finalizar_compra_item_found pedido_id total itens pid q w prod f
                      Hk Hp Hf).
           match goal with |- context [for_each r _ _ ?w1] => rewrite (Hrun w1 eq_refl) end.
           now rewrite set_tx_set_tx.
        -- exists (inr (mkExn OverflowError "int too large to convert to float")), tx.
           intros w Hw. subst tx. cbn [for_each]. unfold bind at 1.
           unfold finalizar_compra_item, bind, get_tx.
           rewrite (Produto_get_aceita _ _ _ Hk), Hp.
           unfold float_mul_int. rewrite Hf. unfold raise. now rewrite set_tx_same.
      * destruct (IH (total, itens) tx) as (res & tx' & Hrun).
        exists res, tx'. intros w Hw. subst tx.
        cbn [for_each]. unfold bind.
        rewrite (finalizar_compra_item_missing pedido_id (total, itens) pid q w Hk Hp).
        now apply Hrun.
    + exists (inr (mkExn OverflowError
                     "Python int too large to convert to SQLite INTEGER")), tx.
      intros w Hw. subst tx. cbn [for_each]. unfold bind.
      now rewrite (finalizar_compra_item_recusada _ _ _ _ _ Hn), set_tx_same.
Qed.

Opaque finalizar_compra_itens try_except next_id insert_endereco.

(** A checkout reads neither the postal code nor the fee of the session,
    and leaves both where they are. *)
Lemma finalizar_compra_sem_cotacao mail_send script_mode db tx nome c fl so chs cs now
  form usuario :
  formulario_valido form = true ->
  Usuario_by_nome db nome = Some usuario ->
  exists res db' carr fl' so' cs', forall cep fr,
    serve (finalizar_compra mail_send script_mode (mkRequest POST form))
      (mkWorld db tx (mkSession (Some nome) c cep fr fl) so chs cs now) =
    (mkWorld db' db' (mkSession (Some nome) carr cep fr fl') so' chs cs' now, res).
Proof.
  intros Hform Huser.
  set (w1 := pedido_aberto (mkWorld db db (mkSession (Some nome) c None None fl) so chs cs now)
               (mkRequest POST form) usuario).
  destruct (finalizar_compra_loop_tx (next_id (map Pedido_id (tb_pedido db)))
              (get_carrinho (mkSession (Some nome) c None None fl)) (0%float, [])
              (w_tx w1)) as (r & tx' & Hrun).
  unfold formulario_valido in Hform. simpl in Hform.
  destruct r as [[total itens]|e].
  - destruct (notificacao_engolida mail_send script_mode nome (form_get form "email")
                itens total) as (out & Hmail & _).
    do 6 eexists. intros cep fr.
    unfold serve. cbn. rewrite Hform. cbn. rewrite Huser. cbn.
    unfold bind at 1.
    match goal with |- context [finalizar_compra_itens ?p ?c0 ?w0] =>
      pose proof (Hrun w0 eq_refl) as Hr0;
      match type of Hr0 with ?lhs = _ =>
        change (finalizar_compra_itens p c0 w0) with lhs end
    end.
    rewrite Hr0. cbn. unfold bind at 1.
    match goal with |- context [try_except ?a ?h ?w0] =>
      pose proof (Hmail w0) as Hm;
      match type of Hm with ?lhs = _ => change (try_except a h w0) with lhs end
    end.
    rewrite Hm. cbn. reflexivity.
  - do 6 eexists. intros cep fr.
    unfold serve. cbn. rewrite Hform. cbn. rewrite Huser. cbn.
    unfold bind at 1.
    match goal with |- context [finalizar_compra_itens ?p ?c0 ?w0] =>
      pose proof (Hrun w0 eq_refl) as Hr0;
      match type of Hr0 with ?lhs = _ =>
        change (finalizar_compra_itens p c0 w0) with lhs end
    end.
    rewrite Hr0. cbn. reflexivity.
Qed.

Transparent finalizar_compra_itens try_except next_id insert_endereco.

(** X29: shipping is never charged.  A checkout writes the same order, lines
    and address, notifies the same items and total, and answers the same
    page whatever postal code and fee the session holds from a quote, and it
    leaves that quote in the session for the next cart. *)
Theorem finalizar_compra_ignores_quote
  (mail_send : Message -> option exn) (script_mode : bool)
  (w : World) (req : Request) (nome : string) (usuario : Usuario)
  (cep : option string) (frete : option float) :
  req_method req = POST ->
  formulario_valido (req_form req) = true ->
  s_usuario (w_session w) = Some nome ->
  Usuario_by_nome (w_db w) nome = Some usuario ->
  quantidades_convertiveis (cart_of w) ->
  let out := serve (finalizar_compra mail_send script_mode req) w in
  let out' := serve (finalizar_compra mail_send script_mode req) (com_cotacao w cep frete) in
  snd out' = snd out /\
  w_db (fst out') = w_db (fst out) /\
  w_chamadas (fst out') = w_chamadas (fst out) /\
  s_cep_usuario (w_session (fst out')) = cep /\
  s_frete (w_session (fst out')) = frete.
Proof.
  intros Hpost Hform Hnome Huser _ out out'. subst out out'.
  destruct w as [db tx [u c cep0 fr0 fl] so chs cs now]. destruct req as [m form].
  simpl in Hpost, Hform, Hnome, Huser. subst m u.
  destruct (finalizar_compra_sem_cotacao mail_send script_mode db tx nome c fl so chs cs
              now form usuario Hform Huser)
    as (res & db' & carr & fl' & so' & cs' & H).
  unfold com_cotacao, com_sessao. cbn [w_db w_tx w_session w_stdout w_charts w_chamadas
    w_now s_usuario s_carrinho s_flashes].
  rewrite (H cep frete), (H cep0 fr0). repeat split.
Qed.

Lemma finalizar_compra_ignores_quote_witness :
  let req := mkRequest POST formulario_completo in
  let out := serve (finalizar_compra entrega false req) mundo_com_carrinho in
  let out' := serve (finalizar_compra entrega false req)
                (com_cotacao mundo_com_carrinho (Some "01310-100") (Some 19.90%float)) in
  snd out' = snd out /\
  w_db (fst out') = w_db (fst out) /\
  w_chamadas (fst out') = w_chamadas (fst out) /\
  s_cep_usuario (w_session (fst out')) = Some "01310-100" /\
  s_frete (w_session (fst out')) = Some 19.90%float.
Proof.
  assert (Hconv : quantidades_convertiveis (cart_of mundo_com_carrinho)).
  { repeat constructor; discriminate. }
  exact (finalizar_compra_ignores_quote entrega false mundo_com_carrinho
           (mkRequest POST formulario_completo) "ana" ana
           (Some "01310-100") (Some 19.90%float)
           eq_refl eq_refl eq_refl eq_refl Hconv).
Defined.
